(** * DEM12 sales pipeline: transformation and load logic

  A shallow embedding of [include/transformations.py],
  [include/db_loader.py] and the load and validation tasks of
  [dags/sales_pipeline_dag.py], with the properties the specification
  states about them.
  Further on come the other tasks of the DAG over a model of the object
  store, the endpoint validators of the two [config.py] files and the row
  generator of [data-generator/generate_data.py], with properties read
  off the code.

  Conventions of the model.
  - A pandas cell is a value of the inductive [cell]; a [DataFrame] is
    its column table (name to dtype) and its list of rows.
  - A number is the rational it stands for ([Q]), int64 or float64 as the
    dtype of its column says; NaN, None and NaT are the one missing value
    [NA].  The products, the difference and the rounding of the revenue
    are those of numpy: an int64 result wraps around, a float64 result is
    rounded to 53 bits.  The sums and the means of the aggregation are
    exact, and a float64 has no largest exponent: inf is not modelled.
  - A Python [str] is a Rocq string that holds its UTF-8 encoding;
    [str.strip], [str.lower] and [str.title] work on its code points, by
    the ASCII rules on ASCII and by a character database beyond it.
  - What pandas parses out of a string (a number, a timestamp) and what
    the character database says are not fixed by the repository: they are
    the fields of a [Coercions] record every definition takes as a
    parameter.
  - A timestamp is an integer number of nanoseconds since the epoch,
    without the limits of datetime64[ns].
  - Raising is the [Raise] constructor of [result]; log messages are left
    out.
  - The random draws of the generator, the clock, and what pandas reads
    from and writes to files are parameters as well.
  - MinIO is a map from bucket names to buckets, a bucket a map from
    object keys to bodies; the requests of the archive task may be
    refused.  XCom values are passed from task to task as results and
    arguments. *)

From stdpp Require Import base option list strings gmap.
From Stdlib Require Import ZArith QArith Qround Bool Ascii String List Lia.
Import ListNotations.

Local Open Scope string_scope.
Local Open Scope Z_scope.

(* ===================================================================== *)
(** ** Python string methods used by the cleaning step *)
(* ===================================================================== *)

Module Text.

(** *** The ASCII range *)

Definition code (c : ascii) : N := N_of_ascii c.

(** [str.isspace] on the ASCII range: TAB..CR, FS..US and the space. *)
Definition isspace (c : ascii) : bool :=
  let n := code c in
  ((9 <=? n) && (n <=? 13) || (28 <=? n) && (n <=? 32))%N.

Definition isupper (c : ascii) : bool :=
  let n := code c in ((65 <=? n) && (n <=? 90))%N.

Definition islower (c : ascii) : bool :=
  let n := code c in ((97 <=? n) && (n <=? 122))%N.

(** An ASCII character is cased when it is a letter. *)
Definition iscased (c : ascii) : bool := isupper c || islower c.

Definition to_lower (c : ascii) : ascii :=
  if isupper c then ascii_of_N (code c + 32) else c.

Definition to_upper (c : ascii) : ascii :=
  if islower c then ascii_of_N (code c - 32) else c.

(** *** Code points *)

(** A Python [str] is a sequence of code points; a Rocq string holds its
    UTF-8 encoding.  A byte that belongs to no well-formed UTF-8 sequence
    (overlong forms and encoded surrogates are not well formed) stands for
    itself: it is read as the lone surrogate U+DC00 + byte and written back
    as that byte (the surrogateescape convention of PEP 383). *)
Definition continuation (b : N) : bool := ((128 <=? b) && (b <? 192))%N.

Fixpoint decode (s : string) : list N :=
  match s with
  | EmptyString => []
  | String c s1 =>
      let b := code c in
      let alone := (if b <? 128 then b else 56320 + b)%N :: decode s1 in
      if ((b <? 194) || (244 <? b))%N then alone
      else
        match s1 with
        | String c1 s2 =>
            let b1 := code c1 in
            if negb (continuation b1) then alone
            else if (b <? 224)%N
            then ((b - 192) * 64 + (b1 - 128))%N :: decode s2
            else
              match s2 with
              | String c2 s3 =>
                  let b2 := code c2 in
                  if negb (continuation b2) then alone
                  else if (b <? 240)%N
                  then
                    let n := ((b - 224) * 4096 + (b1 - 128) * 64 + (b2 - 128))%N in
                    if ((n <? 2048) || (55296 <=? n) && (n <? 57344))%N then alone
                    else n :: decode s3
                  else
                    match s3 with
                    | String c3 s4 =>
                        let b3 := code c3 in
                        if negb (continuation b3) then alone
                        else
                          let n := ((b - 240) * 262144 + (b1 - 128) * 4096
                                    + (b2 - 128) * 64 + (b3 - 128))%N in
                          if ((n <? 65536) || (1114111 <? n))%N then alone
                          else n :: decode s4
                    | EmptyString => alone
                    end
              | EmptyString => alone
              end
        | EmptyString => alone
        end
  end.

Definition bytes (bs : list N) (s : string) : string :=
  fold_right (fun b s => String (ascii_of_N b) s) s bs.

Definition encode_point (n : N) (s : string) : string :=
  (if n <? 128 then bytes [n] s
   else if n <? 2048 then bytes [192 + n / 64; 128 + n mod 64] s
   else if (56448 <=? n) && (n <? 56576) then bytes [n - 56320] s
   else if n <? 65536
        then bytes [224 + n / 4096; 128 + (n / 64) mod 64; 128 + n mod 64] s
   else bytes [240 + n / 262144; 128 + (n / 4096) mod 64;
               128 + (n / 64) mod 64; 128 + n mod 64] s)%N.

Definition encode (ns : list N) : string := fold_right encode_point EmptyString ns.

(** What Python's character database says of the characters beyond
    ASCII, left open (it comes with the interpreter): the lower-case and
    the title-case mapping of a character, each one to three characters
    long, whether it is cased, whether casing ignores it, and whether it is
    white space. *)
Record Unicode : Type := mkUnicode {
  lower_full : N -> list N;
  title_full : N -> list N;
  cased : N -> bool;
  case_ignorable : N -> bool;
  space : N -> bool }.

Definition is_space (U : Unicode) (n : N) : bool :=
  if (n <? 128)%N then isspace (ascii_of_N n) else space U n.

Definition is_cased (U : Unicode) (n : N) : bool :=
  if (n <? 128)%N then iscased (ascii_of_N n) else cased U n.

Definition lower_point (U : Unicode) (n : N) : list N :=
  if (n <? 128)%N then [code (to_lower (ascii_of_N n))] else lower_full U n.

Definition title_point (U : Unicode) (n : N) : list N :=
  if (n <? 128)%N then [code (to_upper (ascii_of_N n))] else title_full U n.

Fixpoint skip (p : N -> bool) (ns : list N) : list N :=
  match ns with
  | [] => []
  | n :: ns' => if p n then skip p ns' else ns
  end.

(** A capital sigma is in final position when a cased character comes
    before it and none after it, characters that casing ignores set aside;
    [before] holds the characters before it, the nearest first. *)
Definition final_sigma (U : Unicode) (before after : list N) : bool :=
  match skip (case_ignorable U) before with
  | n :: _ => is_cased U n
  | [] => false
  end
  && match skip (case_ignorable U) after with
     | n :: _ => negb (is_cased U n)
     | [] => true
     end.

(** The lower case of the character [n] where it stands. *)
Definition lower_at (U : Unicode) (before : list N) (n : N) (after : list N) : list N :=
  if (n =? 931)%N
  then [if final_sigma U before after then 962%N else 963%N]
  else lower_point U n.

Fixpoint lower_from (U : Unicode) (before ns : list N) : list N :=
  match ns with
  | [] => []
  | n :: ns' => app (lower_at U before n ns') (lower_from U (n :: before) ns')
  end.

(** [s.lower()] *)
Definition lower (U : Unicode) (s : string) : string :=
  encode (lower_from U [] (decode s)).

Fixpoint title_from (U : Unicode) (previous_is_cased : bool) (before ns : list N)
  : list N :=
  match ns with
  | [] => []
  | n :: ns' =>
      app (if previous_is_cased then lower_at U before n ns' else title_point U n)
          (title_from U (is_cased U n) (n :: before) ns')
  end.

(** [s.title()]: a character that follows a cased one is put in lower
    case, every other one in title case; whether a character is cased is
    read off the string as it was. *)
Definition title (U : Unicode) (s : string) : string :=
  encode (title_from U false [] (decode s)).

Fixpoint lstrip_points (U : Unicode) (ns : list N) : list N :=
  match ns with
  | [] => []
  | n :: ns' => if is_space U n then lstrip_points U ns' else ns
  end.

Fixpoint rstrip_points (U : Unicode) (ns : list N) : list N :=
  match ns with
  | [] => []
  | n :: ns' =>
      match rstrip_points U ns' with
      | [] => if is_space U n then [] else [n]
      | t => n :: t
      end
  end.

(** [s.strip()] *)
Definition strip (U : Unicode) (s : string) : string :=
  encode (rstrip_points U (lstrip_points U (decode s))).

(** *** Text that is all ASCII *)

Definition is_ascii (s : string) : bool :=
  forallb (fun c => (code c <? 128)%N) (list_ascii_of_string s).

(** On ASCII text the three methods work character by character. *)
Fixpoint ascii_lower (s : string) : string :=
  match s with
  | EmptyString => EmptyString
  | String c s' => String (to_lower c) (ascii_lower s')
  end.

Fixpoint ascii_title_from (previous_is_cased : bool) (s : string) : string :=
  match s with
  | EmptyString => EmptyString
  | String c s' =>
      String (if previous_is_cased then to_lower c else to_upper c)
             (ascii_title_from (iscased c) s')
  end.

Definition ascii_title (s : string) : string := ascii_title_from false s.

Fixpoint ascii_lstrip (s : string) : string :=
  match s with
  | EmptyString => EmptyString
  | String c s' => if isspace c then ascii_lstrip s' else s
  end.

Definition is_empty (s : string) : bool :=
  match s with EmptyString => true | _ => false end.

Fixpoint ascii_rstrip (s : string) : string :=
  match s with
  | EmptyString => EmptyString
  | String c s' =>
      let t := ascii_rstrip s' in
      if isspace c && is_empty t then EmptyString else String c t
  end.

Definition ascii_strip (s : string) : string := ascii_rstrip (ascii_lstrip s).

(** Two strings have the same shape when they have white space at the
    same positions. *)
Inductive same_shape : string -> string -> Prop :=
| shape_nil : same_shape EmptyString EmptyString
| shape_cons c d s t :
    isspace c = isspace d -> same_shape s t ->
    same_shape (String c s) (String d t).

(** A string does not start with white space. *)
Definition starts_clean (s : string) : bool :=
  match s with
  | EmptyString => true
  | String c _ => negb (isspace c)
  end.

(** A trimmed string has no white space at either end. *)
Definition trimmed (s : string) : Prop :=
  starts_clean s = true /\ ascii_rstrip s = s.

End Text.

(* ===================================================================== *)
(** ** Numbers: int64 and float64 arithmetic, clipping and rounding *)
(* ===================================================================== *)

Module Numeric.

(** [numpy.rint]: nearest integer, ties to the even one. *)
Definition rint (q : Q) : Z :=
  let n := Qnum q in
  let d := Z.pos (Qden q) in
  let f := n / d in
  let r := n mod d in
  match 2 * r ?= d with
  | Lt => f
  | Gt => f + 1
  | Eq => if Z.even f then f else f + 1
  end.

(** *** int64 *)

(** The int64 a result is stored as: numpy wraps around without a
    warning. *)
Definition wrap64 (z : Z) : Z := (z + 2 ^ 63) mod 2 ^ 64 - 2 ^ 63.

Definition is_integer (q : Q) : bool := Qnum q mod Z.pos (Qden q) =? 0.

Definition int_mul (p q : Q) : Q := inject_Z (wrap64 (Qfloor p * Qfloor q)).

Definition int_sub (p q : Q) : Q := inject_Z (wrap64 (Qfloor p - Qfloor q)).

(** *** float64 *)

(** [binade q] is the exponent of [q]: 2^k <= |q| < 2^(k+1), for [q]
    other than 0. *)
Definition binade (q : Q) : Z :=
  let a := Z.abs (Qnum q) in
  let d := Z.pos (Qden q) in
  let k := Z.log2 a - Z.log2 d in
  if (if 0 <=? k then d * 2 ^ k <=? a else d <=? a * 2 ^ (- k)) then k else k - 1.

(** The float64 nearest to [q], ties to the even mantissa: 53 bits of
    mantissa, fewer below 2^-1022.  The exponent has no upper limit here:
    a float64 operation that overflows gives inf, which the model does not
    have. *)
Definition fl64 (q : Q) : Q :=
  if Qnum q =? 0 then 0%Q
  else
    let e := Z.max (binade q - 52) (- 1074) in
    if 0 <=? e
    then inject_Z (rint (Qnum q # (Qden q * Z.to_pos (2 ^ e))) * 2 ^ e)
    else Qred (rint (Qnum q * 2 ^ (- e) # Qden q) # Z.to_pos (2 ^ (- e))).

Definition float_mul (p q : Q) : Q := fl64 (p * q).

Definition float_sub (p q : Q) : Q := fl64 (p - q).

Definition float_div (p q : Q) : Q := fl64 (p / q).

(** [numpy.round(x, decimals)] on a float64: multiply by 10^decimals,
    [rint], divide, each in float64. *)
Definition round (decimals : nat) (q : Q) : Q :=
  let scale := inject_Z (10 ^ Z.of_nat decimals) in
  float_div (inject_Z (rint (float_mul q scale))) scale.

(** Python's [round(x, ndigits)] on a float: the nearest float to the
    decimal nearest to [x], ties to the even digit. *)
Definition py_round (ndigits : nat) (q : Q) : Q :=
  let scale := Z.to_pos (10 ^ Z.of_nat ndigits) in
  fl64 (rint (q * (Z.pos scale # 1)) # scale).

(** [Series.clip(lower, upper)] on one value. *)
Definition clip (lower upper x : Q) : Q :=
  if Qle_bool x lower then lower
  else if Qle_bool upper x then upper
  else x.

Definition sum (xs : list Q) : Q := Qred (fold_left Qplus xs 0%Q).

(** Mean of the values present; missing when there is none. *)
Definition mean (xs : list Q) : option Q :=
  match xs with
  | [] => None
  | _ => Some (Qred (sum xs / inject_Z (Z.of_nat (List.length xs))))
  end.

End Numeric.

(* ===================================================================== *)
(** ** The pandas data model *)
(* ===================================================================== *)

Module Pandas.

(** One value of a column.  [Num q] is a number, int64 or float64 as its
    column is; [Day d] is a [datetime.date], [d] days after 1970-01-01;
    [Stamp ns] is a [Timestamp], [ns] nanoseconds after the epoch on its own
    clock; [NA] stands for NaN, None and NaT. *)
Inductive cell : Type :=
| NA
| Str (s : string)
| Num (q : Q)
| Day (d : Z)
| Stamp (ns : Z).

(** The float64 nearest to [q], as a cell. *)
Definition Float (q : Q) : cell := Num (Numeric.fl64 q).

(** Column dtypes, as far as the pipeline tells them apart. *)
Inductive dtype : Type := object_ | int64 | float64 | datetime64.

#[export] Instance dtype_eq_dec : EqDecision dtype.
Proof. solve_decision. Defined.

Record Series : Type := mkSeries { dtype_of : dtype; values : list cell }.

(** A row maps column names to cells; a frame records the dtype of each
    of its columns and holds its rows in index order. *)
Record DataFrame : Type :=
  mkFrame { dtypes : gmap string dtype; rows : list (gmap string cell) }.

Inductive message : Type :=
| MissingRequiredColumns (missing : gset string)
    (* "CSV is missing required columns: {missing}" *)
| CsvMissingColumns (missing : gset string)
    (* "CSV missing columns: {missing}" *)
| CsvEmpty
    (* "Downloaded CSV is empty." *)
| ClosedFile.
    (* "I/O operation on closed file." *)

Inductive exn : Type :=
| ValueError (m : message)
| AttributeError (accessor : string)
| KeyError (column : string)
| TypeError
| DatabaseError (sqlstate : string).

Inductive result (A : Type) : Type :=
| Return (a : A)
| Raise (e : exn).
Arguments Return {A} a.
Arguments Raise {A} e.

#[export] Instance result_ret : MRet result := @Return.
#[export] Instance result_bind : MBind result :=
  fun A B f m => match m with Return a => f a | Raise e => Raise e end.

(** A number as [pd.to_numeric] reads it: an int64 or a float64. *)
Inductive number : Type :=
| Integer (z : Z)
| Floating (q : Q).

Definition value (n : number) : Q :=
  match n with Integer z => inject_Z z | Floating q => q end.

(** What pandas and Python read in a string, left open.
    [parse_number s] is what [pd.to_numeric] reads in [s];
    [parse_datetime hint s] is what [pd.to_datetime] reads in [s] when the
    first non-null string of the column is [hint] (the format is guessed
    from it): the time on the clock the string names, and
    [utc_offset hint s] is the UTC offset the string gives, if it gives
    one; [epoch_datetime q] is the timestamp of a number.  [None] is a
    value that cannot be coerced.  [unicode] is the character database
    behind [str.strip], [str.lower] and [str.title]. *)
Record Coercions : Type := mkCoercions {
  parse_number : string -> option number;
  parse_datetime : option string -> string -> option Z;
  utc_offset : option string -> string -> option Z;
  epoch_datetime : Q -> option Z;
  unicode : Text.Unicode }.

Definition notna (c : cell) : bool :=
  match c with NA => false | _ => true end.

(** Equality of two cells as [duplicated] and [groupby] see it: missing
    values are equal to each other, numbers are compared by value. *)
Definition cell_eqb (a b : cell) : bool :=
  match a, b with
  | NA, NA => true
  | Str s, Str t => String.eqb s t
  | Num p, Num q => Qeq_bool p q
  | Day d, Day e => Z.eqb d e
  | Stamp m, Stamp n => Z.eqb m n
  | _, _ => false
  end.

(** [row[name]], a missing value when the row has no such entry. *)
Definition at_col (name : string) (r : gmap string cell) : cell :=
  default NA (r !! name).

Definition len (df : DataFrame) : Z := Z.of_nat (List.length (rows df)).

Definition columns (df : DataFrame) : gset string := dom (dtypes df).

(** [df.empty]: no row or no column. *)
Definition empty (df : DataFrame) : bool :=
  match rows df with
  | [] => true
  | _ => bool_decide (dtypes df = ∅)
  end.

(** [df[name]] *)
Definition getitem (df : DataFrame) (name : string) : result Series :=
  match dtypes df !! name with
  | Some dt => Return (mkSeries dt (map (at_col name) (rows df)))
  | None => Raise (KeyError name)
  end.

Fixpoint assign (name : string) (rs : list (gmap string cell)) (vs : list cell)
  : list (gmap string cell) :=
  match rs, vs with
  | r :: rs', v :: vs' => <[name := v]> r :: assign name rs' vs'
  | _, _ => []
  end.

(** [df[name] = s]: the column is replaced, or added when it is new. *)
Definition setitem (name : string) (s : Series) (df : DataFrame) : DataFrame :=
  mkFrame (<[name := dtype_of s]> (dtypes df)) (assign name (rows df) (values s)).

(** Of the elements that agree on their key, the first: what
    [duplicated(keep="first")] and the grouping of [groupby] keep.  [seen]
    holds the keys met so far. *)
Fixpoint first_of_each {A K : Type} (key : A -> K) (eqb : K -> K -> bool)
         (seen : list K) (xs : list A) : list A :=
  match xs with
  | [] => []
  | x :: xs' =>
      if existsb (eqb (key x)) seen
      then first_of_each key eqb seen xs'
      else x :: first_of_each key eqb (key x :: seen) xs'
  end.

(** [fresh key eqb seen xs]: no element of [xs] repeats the key of an
    earlier one or a key of [seen]. *)
Fixpoint fresh {A K : Type} (key : A -> K) (eqb : K -> K -> bool)
         (seen : list K) (xs : list A) : Prop :=
  match xs with
  | [] => True
  | x :: xs' =>
      existsb (eqb (key x)) seen = false /\ fresh key eqb (key x :: seen) xs'
  end.

(** [df.drop_duplicates(subset=[name])]: of the rows that agree on the
    column, the first stays. *)
Definition drop_duplicates (name : string) (df : DataFrame) : DataFrame :=
  mkFrame (dtypes df) (first_of_each (at_col name) cell_eqb [] (rows df)).

(** [df.dropna(subset=names)]: a row stays when none of the named cells
    is missing. *)
Definition complete (names : list string) (r : gmap string cell) : bool :=
  forallb (fun name => notna (at_col name r)) names.

Definition dropna (names : list string) (df : DataFrame) : DataFrame :=
  mkFrame (dtypes df) (List.filter (complete names) (rows df)).

(** *** Coercions of a column *)

(** The number read in a cell. *)
Definition to_numeric_cell (P : Coercions) (c : cell) : cell :=
  match c with
  | Num q => Num q
  | Str s => match parse_number P s with Some n => Num (value n) | None => NA end
  | Stamp ns => Num (inject_Z ns)
  | NA | Day _ => NA
  end.

(** Whether the number read in a cell is an integer; a number that stands
    in a column of Python objects is taken by its value. *)
Definition reads_integer (P : Coercions) (c : cell) : bool :=
  match c with
  | Num q => Numeric.is_integer q
  | Str s => match parse_number P s with Some (Integer _) => true | _ => false end
  | Stamp _ => true
  | NA | Day _ => false
  end.

(** The dtype [pd.to_numeric] returns: a numeric column keeps its own;
    another one becomes int64 when every value is read as an integer, and
    float64 when one is not or is missing. *)
Definition numeric_dtype (P : Coercions) (s : Series) : dtype :=
  match dtype_of s with
  | int64 => int64
  | float64 => float64
  | _ => if forallb (reads_integer P) (values s) then int64 else float64
  end.

(** A value stored in a column of dtype [dt]: in a float64 column a
    number is rounded to a float64. *)
Definition astype_cell (dt : dtype) (c : cell) : cell :=
  match dt, c with
  | float64, Num q => Num (Numeric.fl64 q)
  | _, _ => c
  end.

(** One cell of [pd.to_numeric(s, errors="coerce")], for a column of dtype
    [source] coerced to [target]: a numeric column is returned as it is. *)
Definition numeric_cell (P : Coercions) (source target : dtype) (c : cell) : cell :=
  match source with
  | int64 | float64 => to_numeric_cell P c
  | _ => astype_cell target (to_numeric_cell P c)
  end.

(** [pd.to_numeric(s, errors="coerce")] *)
Definition to_numeric (P : Coercions) (s : Series) : Series :=
  let target := numeric_dtype P s in
  mkSeries target (map (numeric_cell P (dtype_of s) target) (values s)).

Definition ns_per_day : Z := 86400 * 1000000000.

(** The string the timestamp format is guessed from. *)
Definition format_hint (vs : list cell) : option string :=
  match List.filter notna vs with
  | Str s :: _ => Some s
  | _ => None
  end.

Definition to_datetime_cell (P : Coercions) (hint : option string) (c : cell) : cell :=
  match c with
  | NA => NA
  | Str s => match parse_datetime P hint s with Some ns => Stamp ns | None => NA end
  | Num q => match epoch_datetime P q with Some ns => Stamp ns | None => NA end
  | Day d => Stamp (d * ns_per_day)
  | Stamp ns => Stamp ns
  end.

(** The UTC offset of the timestamp read in a cell: [Some None] for a
    timestamp without one, [None] when no timestamp is read. *)
Definition zone_of (P : Coercions) (hint : option string) (c : cell)
  : option (option Z) :=
  match c with
  | Str s =>
      match parse_datetime P hint s with
      | Some _ => Some (utc_offset P hint s)
      | None => None
      end
  | _ => match to_datetime_cell P hint c with NA => None | _ => Some None end
  end.

(** The timestamps read in a column all have the same UTC offset, or all
    have none. *)
Definition one_zone (P : Coercions) (vs : list cell) : bool :=
  match omap (zone_of P (format_hint vs)) vs with
  | [] => true
  | z :: zs => forallb (fun z' => bool_decide (z' = z)) zs
  end.

(** [pd.to_datetime(s, errors="coerce")]: a datetime64 column when the
    timestamps are of one zone.  Timestamps of different UTC offsets do not
    fit one datetime64 column: pandas 2 returns a column of Python objects
    (pandas 3 refuses the column with a ValueError instead). *)
Definition to_datetime (P : Coercions) (s : Series) : Series :=
  mkSeries (if one_zone P (values s) then datetime64 else object_)
           (map (to_datetime_cell P (format_hint (values s))) (values s)).

Definition clip_cell (lower upper : Q) (c : cell) : cell :=
  match c with
  | Num q => Num (Numeric.clip lower upper q)
  | _ => c
  end.

(** [s.clip(lower, upper)] *)
Definition clip (lower upper : Q) (s : Series) : Series :=
  mkSeries (dtype_of s) (map (clip_cell lower upper) (values s)).

(** One cell of [s.round(decimals)] for a column of dtype [dt]: an
    integer stays as it is. *)
Definition round_cell (dt : dtype) (decimals : nat) (c : cell) : cell :=
  match dt, c with
  | int64, _ => c
  | _, Num q => Num (Numeric.round decimals q)
  | _, _ => c
  end.

(** [s.round(decimals)] *)
Definition round (decimals : nat) (s : Series) : Series :=
  mkSeries (dtype_of s) (map (round_cell (dtype_of s) decimals) (values s)).

(** The number of an int64 column as a float64. *)
Definition as_float (dt : dtype) (q : Q) : Q :=
  match dt with int64 => Numeric.fl64 q | _ => q end.

(** The dtype of the result of an operation on two numeric columns. *)
Definition result_dtype (da db : dtype) : dtype :=
  match da, db with int64, int64 => int64 | _, _ => float64 end.

(** One cell of [a * b] for columns of dtypes [da] and [db]: the int64
    product of two int64, the float64 product otherwise. *)
Definition mul_cell (da db : dtype) (a b : cell) : cell :=
  match a, b with
  | Num p, Num q =>
      match result_dtype da db with
      | int64 => Num (Numeric.int_mul p q)
      | _ => Num (Numeric.float_mul (as_float da p) (as_float db q))
      end
  | _, _ => NA
  end.

(** One cell of [k - s] for the integer [k] and a column of dtype [dt]. *)
Definition rsub_cell (dt : dtype) (k : Z) (a : cell) : cell :=
  match a with
  | Num q =>
      match dt with
      | int64 => Num (Numeric.int_sub (inject_Z k) q)
      | _ => Num (Numeric.float_sub (inject_Z k) q)
      end
  | _ => NA
  end.

Fixpoint zip_cells (f : cell -> cell -> cell) (xs ys : list cell) : list cell :=
  match xs, ys with
  | x :: xs', y :: ys' => f x y :: zip_cells f xs' ys'
  | _, _ => []
  end.

(** [a * b] on two columns *)
Definition mul (a b : Series) : Series :=
  mkSeries (result_dtype (dtype_of a) (dtype_of b))
           (zip_cells (mul_cell (dtype_of a) (dtype_of b)) (values a) (values b)).

(** [k - s] *)
Definition rsub (k : Z) (s : Series) : Series :=
  mkSeries (result_dtype (dtype_of s) int64) (map (rsub_cell (dtype_of s) k) (values s)).

(** *** The [.str] and [.dt] accessors *)

Definition str_cell (f : string -> string) (c : cell) : cell :=
  match c with
  | Str s => Str (f s)
  | _ => NA
  end.

(** [s.str.method()]: the accessor exists on object columns only; on a
    numeric or datetime column pandas raises "Can only use .str accessor
    with string values!". *)
Definition str_method (f : string -> string) (s : Series) : result Series :=
  match dtype_of s with
  | object_ => Return (mkSeries object_ (map (str_cell f) (values s)))
  | _ => Raise (AttributeError "str")
  end.

Definition date_cell (c : cell) : cell :=
  match c with
  | Stamp ns => Day (ns / ns_per_day)
  | _ => NA
  end.

(** [s.dt.date]: the accessor exists on datetime columns only; on
    another column pandas raises "Can only use .dt accessor with
    datetimelike values". *)
Definition dt_date (s : Series) : result Series :=
  match dtype_of s with
  | datetime64 => Return (mkSeries object_ (map date_cell (values s)))
  | _ => Raise (AttributeError "dt")
  end.

End Pandas.

(* ===================================================================== *)
(** ** include/transformations.py *)
(* ===================================================================== *)

Module Transformations.
Import Pandas.

Definition REQUIRED_COLUMNS : gset string :=
  list_to_set
    [ "order_id"; "customer_id"; "product"; "category"; "region";
      "quantity"; "unit_price"; "discount"; "order_date"; "status" ].

(** Raise ValueError if required columns are missing. *)
Definition validate_schema (df : DataFrame) : result unit :=
  let missing := REQUIRED_COLUMNS ∖ columns df in
  if bool_decide (missing = ∅)
  then Return tt
  else Raise (ValueError (MissingRequiredColumns missing)).

(** The sections of [clean_and_transform], in the order of the source. *)

(** Coerce types *)
Definition coerce_types (P : Coercions) (df : DataFrame) : result DataFrame :=
  s ← getitem df "order_date";
  let df := setitem "order_date" (to_datetime P s) df in
  s ← getitem df "quantity";
  let df := setitem "quantity" (to_numeric P s) df in
  s ← getitem df "unit_price";
  let df := setitem "unit_price" (to_numeric P s) df in
  s ← getitem df "discount";
  let df := setitem "discount" (clip 0 1 (to_numeric P s)) df in
  Return df.

(** Normalise text fields *)
Definition normalise_text (P : Coercions) (df : DataFrame) : result DataFrame :=
  let U := unicode P in
  s ← getitem df "region"; s ← str_method (Text.strip U) s; s ← str_method (Text.title U) s;
  let df := setitem "region" s df in
  s ← getitem df "category"; s ← str_method (Text.strip U) s; s ← str_method (Text.title U) s;
  let df := setitem "category" s df in
  s ← getitem df "product"; s ← str_method (Text.strip U) s;
  let df := setitem "product" s df in
  s ← getitem df "status"; s ← str_method (Text.strip U) s; s ← str_method (Text.lower U) s;
  let df := setitem "status" s df in
  Return df.

(** Compute revenue *)
Definition compute_revenue (df : DataFrame) : result DataFrame :=
  quantity ← getitem df "quantity";
  unit_price ← getitem df "unit_price";
  discount ← getitem df "discount";
  Return (setitem "total_revenue"
            (round 2 (mul (mul quantity unit_price) (rsub 1 discount))) df).

(** Cast order_date to plain date *)
Definition cast_order_date (df : DataFrame) : result DataFrame :=
  s ← getitem df "order_date"; s ← dt_date s;
  Return (setitem "order_date" s df).

(** Apply all cleaning and transformation rules; the result is
    [(cleaned_df, num_rows_skipped)]. *)
Definition clean_and_transform (P : Coercions) (df : DataFrame)
  : result (DataFrame * Z) :=
  let original_len := len df in
  (* Schema check *)
  _ ← validate_schema df;
  (* Drop exact duplicate rows *)
  let df := drop_duplicates "order_id" df in
  df ← coerce_types P df;
  (* Drop rows that cannot be salvaged *)
  let df := dropna ["order_id"; "order_date"; "quantity"; "unit_price"] df in
  df ← normalise_text P df;
  df ← compute_revenue df;
  df ← cast_order_date df;
  let rows_skipped := original_len - len df in
  Return (df, rows_skipped).

(** *** [groupby(...).agg(...).reset_index()] *)

Inductive aggfunc : Type := agg_sum | agg_mean | agg_max.

Definition key_of (by_ : list string) (r : gmap string cell) : list cell :=
  map (fun name => at_col name r) by_.

Fixpoint key_eqb (k1 k2 : list cell) : bool :=
  match k1, k2 with
  | [], [] => true
  | a :: k1', b :: k2' => cell_eqb a b && key_eqb k1' k2'
  | _, _ => false
  end.

(** The order group keys are sorted in: strings by code point, numbers
    and dates by value. *)
Definition cell_leb (a b : cell) : bool :=
  match a, b with
  | NA, _ => true
  | Str s, Str t => String.leb s t
  | Str _, NA => false
  | Str _, _ => true
  | Num p, Num q => Qle_bool p q
  | Num _, (NA | Str _) => false
  | Num _, _ => true
  | Day d, Day e => d <=? e
  | Day _, Stamp _ => true
  | Day _, _ => false
  | Stamp m, Stamp n => m <=? n
  | Stamp _, _ => false
  end.

Fixpoint key_leb (k1 k2 : list cell) : bool :=
  match k1, k2 with
  | [], _ => true
  | _ :: _, [] => false
  | a :: k1', b :: k2' =>
      if cell_eqb a b then key_leb k1' k2' else cell_leb a b
  end.

Fixpoint insert_key (k : list cell) (ks : list (list cell)) : list (list cell) :=
  match ks with
  | [] => [k]
  | k' :: ks' => if key_leb k k' then k :: ks else k' :: insert_key k ks'
  end.

(** The group keys: the distinct keys of the rows none of whose key cells
    is missing ([dropna=True]), sorted ([sort=True]). *)
Definition group_keys (by_ : list string) (rs : list (gmap string cell))
  : list (list cell) :=
  fold_right insert_key []
    (first_of_each id key_eqb [] (List.filter (forallb notna) (map (key_of by_) rs))).

Definition group (by_ : list string) (k : list cell) (rs : list (gmap string cell))
  : list (gmap string cell) :=
  List.filter (fun r => key_eqb (key_of by_ r) k) rs.

Definition numbers (cs : list cell) : list Q :=
  omap (fun c => match c with Num q => Some q | _ => None end) cs.

Definition days (cs : list cell) : list Z :=
  omap (fun c => match c with Day d => Some d | _ => None end) cs.

(** One aggregate over the cells of a group; missing cells are skipped. *)
Definition aggregate (f : aggfunc) (cs : list cell) : cell :=
  match f with
  | agg_sum => Num (Numeric.sum (numbers cs))
  | agg_mean => match Numeric.mean (numbers cs) with Some m => Num m | None => NA end
  | agg_max =>
      match days cs with
      | [] => NA
      | d :: ds => Day (fold_left Z.max ds d)
      end
  end.

Definition agg_row (by_ : list string) (specs : list (string * (string * aggfunc)))
           (rs : list (gmap string cell)) (k : list cell) : gmap string cell :=
  let g := group by_ k rs in
  fold_left
    (fun row spec =>
       <[spec.1 := aggregate spec.2.2 (map (at_col spec.2.1) g)]> row)
    specs
    (list_to_map (zip by_ k)).

Definition agg_dtype (f : aggfunc) (source : dtype) : dtype :=
  match f with
  | agg_max => source
  | agg_mean => float64
  | agg_sum => match source with int64 => int64 | _ => float64 end
  end.

Fixpoint agg_dtypes (src : gmap string dtype)
         (specs : list (string * (string * aggfunc))) (acc : gmap string dtype)
  : result (gmap string dtype) :=
  match specs with
  | [] => Return acc
  | (out, (col, f)) :: specs' =>
      match src !! col with
      | Some dt => agg_dtypes src specs' (<[out := agg_dtype f dt]> acc)
      | None => Raise (KeyError col)
      end
  end.

Fixpoint by_dtypes (src : gmap string dtype) (by_ : list string)
  : result (gmap string dtype) :=
  match by_ with
  | [] => Return ∅
  | name :: by' =>
      match src !! name with
      | Some dt => acc ← by_dtypes src by'; Return (<[name := dt]> acc)
      | None => Raise (KeyError name)
      end
  end.

Definition groupby_agg (by_ : list string)
           (specs : list (string * (string * aggfunc))) (df : DataFrame)
  : result DataFrame :=
  keys_dt ← by_dtypes (dtypes df) by_;
  dts ← agg_dtypes (dtypes df) specs keys_dt;
  Return (mkFrame dts (map (agg_row by_ specs (rows df)) (group_keys by_ (rows df)))).

(** Compute the purchased_products aggregation from a cleaned orders
    DataFrame. *)
Definition build_product_aggregations (df : DataFrame) : result DataFrame :=
  agg ← groupby_agg ["product"; "category"]
          [ ("total_units_sold", ("quantity", agg_sum));
            ("total_revenue", ("total_revenue", agg_sum));
            ("avg_discount", ("discount", agg_mean));
            ("last_purchased_date", ("order_date", agg_max)) ] df;
  s ← getitem agg "total_revenue";
  let agg := setitem "total_revenue" (round 2 s) agg in
  s ← getitem agg "avg_discount";
  let agg := setitem "avg_discount" (round 4 s) agg in
  Return agg.

End Transformations.

(* ===================================================================== *)
(** ** include/db_loader.py *)
(* ===================================================================== *)

Module DbLoader.
Import Pandas.

(** The three SQL statements of the loader.  [InsertOrders page] is
    INSERT INTO orders ... VALUES page ON CONFLICT (order_id) DO UPDATE SET
    every other column = EXCLUDED's, ingested_at = NOW();
    [InsertPurchasedProducts page] is INSERT INTO purchased_products ...
    ON CONFLICT (product) DO UPDATE SET ... (see [Postgres.upsert_product]);
    [InsertPipelineRun params] is INSERT INTO pipeline_runs ... RETURNING
    run_id. *)
Inductive statement : Type :=
| InsertOrders (page : list (list cell))
| InsertPurchasedProducts (page : list (list cell))
| InsertPipelineRun (params : list cell).

(** What a cursor holds after a statement: [cur.rowcount] and the row of
    a RETURNING clause. *)
Record reply : Type := mkReply { rowcount : Z; returning : option cell }.

(** The database server behind psycopg2, with state [DB].  Any of its
    answers may be an error. *)
Record Server (DB : Type) : Type := mkServer {
  connect : DB -> result unit;
  execute : statement -> DB -> result (DB * reply);
  commit : DB -> result unit }.
Arguments connect {DB} _ _.
Arguments execute {DB} _ _ _.
Arguments commit {DB} _ _.

(** A psycopg2 connection: [durable] is the committed state of the
    database, [session] the state the open transaction works on,
    [executed] the statements sent so far. *)
Record connection (DB : Type) : Type := mkConn {
  durable : DB;
  session : DB;
  executed : list statement }.
Arguments mkConn {DB} _ _ _.
Arguments durable {DB} _.
Arguments session {DB} _.
Arguments executed {DB} _.

(** Code that works on a connection: it may change the connection and
    either returns or raises; the connection survives a raise. *)
Definition io (DB A : Type) : Type := connection DB -> connection DB * result A.

Definition ret {DB A} (a : A) : io DB A := fun conn => (conn, Return a).

Definition raise {DB A} (e : exn) : io DB A := fun conn => (conn, Raise e).

Definition bind {DB A B} (m : io DB A) (k : A -> io DB B) : io DB B :=
  fun conn =>
    match m conn with
    | (conn', Return a) => k a conn'
    | (conn', Raise e) => (conn', Raise e)
    end.

Definition lift {DB A} (r : result A) : io DB A := fun conn => (conn, r).

#[export] Instance io_ret {DB} : MRet (io DB) := @ret DB.
#[export] Instance io_bind {DB} : MBind (io DB) := fun A B k m => bind m k.

(** Code on a connection keeps what is committed when it never commits. *)
Definition keeps_durable {DB A} (m : io DB A) : Prop :=
  forall conn conn' r, m conn = (conn', r) -> durable conn' = durable conn.

(** [cur.execute(statement)] *)
Definition cursor_execute {DB} (S : Server DB) (st : statement) : io DB reply :=
  fun conn =>
    match execute S st (session conn) with
    | Return (db', r) =>
        (mkConn (durable conn) db' (executed conn ++ [st]), Return r)
    | Raise e =>
        (mkConn (durable conn) (session conn) (executed conn ++ [st]), Raise e)
    end.

(** [conn.commit()] *)
Definition conn_commit {DB} (S : Server DB) : io DB unit :=
  fun conn =>
    match commit S (session conn) with
    | Return _ => (mkConn (session conn) (session conn) (executed conn), Return tt)
    | Raise e => (conn, Raise e)
    end.

(** [conn.rollback()] *)
Definition conn_rollback {DB} (conn : connection DB) : connection DB :=
  mkConn (durable conn) (durable conn) (executed conn).

(** [conn.close()]: what stays is what was committed. *)
Definition conn_close {DB} (conn : connection DB) : DB := durable conn.

(** Context-managed psycopg2 connection with auto-rollback on error:
    [with get_connection() as conn: body].  The result is the database
    after the connection is closed and the outcome of the block. *)
Definition get_connection {DB A} (S : Server DB) (body : io DB A) (db : DB)
  : DB * result A :=
  match connect S db with
  | Raise e => (db, Raise e)
  | Return _ =>
      let conn := mkConn db db [] in
      (* try: yield conn; conn.commit() *)
      match (a ← body; _ ← conn_commit S; ret a) conn with
      | (conn, Return a) => (conn_close conn, Return a)
      | (conn, Raise e) =>
          (* except Exception: conn.rollback(); raise *)
          (conn_close (conn_rollback conn), Raise e)
      end
  end.

(** psycopg2's [_paginate]: pages of [page_size] records, the last one
    shorter. *)
Fixpoint paginate_from {A} (page_size room : nat) (page : list A) (seq : list A)
  : list (list A) :=
  match seq with
  | [] => match page with [] => [] | _ => [rev page] end
  | x :: seq' =>
      match room with
      | S (S room') => paginate_from page_size (S room') (x :: page) seq'
      | _ => rev (x :: page) :: paginate_from page_size page_size [] seq'
      end
  end.

Definition paginate {A} (seq : list A) (page_size : nat) : list (list A) :=
  paginate_from page_size page_size [] seq.

Fixpoint execute_pages {DB} (S : Server DB)
         (sql : list (list cell) -> statement)
         (pages : list (list (list cell))) (rowcount_ : Z) : io DB Z :=
  match pages with
  | [] => ret rowcount_
  | page :: pages' =>
      r ← cursor_execute S (sql page);
      execute_pages S sql pages' (rowcount r)
  end.

(** [psycopg2.extras.execute_values(cur, sql, argslist, page_size)]
    followed by [cur.rowcount]: one statement per page; the row count is
    that of the last statement, -1 when none was sent. *)
Definition execute_values {DB} (S : Server DB)
           (sql : list (list cell) -> statement)
           (argslist : list (list cell)) (page_size : nat) : io DB Z :=
  execute_pages S sql (paginate argslist page_size) (-1).

(** [[tuple(row[col] for col in columns) for _, row in df.iterrows()]] *)
Definition records (cols : list string) (df : DataFrame) : result (list (list cell)) :=
  match rows df with
  | [] => Return []
  | _ =>
      match List.find (fun c => negb (bool_decide (c ∈ columns df))) cols with
      | Some c => Raise (KeyError c)
      | None => Return (map (fun r => map (fun c => at_col c r) cols) (rows df))
      end
  end.

(** Bulk-upsert rows into the orders table; the result is
    [(rows_inserted, rows_skipped)]. *)
Definition upsert_orders {DB} (S : Server DB) (df : DataFrame) : io DB (Z * Z) :=
  if empty df then ret (0, 0)
  else
    let cols :=
      [ "order_id"; "customer_id"; "product"; "category";
        "region"; "quantity"; "unit_price"; "discount";
        "order_date"; "status" ] in
    recs ← lift (records cols df);
    rows_affected ← execute_values S InsertOrders recs 500;
    let rows_inserted := rows_affected in
    let rows_skipped :=
      if 0 <=? rows_inserted then len df - rows_inserted else 0 in
    ret (rows_inserted, rows_skipped).

(** Upsert the purchased_products aggregation table. *)
Definition upsert_purchased_products {DB} (S : Server DB) (agg_df : DataFrame)
  : io DB unit :=
  if empty agg_df then ret tt
  else
    let cols :=
      [ "product"; "category"; "total_units_sold";
        "total_revenue"; "avg_discount"; "last_purchased_date" ] in
    recs ← lift (records cols agg_df);
    _ ← execute_values S InsertPurchasedProducts recs 500;
    ret tt.

(** Insert an audit row into pipeline_runs; return the new run_id. *)
Definition log_pipeline_run {DB} (S : Server DB)
           (dag_run_id file_processed : string) (rows_inserted rows_skipped : Z)
           (status : string) : io DB cell :=
  r ← cursor_execute S
         (InsertPipelineRun
            [ Str dag_run_id; Str file_processed;
              Num (inject_Z rows_inserted); Num (inject_Z rows_skipped);
              Str status ]);
  match returning r with
  | Some run_id => ret run_id
  | None => raise TypeError
  end.

End DbLoader.

(* ===================================================================== *)
(** ** dags/sales_pipeline_dag.py *)
(* ===================================================================== *)

Module Dag.
Import Pandas DbLoader.

(** Load the downloaded CSV and check basic schema/size; [df] is the
    frame [pd.read_csv] returned. *)
Definition validate_csv (df : DataFrame) : result unit :=
  if empty df then Raise (ValueError CsvEmpty)
  else
    let required : gset string :=
      list_to_set
        [ "order_id"; "customer_id"; "product"; "category";
          "region"; "quantity"; "unit_price"; "discount";
          "order_date"; "status" ] in
    let missing := required ∖ columns df in
    if bool_decide (missing = ∅) then Return tt
    else Raise (ValueError (CsvMissingColumns missing)).

(** The block under [with get_connection() as conn:]. *)
Definition load_block {DB} (S : Server DB) (df agg_df : DataFrame)
           (rows_skipped : Z) (object_key dag_run_id : string) : io DB unit :=
  '(rows_inserted, _) ← upsert_orders S df;
  _ ← upsert_purchased_products S agg_df;
  _ ← log_pipeline_run S dag_run_id object_key rows_inserted rows_skipped "success";
  ret tt.

(** Bulk-upsert cleaned data into the orders and purchased_products
    tables.  [df] is the cleaned frame read back from the parquet file;
    the other arguments are the values pulled from XCom and the run id.
    The result is the database after the task and the task's outcome. *)
Definition load_to_postgres {DB} (S : Server DB) (df : DataFrame)
           (rows_skipped : Z) (object_key dag_run_id : string) (db : DB)
  : DB * result unit :=
  match Transformations.build_product_aggregations df with
  | Raise e => (db, Raise e)
  | Return agg_df =>
      get_connection S (load_block S df agg_df rows_skipped object_key dag_run_id) db
  end.

End Dag.

(* ===================================================================== *)
(** ** The destination store *)
(* ===================================================================== *)

Module Postgres.
Import Pandas DbLoader.

(** The value of a key column: a cell that is not missing, numbers in
    lowest terms. *)
Inductive key : Type :=
| KStr (s : string)
| KNum (n : Z) (d : positive)
| KDay (d : Z)
| KStamp (ns : Z).

#[export] Instance key_eq_dec : EqDecision key.
Proof. solve_decision. Defined.

#[export] Instance key_countable : Countable key.
Proof.
  refine (inj_countable'
    (fun k => match k with
              | KStr s => inl s
              | KNum n d => inr (inl (n, d))
              | KDay d => inr (inr (inl d))
              | KStamp ns => inr (inr (inr ns))
              end)
    (fun x => match x with
              | inl s => KStr s
              | inr (inl (n, d)) => KNum n d
              | inr (inr (inl d)) => KDay d
              | inr (inr (inr ns)) => KStamp ns
              end) _).
  intros []; reflexivity.
Defined.

Definition key_of_cell (c : cell) : option key :=
  match c with
  | NA => None
  | Str s => Some (KStr s)
  | Num q => let r := Qred q in Some (KNum (Qnum r) (Qden r))
  | Day d => Some (KDay d)
  | Stamp ns => Some (KStamp ns)
  end.

(** Modelled from the spec: the table definitions (the SQL schema) are not
    part of the sources.  The spec (section 6) names three tables: orders
    keyed by order identifier, purchased_products keyed by product name,
    and the append-only pipeline_runs with a surrogate key.  A row stores
    the values it is given; the key columns are not null.  This is a row of
    orders, stored under its order identifier. *)
Record order_row : Type := mkOrder {
  order_values : list cell;  (* customer_id .. status, in column order *)
  ingested_at : Z }.

(** Modelled from the spec: a row of purchased_products, stored under its
    product name (spec, sections 3 and 6). *)
Record product_row : Type := mkProduct {
  category : cell;
  total_units_sold : cell;
  total_revenue : cell;
  avg_discount : cell;
  last_purchased_date : cell;
  updated_at : Z }.

(** Modelled from the spec: a row of the audit table pipeline_runs, with
    its surrogate key (spec, sections 3 and 6). *)
Record run_row : Type := mkRun {
  run_id : Z;
  run_values : list cell;  (* dag_run_id .. status, in column order *)
  finished_at : Z }.

(** Modelled from the spec: the three tables of the destination store. *)
Record database : Type := mkDb {
  orders : gmap key order_row;
  purchased_products : gmap key product_row;
  pipeline_runs : list run_row }.

(** SQL [a + b]: null when an operand is. *)
Definition sql_add (a b : cell) : cell :=
  match a, b with
  | Num p, Num q => Num (Qred (p + q))
  | _, _ => NA
  end.

(** SQL [GREATEST(a, b)]: null operands are ignored. *)
Definition sql_greatest (a b : cell) : cell :=
  match a, b with
  | NA, _ => b
  | _, NA => a
  | Day d, Day e => Day (Z.max d e)
  | Stamp m, Stamp n => Stamp (Z.max m n)
  | Num p, Num q => if Qle_bool p q then Num q else Num p
  | Str s, Str t => if String.leb s t then Str t else Str s
  | _, _ => NA
  end.

(** One VALUES row of the orders statement: ON CONFLICT (order_id) DO
    UPDATE overwrites every column and refreshes ingested_at. *)
Definition upsert_order (now : Z) (k : key) (vals : list cell)
           (t : gmap key order_row) : gmap key order_row :=
  <[k := mkOrder vals now]> t.

(** One VALUES row of the purchased_products statement, against the row
    [old] the table holds for its product, if any:
    ON CONFLICT (product) DO UPDATE SET
      category = EXCLUDED.category,
      total_units_sold = purchased_products.total_units_sold + EXCLUDED.total_units_sold,
      total_revenue = purchased_products.total_revenue + EXCLUDED.total_revenue,
      avg_discount = EXCLUDED.avg_discount,
      last_purchased_date = GREATEST(purchased_products.last_purchased_date,
                                     EXCLUDED.last_purchased_date),
      updated_at = NOW(). *)
Definition merge_product (now : Z) (old : option product_row) (vals : list cell)
  : result product_row :=
  match vals with
  | [cat; units; revenue; discount; date] =>
      match old with
      | None => Return (mkProduct cat units revenue discount date now)
      | Some old =>
          Return (mkProduct cat
                    (sql_add (total_units_sold old) units)
                    (sql_add (total_revenue old) revenue)
                    discount
                    (sql_greatest (last_purchased_date old) date)
                    now)
      end
  | _ => Raise (DatabaseError "42601")
  end.

Definition upsert_product (now : Z) (k : key) (vals : list cell)
           (t : gmap key product_row) : result (gmap key product_row) :=
  row ← merge_product now (t !! k) vals;
  Return (<[k := row]> t).

(** The rows of one INSERT ... ON CONFLICT DO UPDATE statement, in order.
    A null key violates the not-null constraint (23502); a key the same
    statement has already written is refused: "ON CONFLICT DO UPDATE
    command cannot affect row a second time" (21000). *)
Fixpoint upsert_all {T : Type} (upsert : key -> list cell -> T -> result T)
         (seen : gset key) (page : list (list cell)) (t : T) : result T :=
  match page with
  | [] => Return t
  | [] :: _ => Raise (DatabaseError "42601")
  | (c :: vals) :: page' =>
      match key_of_cell c with
      | None => Raise (DatabaseError "23502")
      | Some k =>
          if bool_decide (k ∈ seen) then Raise (DatabaseError "21000")
          else t' ← upsert k vals t; upsert_all upsert ({[k]} ∪ seen) page' t'
      end
  end.

(** Modelled from the spec: the generator of the surrogate key is part of
    the missing table definitions; a new run takes the next unused number. *)
Definition next_run_id (runs : list run_row) : Z :=
  1 + fold_right Z.max 0 (map run_id runs).

Definition pg_execute (now : Z) (st : statement) (db : database)
  : result (database * reply) :=
  match st with
  | InsertOrders page =>
      t ← upsert_all
            (fun k vals t =>
               if bool_decide (List.length vals = 9%nat)
               then Return (upsert_order now k vals t)
               else Raise (DatabaseError "42601"))
            ∅ page (orders db);
      Return (mkDb t (purchased_products db) (pipeline_runs db),
              mkReply (Z.of_nat (List.length page)) None)
  | InsertPurchasedProducts page =>
      t ← upsert_all (upsert_product now) ∅ page (purchased_products db);
      Return (mkDb (orders db) t (pipeline_runs db),
              mkReply (Z.of_nat (List.length page)) None)
  | InsertPipelineRun params =>
      let id := next_run_id (pipeline_runs db) in
      Return (mkDb (orders db) (purchased_products db)
                   (pipeline_runs db ++ [mkRun id params now]),
              mkReply 1 (Some (Num (inject_Z id))))
  end.

(** A server that is reachable, commits, and answers the statements as
    above; [now] is the transaction's NOW(). *)
Definition server (now : Z) : Server database :=
  mkServer database (fun _ => Return tt) (pg_execute now) (fun _ => Return tt).

Definition empty_db : database := mkDb ∅ ∅ [].

(** The values the records of a statement bring for the key [k]. *)
Definition values_for (k : key) (recs : list (list cell)) : list (list cell) :=
  omap (fun rec =>
          match rec with
          | c :: vals => if bool_decide (key_of_cell c = Some k) then Some vals else None
          | [] => None
          end) recs.

(** The row a product ends with once the given values have been merged
    into it, one after the other. *)
Definition merge_all (now : Z) (old : option product_row) (valss : list (list cell))
  : option product_row :=
  fold_left
    (fun o vals => match merge_product now o vals with Return r => Some r | Raise _ => o end)
    valss old.

Definition aggregation_columns : list string :=
  [ "product"; "category"; "total_units_sold";
    "total_revenue"; "avg_discount"; "last_purchased_date" ].

(** The values the aggregation frame brings for the product with key
    [k]: category, units, revenue, average discount and date of each of
    its rows for that product. *)
Definition incoming (k : key) (agg_df : DataFrame) : list (list cell) :=
  map (fun r => map (fun c => at_col c r) (tail aggregation_columns))
      (List.filter
         (fun r => bool_decide (key_of_cell (at_col "product" r) = Some k))
         (rows agg_df)).

(** Merging dated values into a stored row, one after the other; each
    value comes with the NOW() of its transaction. *)
Definition merge_dated (old : option product_row) (vs : list (Z * list cell))
  : option product_row :=
  fold_left
    (fun o v => match merge_product v.1 o v.2 with Return r => Some r | Raise _ => o end)
    vs old.

(** [loaded db loads db']: the aggregation frames of [loads], each with
    the time of its transaction, were loaded one after the other, every
    load in a transaction of its own that committed, and took the database
    from [db] to [db']. *)
Inductive loaded : database -> list (Z * DataFrame) -> database -> Prop :=
| loaded_nil db : loaded db [] db
| loaded_cons db now agg_df db1 loads db' :
    get_connection (server now) (upsert_purchased_products (server now) agg_df) db
    = (db1, Return tt) ->
    loaded db1 loads db' ->
    loaded db ((now, agg_df) :: loads) db'.

End Postgres.

(* ===================================================================== *)
(** ** A concrete choice of parsers, for the examples *)
(* ===================================================================== *)

Module Iso.
Import Pandas.

Definition digit (c : ascii) : option Z :=
  let n := Z.of_N (N_of_ascii c) in
  if (48 <=? n) && (n <=? 57) then Some (n - 48) else None.

(** The digits [s] starts with: their value, their number, the rest. *)
Fixpoint digits (acc : Z) (count : nat) (s : string) : Z * nat * string :=
  match s with
  | String c s' =>
      match digit c with
      | Some d => digits (10 * acc + d) (S count) s'
      | None => (acc, count, s)
      end
  | EmptyString => (acc, count, s)
  end.

(** Digits alone are an integer; digits, a point and digits are the
    float64 nearest to the decimal. *)
Definition unsigned_decimal (sign : Z) (s : string) : option number :=
  match digits 0 0 s with
  | (_, O, _) => None
  | (n, _, EmptyString) => Some (Integer (sign * n))
  | (n, _, String "." frac) =>
      match digits 0 0 frac with
      | (f, k, EmptyString) =>
          Some (Floating
                  (Numeric.fl64
                     (inject_Z sign * (inject_Z n + (f # Z.to_pos (10 ^ Z.of_nat k))))))
      | _ => None
      end
  | _ => None
  end.

(** Decimal literals: an optional sign, digits, an optional fraction. *)
Definition decimal (s : string) : option number :=
  match s with
  | String "-" s' => unsigned_decimal (-1) s'
  | String "+" s' => unsigned_decimal 1 s'
  | _ => unsigned_decimal 1 s
  end.

Definition is_leap (y : Z) : bool :=
  ((y mod 4 =? 0) && negb (y mod 100 =? 0)) || (y mod 400 =? 0).

Definition days_in_month (y m : Z) : Z :=
  if m =? 2 then (if is_leap y then 29 else 28)
  else if (m =? 4) || (m =? 6) || (m =? 9) || (m =? 11) then 30
  else 31.

(** Days from 1970-01-01 to the civil date y-m-d. *)
Definition days_from_civil (y m d : Z) : Z :=
  let y' := if m <=? 2 then y - 1 else y in
  let era := y' / 400 in
  let yoe := y' - era * 400 in
  let doy := (153 * (if 2 <? m then m - 3 else m + 9) + 2) / 5 + d - 1 in
  let doe := yoe * 365 + yoe / 4 - yoe / 100 + doy in
  era * 146097 + doe - 719468.

(** The UTC offset a timestamp ends with, in minutes: +HH:MM or -HH:MM. *)
Definition offset (s : string) : option Z :=
  match s with
  | String sign s1 =>
      match digits 0 0 s1 with
      | (h, 2%nat, String ":" s2) =>
          match digits 0 0 s2 with
          | (m, 2%nat, EmptyString) =>
              if (h <=? 23) && (m <=? 59)
              then if Ascii.eqb sign "+" then Some (60 * h + m)
                   else if Ascii.eqb sign "-" then Some (- (60 * h + m))
                   else None
              else None
          | _ => None
          end
      | _ => None
      end
  | EmptyString => None
  end.

(** Timestamps written YYYY-MM-DD, with or without a UTC offset: the
    nanoseconds of the date, and the offset. *)
Definition timestamp (s : string) : option (Z * option Z) :=
  match digits 0 0 s with
  | (y, 4%nat, String "-" s1) =>
      match digits 0 0 s1 with
      | (m, 2%nat, String "-" s2) =>
          match digits 0 0 s2 with
          | (d, 2%nat, zone) =>
              if (1 <=? m) && (m <=? 12) && (1 <=? d) && (d <=? days_in_month y m)
              then
                let ns := days_from_civil y m d * ns_per_day in
                match zone with
                | EmptyString => Some (ns, None)
                | _ => match offset zone with
                       | Some minutes => Some (ns, Some minutes)
                       | None => None
                       end
                end
              else None
          | _ => None
          end
      | _ => None
      end
  | _ => None
  end.

(** A string is read when it is written like the one the format was
    guessed from: with an offset, or without. *)
Definition iso_date (hint : option string) (s : string) : option (Z * option Z) :=
  match timestamp s with
  | Some (ns, zone) =>
      match hint ≫= timestamp with
      | Some (_, zone') =>
          if Bool.eqb (bool_decide (is_Some zone)) (bool_decide (is_Some zone'))
          then Some (ns, zone) else None
      | None => Some (ns, zone)
      end
  | None => None
  end.

Definition between (a n b : N) : bool := ((a <=? n) && (n <=? b))%N.

Definition one_of (n : N) (ns : list N) : bool := existsb (N.eqb n) ns.

(** The character database on Latin-1, the dotted and the dotless I, the
    combining marks U+0300 to U+036F and the white space of Unicode; the
    other characters are taken as uncased. *)
Definition unicode : Text.Unicode :=
  Text.mkUnicode
    (fun n =>
       if between 192 n 222 && negb (n =? 215)%N then [n + 32]%N
       else if (n =? 304)%N then [105; 775]%N
       else if (n =? 376)%N then [255]%N
       else [n])
    (fun n =>
       if between 224 n 254 && negb (n =? 247)%N then [n - 32]%N
       else if (n =? 223)%N then [83; 115]%N
       else if (n =? 255)%N then [376]%N
       else if (n =? 181)%N then [924]%N
       else if (n =? 305)%N then [73]%N
       else [n])
    (fun n =>
       (between 192 n 255 && negb (one_of n [215; 247]%N))
       || one_of n [170; 181; 186; 304; 305; 376]%N)
    (fun n =>
       one_of n [39; 46; 58; 94; 96; 168; 173; 175; 180; 183; 184]%N
       || between 768 n 879)
    (fun n =>
       one_of n [133; 160; 5760; 8232; 8233; 8239; 8287; 12288]%N
       || between 8192 n 8202).

Definition coercions : Coercions :=
  mkCoercions decimal
              (fun hint s => fst <$> iso_date hint s)
              (fun hint s => iso_date hint s ≫= snd)
              (fun q => Some (Qfloor q))
              unicode.

End Iso.

(* ===================================================================== *)
(** ** The cleaning step read row by row *)
(* ===================================================================== *)

Module Rowwise.
Import Pandas Transformations.

(** [row[name] = f(row[name])] *)
Definition set_col (name : string) (f : cell -> cell) (r : gmap string cell)
  : gmap string cell :=
  <[name := f (at_col name r)]> r.

(** Lines 54-57 on one row.  [hint] is the string the date format is
    guessed from; [source] and [target] give the dtype of a numeric column
    before and after [pd.to_numeric]. *)
Definition coerce_row (P : Coercions) (hint : option string)
           (source target : string -> dtype) (r : gmap string cell)
  : gmap string cell :=
  set_col "discount"
    (fun c => clip_cell 0 1 (numeric_cell P (source "discount") (target "discount") c))
    (set_col "unit_price" (numeric_cell P (source "unit_price") (target "unit_price"))
       (set_col "quantity" (numeric_cell P (source "quantity") (target "quantity"))
          (set_col "order_date" (to_datetime_cell P hint) r))).

Definition critical : list string :=
  ["order_id"; "order_date"; "quantity"; "unit_price"].

(** Lines 67-70 on one row. *)
Definition normalise_row (P : Coercions) (r : gmap string cell) : gmap string cell :=
  let U := unicode P in
  set_col "status" (fun c => str_cell (Text.lower U) (str_cell (Text.strip U) c))
    (set_col "product" (str_cell (Text.strip U))
       (set_col "category" (fun c => str_cell (Text.title U) (str_cell (Text.strip U) c))
          (set_col "region" (fun c => str_cell (Text.title U) (str_cell (Text.strip U) c)) r))).

(** The dtype of quantity * unit_price, and of total_revenue. *)
Definition gross_dtype (target : string -> dtype) : dtype :=
  result_dtype (target "quantity") (target "unit_price").

Definition revenue_dtype (target : string -> dtype) : dtype :=
  result_dtype (gross_dtype target) (result_dtype (target "discount") int64).

Definition revenue (target : string -> dtype) (r : gmap string cell) : cell :=
  round_cell (revenue_dtype target) 2
    (mul_cell (gross_dtype target) (result_dtype (target "discount") int64)
       (mul_cell (target "quantity") (target "unit_price")
                 (at_col "quantity" r) (at_col "unit_price" r))
       (rsub_cell (target "discount") 1 (at_col "discount" r))).

(** Lines 67-79 on one row. *)
Definition finish_row (P : Coercions) (target : string -> dtype) (r : gmap string cell)
  : gmap string cell :=
  let r := normalise_row P r in
  let r := <["total_revenue" := revenue target r]> r in
  set_col "order_date" date_cell r.

Definition dedup (rs : list (gmap string cell)) : list (gmap string cell) :=
  first_of_each (at_col "order_id") cell_eqb [] rs.

(** The format hint [pd.to_datetime] works with: it is taken from the
    order_date column after deduplication. *)
Definition hint_of (rs : list (gmap string cell)) : option string :=
  format_hint (map (at_col "order_date") (dedup rs)).

(** The dtype of a column of the batch, and the dtype [pd.to_numeric]
    gives it: the coercion sees the column after deduplication. *)
Definition source_dtype (df : DataFrame) (name : string) : dtype :=
  default object_ (dtypes df !! name).

Definition target_dtype (P : Coercions) (df : DataFrame) (name : string) : dtype :=
  numeric_dtype P (mkSeries (source_dtype df name) (map (at_col name) (dedup (rows df)))).

(** The number [pd.to_numeric] reads in the cell of the column [name] of
    a row of the batch [df]. *)
Definition number_of (P : Coercions) (df : DataFrame) (name : string)
           (r : gmap string cell) : cell :=
  numeric_cell P (source_dtype df name) (target_dtype P df name) (at_col name r).

(** What becomes of a row of the batch [df] once it has passed
    deduplication. *)
Definition coerced (P : Coercions) (df : DataFrame) (r : gmap string cell)
  : gmap string cell :=
  coerce_row P (hint_of (rows df)) (source_dtype df) (target_dtype P df) r.

(** A row can be salvaged when none of its critical cells is missing
    after coercion. *)
Definition salvageable (P : Coercions) (df : DataFrame) (r : gmap string cell) : bool :=
  complete critical (coerced P df r).

Definition clean_row (P : Coercions) (df : DataFrame) (r : gmap string cell)
  : gmap string cell :=
  finish_row P (target_dtype P df) (coerced P df r).

Definition clean_rows (P : Coercions) (df : DataFrame) : list (gmap string cell) :=
  map (clean_row P df) (List.filter (salvageable P df) (dedup (rows df))).

Definition clean_dtypes (P : Coercions) (df : DataFrame) : gmap string dtype :=
  <["order_date" := object_]>
    (<["total_revenue" := revenue_dtype (target_dtype P df)]>
       (<["status" := object_]>
          (<["product" := object_]>
             (<["category" := object_]>
                (<["region" := object_]>
                   (<["discount" := target_dtype P df "discount"]>
                      (<["unit_price" := target_dtype P df "unit_price"]>
                         (<["quantity" := target_dtype P df "quantity"]>
                            (<["order_date" := datetime64]> (dtypes df)))))))))).

Definition text_columns : list string := ["region"; "category"; "product"; "status"].

(** The four text columns hold strings (dtype object). *)
Definition text_typed (df : DataFrame) : bool :=
  forallb (fun name => bool_decide (dtypes df !! name = Some object_)) text_columns.

(** The timestamps of the order dates are of one zone; the coercion sees
    the column after deduplication. *)
Definition dates_of_one_zone (P : Coercions) (df : DataFrame) : bool :=
  one_zone P (map (at_col "order_date") (dedup (rows df))).

(** The batches the cleaning step goes through with: all required
    columns, text columns of strings, and order dates of one zone. *)
Definition cleanable (P : Coercions) (df : DataFrame) : bool :=
  bool_decide (REQUIRED_COLUMNS ⊆ columns df) && text_typed df && dates_of_one_zone P df.



(** The strings in the text cells of a row are ASCII. *)
Definition ascii_text (r : gmap string cell) : bool :=
  forallb (fun name =>
             match at_col name r with
             | Str s => Text.is_ascii s
             | _ => true
             end) text_columns.

(** The rows of a frame that carry the order identifier [id]. *)
Definition with_id (id : cell) (rs : list (gmap string cell))
  : list (gmap string cell) :=
  List.filter (fun r => cell_eqb (at_col "order_id" r) id) rs.

(** The first row of a batch that carries the order identifier [id]. *)
Definition first_with_id (rs : list (gmap string cell)) (id : cell)
  : option (gmap string cell) :=
  List.find (fun r => cell_eqb (at_col "order_id" r) id) rs.

(** The columns the cleaning step writes. *)
Definition touched : list string :=
  [ "order_date"; "quantity"; "unit_price"; "discount"; "region";
    "category"; "product"; "status"; "total_revenue" ].

(** *** The aggregation read group by group *)

Definition product_keys : list string := ["product"; "category"].

Definition product_specs : list (string * (string * aggfunc)) :=
  [ ("total_units_sold", ("quantity", agg_sum));
    ("total_revenue", ("total_revenue", agg_sum));
    ("avg_discount", ("discount", agg_mean));
    ("last_purchased_date", ("order_date", agg_max)) ].

(** The aggregation row of one group key; [dr] is the dtype of the
    total_revenue column of the batch. *)
Definition summary_row (dr : dtype) (rs : list (gmap string cell)) (k : list cell)
  : gmap string cell :=
  set_col "avg_discount" (round_cell float64 4)
    (set_col "total_revenue" (round_cell (agg_dtype agg_sum dr) 2)
       (agg_row product_keys product_specs rs k)).

Definition summary_dtypes (dp dc dq dr dd : dtype) : gmap string dtype :=
  <["avg_discount" := float64]>
    (<["total_revenue" := agg_dtype agg_sum dr]>
       (<["last_purchased_date" := dd]>
          (<["avg_discount" := float64]>
             (<["total_revenue" := agg_dtype agg_sum dr]>
                (<["total_units_sold" := agg_dtype agg_sum dq]>
                   (<["product" := dp]> (<["category" := dc]> ∅))))))).

(** The rows of a frame for the product [p] in the category [c]. *)
Definition pair_rows (p c : string) (rs : list (gmap string cell))
  : list (gmap string cell) :=
  List.filter
    (fun r => cell_eqb (at_col "product" r) (Str p)
              && cell_eqb (at_col "category" r) (Str c)) rs.

End Rowwise.

(* ===================================================================== *)
(** ** Batches used in the examples *)
(* ===================================================================== *)

Module Examples.
Import Pandas Transformations.

(** A frame given by its header and its lines, as [pd.read_csv] builds it. *)
Definition frame (header : list (string * dtype)) (lines : list (list cell))
  : DataFrame :=
  mkFrame (list_to_map header)
          (map (fun line => list_to_map (zip header.*1 line)) lines).

(** The ten columns, with the dtypes of quantity, discount and status. *)
Definition header_of (quantity discount status : dtype) : list (string * dtype) :=
  [ ("order_id", object_); ("customer_id", object_); ("product", object_);
    ("category", object_); ("region", object_); ("quantity", quantity);
    ("unit_price", float64); ("discount", discount); ("order_date", object_);
    ("status", status) ].

Definition header : list (string * dtype) := header_of int64 float64 object_.

Definition laptop : list cell :=
  [ Str "ord-001"; Str "c1"; Str "Laptop"; Str "electronics"; Str "north america";
    Num 2; Float (99999 # 100); Float (1 # 10); Str "2024-06-01"; Str "Completed " ].

Definition shoes : list cell :=
  [ Str "ord-002"; Str "c2"; Str "Shoes"; Str "apparel"; Str "europe";
    Num 1; Float (4995 # 100); Num 0; Str "2024-07-15"; Str "completed" ].

(** The batch of the unit test [test_clean_and_transform_basic]: the
    third row repeats the first. *)
Definition test_batch : DataFrame := frame header [laptop; shoes; laptop].

Definition row_of (line : list cell) : gmap string cell :=
  list_to_map (zip header.*1 line).

Definition cleaned_of (df : DataFrame) : DataFrame :=
  match clean_and_transform Iso.coercions df with
  | Return (out, _) => out
  | Raise _ => mkFrame ∅ []
  end.

Definition aggregation_of (df : DataFrame) : DataFrame :=
  match build_product_aggregations (cleaned_of df) with
  | Return agg => agg
  | Raise _ => mkFrame ∅ []
  end.

(** All ten columns and no row. *)
Definition header_only : DataFrame := frame header [].

(** Two rows for one order; the first has no quantity: [pd.read_csv]
    reads the column as float64. *)
Definition first_without_quantity : DataFrame :=
  frame (header_of float64 float64 object_)
    [ [ Str "ord-001"; Str "c1"; Str "Laptop"; Str "electronics"; Str "north america";
        NA; Float (99999 # 100); Float (1 # 10); Str "2024-06-01"; Str "completed" ];
      laptop ].

Definition text_discount_header : list (string * dtype) :=
  header_of int64 object_ object_.

Definition laptop_text_discount (discount : string) : list cell :=
  [ Str "ord-001"; Str "c1"; Str "Laptop"; Str "electronics"; Str "north america";
    Num 2; Float (99999 # 100); Str discount; Str "2024-06-01"; Str "completed" ].

(** Two rows for one order; the discount of the second is not a number. *)
Definition duplicate_bad_discount : DataFrame :=
  frame text_discount_header
    [ laptop_text_discount "0.10"; laptop_text_discount "ten percent" ].

(** One row whose discount is not a number. *)
Definition bad_discount : DataFrame :=
  frame text_discount_header [ laptop_text_discount "ten percent" ].

(** Discounts out of range: 1.5 and -0.2. *)
Definition discount_too_high : list cell :=
  [ Str "ord-001"; Str "c1"; Str "Laptop"; Str "electronics"; Str "north america";
    Num 2; Num 100; Num (3 # 2); Str "2024-06-01"; Str "completed" ].

Definition discount_too_low : list cell :=
  [ Str "ord-002"; Str "c2"; Str "Shoes"; Str "apparel"; Str "europe";
    Num 1; Num 50; Float (- 1 # 5); Str "2024-07-15"; Str "completed" ].

Definition wide_discounts : DataFrame :=
  frame header [discount_too_high; discount_too_low].

(** Two rows for one order; the discount of the second is 1.5. *)
Definition duplicate_wide_discount : DataFrame :=
  frame header [laptop; discount_too_high].


(** Two orders dated with different UTC offsets. *)
Definition two_zones : DataFrame :=
  frame header
    [ [ Str "ord-001"; Str "c1"; Str "Laptop"; Str "electronics"; Str "europe";
        Num 2; Float (99999 # 100); Float (1 # 10); Str "2024-06-01+02:00";
        Str "completed" ];
      [ Str "ord-002"; Str "c2"; Str "Shoes"; Str "apparel"; Str "north america";
        Num 1; Float (4995 # 100); Num 0; Str "2024-07-15-05:00"; Str "completed" ] ].

(** Quantity, unit price and discount are whole numbers: [pd.read_csv]
    reads the three columns as int64.  The order is for 10^10 units at
    10^9 each. *)
Definition whole_numbers : DataFrame :=
  frame
    [ ("order_id", object_); ("customer_id", object_); ("product", object_);
      ("category", object_); ("region", object_); ("quantity", int64);
      ("unit_price", int64); ("discount", int64); ("order_date", object_);
      ("status", object_) ]
    [ [ Str "ord-001"; Str "c1"; Str "Laptop"; Str "electronics"; Str "europe";
        Num 10000000000; Num 1000000000; Num 0; Str "2024-06-01"; Str "completed" ] ].

(** One unit at 1.035: the float64 nearest to 1.035 lies below it. *)
Definition half_cent : DataFrame :=
  frame header
    [ [ Str "ord-001"; Str "c1"; Str "Laptop"; Str "electronics"; Str "europe";
        Num 1; Float (1035 # 1000); Num 0; Str "2024-06-01"; Str "completed" ] ].


(** Every status is blank: [pd.read_csv] reads the column as float64. *)
Definition blank_status : DataFrame :=
  frame (header_of int64 float64 float64)
    [ [ Str "ord-001"; Str "c1"; Str "Laptop"; Str "electronics"; Str "north america";
        Num 2; Float (99999 # 100); Float (1 # 10); Str "2024-06-01"; NA ] ].

(** Five laptops sold, then three returned. *)
Definition sale : DataFrame :=
  frame header
    [ [ Str "ord-001"; Str "c1"; Str "Laptop"; Str "electronics"; Str "europe";
        Num 5; Num 100; Num 0; Str "2024-06-01"; Str "completed" ] ].

Definition refund : DataFrame :=
  frame header
    [ [ Str "ord-002"; Str "c1"; Str "Laptop"; Str "electronics"; Str "europe";
        Num (-3); Num 100; Num 0; Str "2024-06-05"; Str "returned" ] ].

(** One product sold under two categories. *)
Definition two_categories : DataFrame :=
  frame header
    [ [ Str "ord-001"; Str "c1"; Str "Laptop"; Str "electronics"; Str "europe";
        Num 1; Num 100; Num 0; Str "2024-06-01"; Str "completed" ];
      [ Str "ord-002"; Str "c2"; Str "Laptop"; Str "computers"; Str "europe";
        Num 1; Num 100; Num 0; Str "2024-06-02"; Str "completed" ] ].

End Examples.

(* ===================================================================== *)
(** ** Reading a load: what a batch brings to the orders table, keys and sums *)
(* ===================================================================== *)

Module Batch.
Import Pandas DbLoader Postgres.

Definition order_columns : list string :=
  [ "order_id"; "customer_id"; "product"; "category";
    "region"; "quantity"; "unit_price"; "discount";
    "order_date"; "status" ].

(** The values the batch brings for the order with key [k]: customer_id
    .. status of each of its rows for that order. *)
Definition incoming_orders (k : key) (df : DataFrame) : list (list cell) :=
  map (fun r => map (fun c => at_col c r) (tail order_columns))
      (List.filter
         (fun r => bool_decide (key_of_cell (at_col "order_id" r) = Some k))
         (rows df)).

(** One VALUES row of the orders statement, as [pg_execute] applies it. *)
Definition put_order (now : Z) (k : key) (vals : list cell) (t : gmap key order_row)
  : result (gmap key order_row) :=
  if bool_decide (List.length vals = 9%nat)
  then Return (upsert_order now k vals t)
  else Raise (DatabaseError "42601").

(** The order a stored row is replaced by when the values [valss] are
    written over it, one after the other. *)
Definition overwrite (now : Z) (old : option order_row) (valss : list (list cell))
  : option order_row :=
  match list.last valss with
  | Some vals => Some (mkOrder vals now)
  | None => old
  end.

(** The keys of the records of a statement. *)
Definition keys_of (page : list (list cell)) : list key :=
  omap (fun rec => head rec ≫= key_of_cell) page.


(** The number in a cell, 0 when there is none. *)
Definition number (c : cell) : Q :=
  match c with Num q => q | _ => 0%Q end.

End Batch.

(* ===================================================================== *)
(** ** include/config.py and data-generator/config.py *)
(* ===================================================================== *)

Module Config.

(** [s.rstrip(chars)]: the trailing characters that occur in [chars] are
    removed. *)
Fixpoint rstrip (chars : list ascii) (s : string) : string :=
  match s with
  | EmptyString => EmptyString
  | String c s' =>
      let t := rstrip chars s' in
      if bool_decide (c ∈ chars) && Text.is_empty t then EmptyString else String c t
  end.

Inductive invalid : Type :=
| EndpointScheme.
    (* ValueError("MINIO_ENDPOINT must start with http:// or https://") *)

(** The field validator of [Settings.minio_endpoint]; [inl] is the
    ValueError. *)
Definition validate_minio_endpoint (v : string) : invalid + string :=
  if negb (String.prefix "http://" v || String.prefix "https://" v)
  then inl EndpointScheme
  else inr (rstrip ["/"%char] v).

(** The field validator of [GeneratorSettings.minio_endpoint]. *)
Definition validate_endpoint (v : string) : invalid + string :=
  if negb (String.prefix "http://" v || String.prefix "https://" v)
  then inl EndpointScheme
  else inr (rstrip ["/"%char] v).

(** The settings the DAG reads. *)
Record Settings : Type := mkSettings {
  minio_raw_bucket : string;         (* default "raw-data" *)
  minio_processed_bucket : string }. (* default "processed-data" *)

(** [n] slashes. *)
Fixpoint slashes (n : nat) : string :=
  match n with
  | O => EmptyString
  | S n' => String "/" (slashes n')
  end.

End Config.

(* ===================================================================== *)
(** ** The tasks of the DAG: what they work on *)
(* ===================================================================== *)

Module Task.
Import Pandas.

(** What a task ends with when it fails: an exception of the code above,
    or one of the DAG's own and of its libraries. *)
Inductive failure : Type :=
| Exn (e : exn)
| NoFilesFound
    (* ValueError("No files found in MinIO raw-data bucket.") *)
| ClientError (code : string)
    (* botocore.exceptions.ClientError *)
| FileNotFoundError (path : string)
| FormatError.
    (* what read_csv, to_parquet and read_parquet raise on data they
       cannot handle *)

Inductive outcome (A : Type) : Type :=
| Done (a : A)
| Failed (e : failure).
Arguments Done {A} a.
Arguments Failed {A} e.

(** An exception of the transformation and load code, seen from a task. *)
Definition python {A} (r : result A) : outcome A :=
  match r with
  | Return a => Done a
  | Raise e => Failed (Exn e)
  end.

(** MinIO: a bucket maps object keys to object bodies. *)
Definition bucket : Type := gmap string string.
Definition store : Type := gmap string bucket.

(** What the tasks of one DAG run work on: the object store, the local
    files of the worker, and the database. *)
Record world (DB : Type) : Type := mkWorld {
  minio : store;
  disk : gmap string string;
  postgres : DB }.
Arguments mkWorld {DB} _ _ _.
Arguments minio {DB} _.
Arguments disk {DB} _.
Arguments postgres {DB} _.

(** A task may change the world and either returns or fails; what it
    pushes to XCom is its result. *)
Definition task (DB A : Type) : Type := world DB -> world DB * outcome A.

Definition ret {DB A} (a : A) : task DB A := fun w => (w, Done a).

Definition fail {DB A} (e : failure) : task DB A := fun w => (w, Failed e).

Definition bind {DB A B} (m : task DB A) (k : A -> task DB B) : task DB B :=
  fun w =>
    match m w with
    | (w', Done a) => k a w'
    | (w', Failed e) => (w', Failed e)
    end.

Definition lift {DB A} (r : outcome A) : task DB A := fun w => (w, r).

#[export] Instance task_ret {DB} : MRet (task DB) := @ret DB.
#[export] Instance task_bind {DB} : MBind (task DB) := fun A B k m => bind m k.

(** A request that reads the object store. *)
Definition ask {DB A} (request : store -> outcome A) : task DB A :=
  fun w => (w, request (minio w)).

(** A request that changes the object store. *)
Definition tell {DB} (request : store -> outcome store) : task DB unit :=
  fun w =>
    match request (minio w) with
    | Done s => (mkWorld s (disk w) (postgres w), Done tt)
    | Failed e => (w, Failed e)
    end.

Definition read_file {DB} (path : string) : task DB string :=
  fun w =>
    match disk w !! path with
    | Some data => (w, Done data)
    | None => (w, Failed (FileNotFoundError path))
    end.

Definition write_file {DB} (path data : string) : task DB unit :=
  fun w => (mkWorld (minio w) (<[path := data]> (disk w)) (postgres w), Done tt).

(** [Path(path).unlink(missing_ok=True)] *)
Definition unlink {DB} (path : string) : task DB unit :=
  fun w => (mkWorld (minio w) (delete path (disk w)) (postgres w), Done tt).

(** Code that works on the database. *)
Definition on_database {DB A} (code : DB -> DB * result A) : task DB A :=
  fun w =>
    let '(db, r) := code (postgres w) in
    (mkWorld (minio w) (disk w) db, python r).

(** The readers and writers of pandas, left open: what [pd.read_csv]
    makes of the bytes of a file, the bytes [df.to_parquet(index=False)]
    writes, and what [pd.read_parquet] makes of them. *)
Record Formats : Type := mkFormats {
  read_csv : string -> outcome DataFrame;
  to_parquet : DataFrame -> outcome string;
  read_parquet : string -> outcome DataFrame }.

End Task.

(* ===================================================================== *)
(** ** The S3 requests of the DAG, as MinIO answers them *)
(* ===================================================================== *)

Module S3.
Import Task.

Fixpoint insert_sorted (k : string) (ks : list string) : list string :=
  match ks with
  | [] => [k]
  | k' :: ks' => if String.leb k k' then k :: ks else k' :: insert_sorted k ks'
  end.

(** The keys of a bucket in the order of a listing: by code point. *)
Definition keys (b : bucket) : list string :=
  fold_right insert_sorted [] (map fst (map_to_list b)).

(** [list_objects_v2(Bucket=name)]: the response has the first 1000 keys
    under "Contents", and no such entry when the bucket is empty. *)
Definition list_objects_v2 (name : string) (s : store) : outcome (option (list string)) :=
  match s !! name with
  | None => Failed (ClientError "NoSuchBucket")
  | Some b =>
      match take 1000 (keys b) with
      | [] => Done None
      | contents => Done (Some contents)
      end
  end.

(** [download_fileobj(name, key, fileobj)]: the body written to the file
    object. *)
Definition download_fileobj (name key : string) (s : store) : outcome string :=
  match s !! name ≫= (fun b => b !! key) with
  | Some body => Done body
  | None => Failed (ClientError "404")
  end.

(** What the service answers the two requests of the archive task when it
    does not carry them out (the service cannot be reached, the request
    times out or is denied): the failure the client raises, [None] when the
    request is served. *)
Record Refusals : Type := mkRefusals {
  copy_refused : option failure;
  delete_refused : option failure }.

Definition served : Refusals := mkRefusals None None.

(** [copy_object(Bucket=to, CopySource={"Bucket": from, "Key": key}, Key=key)];
    a request that is refused changes nothing. *)
Definition copy_object (refused : option failure) (to from key : string) (s : store)
  : outcome store :=
  match refused with
  | Some e => Failed e
  | None =>
      match s !! from with
      | None => Failed (ClientError "NoSuchBucket")
      | Some source =>
          match source !! key with
          | None => Failed (ClientError "NoSuchKey")
          | Some body =>
              match s !! to with
              | None => Failed (ClientError "NoSuchBucket")
              | Some target => Done (<[to := <[key := body]> target]> s)
              end
          end
      end
  end.

(** [upload_fileobj(fileobj, name, key)]: the object is written, over an
    object the key may have had. *)
Definition upload_fileobj (body name key : string) (s : store) : outcome store :=
  match s !! name with
  | None => Failed (ClientError "NoSuchBucket")
  | Some b => Done (<[name := <[key := body]> b]> s)
  end.

(** [delete_object(Bucket=name, Key=key)]: deleting a key that is not
    there is no error; a request that is refused changes nothing. *)
Definition delete_object (refused : option failure) (name key : string) (s : store)
  : outcome store :=
  match refused with
  | Some e => Failed e
  | None =>
      match s !! name with
      | None => Failed (ClientError "NoSuchBucket")
      | Some b => Done (<[name := delete key b]> s)
      end
  end.

End S3.

(* ===================================================================== *)
(** ** dags/sales_pipeline_dag.py: the tasks and their order *)
(* ===================================================================== *)

Module Tasks.
Import Pandas DbLoader Config Task S3.

(** [s.replace(old, new)] for a non-empty [old]: the occurrences of
    [old] are replaced from the left; [skip] characters of an occurrence
    just replaced are still to be passed over. *)
Fixpoint replace_from (old new : string) (skip : nat) (s : string) : string :=
  match s with
  | EmptyString => EmptyString
  | String c s' =>
      match skip with
      | S n => replace_from old new n s'
      | O =>
          if String.prefix old s
          then new ++ replace_from old new (String.length old - 1) s'
          else String c (replace_from old new 0 s')
      end
  end.

Definition replace (old new s : string) : string := replace_from old new 0 s.

(** Return all object keys in the raw-data bucket. *)
Definition _list_pending_files {DB} (settings : Settings) : task DB (list string) :=
  resp ← ask (list_objects_v2 (minio_raw_bucket settings));
  mret (default [] resp).

(** Download the first pending CSV to a temp file; push XCom path.
    [tmp_name] is the name [tempfile.NamedTemporaryFile] gives the new
    file; the result is what the task pushes: object_key and local_path. *)
Definition download_from_minio {DB} (settings : Settings) (tmp_name : string)
  : task DB (string * string) :=
  files ← _list_pending_files settings;
  match files with
  | [] => fail NoFilesFound
  | object_key :: _ =>
      _ ← write_file tmp_name "";
      body ← ask (download_fileobj (minio_raw_bucket settings) object_key);
      _ ← write_file tmp_name body;
      mret (object_key, tmp_name)
  end.

(** Load the downloaded CSV and check basic schema/size: the task, with
    the path it pulls from XCom. *)
Definition validate_csv_task {DB} (F : Formats) (local_path : string) : task DB unit :=
  data ← read_file local_path;
  df ← lift (read_csv F data);
  lift (python (Dag.validate_csv df)).

(** Clean & transform raw CSV; push cleaned parquet path via XCom.  The
    result is what the task pushes: cleaned_path and rows_skipped. *)
Definition transform_data {DB} (F : Formats) (P : Coercions) (local_path : string)
  : task DB (string * Z) :=
  data ← read_file local_path;
  df_raw ← lift (read_csv F data);
  '(df_clean, rows_skipped) ← lift (python (Transformations.clean_and_transform P df_raw));
  let out_path := replace ".csv" "_cleaned.parquet" local_path in
  parquet ← lift (to_parquet F df_clean);
  _ ← write_file out_path parquet;
  mret (out_path, rows_skipped).

(** Bulk-upsert cleaned data into PostgreSQL: the task, with the values
    it pulls from XCom.  The pulled rows_skipped is an integer, which
    [or 0] leaves as it is. *)
Definition load_task {DB} (F : Formats) (S : Server DB)
           (cleaned_path : string) (rows_skipped : Z) (object_key dag_run_id : string)
  : task DB unit :=
  data ← read_file cleaned_path;
  df ← lift (read_parquet F data);
  on_database (Dag.load_to_postgres S df rows_skipped object_key dag_run_id).

(** Move processed file from raw-data to processed-data bucket.  [R] is
    what the service refuses of the two requests. *)
Definition archive_file {DB} (settings : Settings) (R : Refusals)
           (object_key local_path cleaned_path : string) : task DB unit :=
  (* Copy to processed bucket *)
  _ ← tell (copy_object (copy_refused R) (minio_processed_bucket settings)
                        (minio_raw_bucket settings) object_key);
  (* Delete from raw bucket *)
  _ ← tell (delete_object (delete_refused R) (minio_raw_bucket settings) object_key);
  (* Cleanup temp files *)
  _ ← unlink local_path;
  _ ← unlink cleaned_path;
  mret tt.

(** One run of the DAG:
    t_download >> t_validate >> t_transform >> t_load >> t_archive.
    A task that fails ends the run. *)
Definition dag_run {DB} (settings : Settings) (F : Formats) (P : Coercions)
           (S : Server DB) (R : Refusals) (tmp_name dag_run_id : string)
  : task DB unit :=
  '(object_key, local_path) ← download_from_minio settings tmp_name;
  _ ← validate_csv_task F local_path;
  '(cleaned_path, rows_skipped) ← transform_data F P local_path;
  _ ← load_task F S cleaned_path rows_skipped object_key dag_run_id;
  archive_file settings R object_key local_path cleaned_path.

End Tasks.

(* ===================================================================== *)
(** ** data-generator/generate_data.py *)
(* ===================================================================== *)

Module Generator.
Import Pandas.

(** Lookup tables *)
Definition PRODUCTS : list (string * list string) :=
  [ ("Electronics",
     ["Laptop Pro 15"; "Wireless Earbuds"; "Smart Watch"; "USB-C Hub"; "Webcam HD"]);
    ("Apparel",
     ["Running Shoes"; "Winter Jacket"; "Yoga Pants"; "Casual T-Shirt"; "Denim Jeans"]);
    ("Home & Kitchen",
     ["Coffee Maker"; "Air Fryer"; "Blender"; "Knife Set"; "Cast Iron Pan"]);
    ("Books",
     ["Data Engineering 101"; "Python Mastery"; "System Design"; "Clean Code";
      "DevOps Handbook"]);
    ("Sports",
     ["Yoga Mat"; "Resistance Bands"; "Dumbbells 10kg"; "Jump Rope"; "Water Bottle"]) ].

Definition REGIONS : list string :=
  ["North America"; "Europe"; "Asia Pacific"; "Latin America"; "Middle East & Africa"].

Definition STATUSES : list string :=
  ["completed"; "completed"; "completed"; "pending"; "returned"; "cancelled"].

(** [0, 0, 0, 0.05, 0.10, 0.15, 0.20, 0.25]: three ints and five floats. *)
Definition DISCOUNTS : list number :=
  [ Integer 0; Integer 0; Integer 0;
    Floating (Numeric.fl64 (5 # 100)); Floating (Numeric.fl64 (10 # 100));
    Floating (Numeric.fl64 (15 # 100)); Floating (Numeric.fl64 (20 # 100));
    Floating (Numeric.fl64 (25 # 100)) ].

(** Python's [round(x, ndigits)]: an int stays an int. *)
Definition round_number (ndigits : nat) (n : number) : number :=
  match n with
  | Integer z => Integer z
  | Floating q => Floating (Numeric.py_round ndigits q)
  end.

(** What the random generators give for one row, left open: a number for
    each [random.choice] and [random.randint], the value of
    [random.random()] behind [random.uniform], and the two identifiers of
    Faker. *)
Record draws : Type := mkDraws {
  category_draw : nat;
  product_draw : nat;
  quantity_draw : nat;
  price_draw : Q;
  discount_draw : nat;
  order_uuid : string;
  customer_uuid : string;
  region_draw : nat;
  date_draw : nat;
  status_draw : nat }.

(** The clock and [strftime("%Y-%m-%d")], left open: today as a day
    number, and the text of a day. *)
Record Clock : Type := mkClock { today : Z; strftime : Z -> string }.

(** [random.choice(seq)]: the element at a position below the length;
    IndexError on an empty sequence is [None]. *)
Definition choice {A} (seq : list A) (draw : nat) : option A :=
  seq !! (draw mod List.length seq)%nat.

(** [random.randint(a, b)] *)
Definition randint (a b : Z) (draw : nat) : Z :=
  a + Z.of_nat draw mod (b - a + 1).

(** [random.uniform(a, b)], from the value [u] of [random.random()]:
    [a + (b - a) * u] in float64. *)
Definition uniform (a b u : Q) : Q :=
  Numeric.fl64 (a + Numeric.float_mul (Numeric.float_sub b a) u).

(** [PRODUCTS[category]] *)
Definition products_of (category : string) : option (list string) :=
  snd <$> List.find (fun entry => String.eqb (fst entry) category) PRODUCTS.

Definition random_order_date (E : Clock) (start_days_ago : Z) (draw : nat) : string :=
  strftime E (today E - start_days_ago + randint 0 start_days_ago draw).

(** [round(random.choice([0, 0, 0, 0.05, ...]), 2)] *)
Definition discount_of (d : draws) : option number :=
  round_number 2 <$> choice DISCOUNTS (discount_draw d).

(** The dictionary [generate_dataframe] appends for one row. *)
Definition generate_row (E : Clock) (d : draws) : option (gmap string cell) :=
  category ← choice PRODUCTS.*1 (category_draw d);
  products ← products_of category;
  product ← choice products (product_draw d);
  let qty := randint 1 10 (quantity_draw d) in
  let price := Numeric.py_round 2 (uniform 5 1500 (price_draw d)) in
  discount ← discount_of d;
  region ← choice REGIONS (region_draw d);
  status ← choice STATUSES (status_draw d);
  Some (list_to_map
          [ ("order_id", Str (order_uuid d));
            ("customer_id", Str (customer_uuid d));
            ("product", Str product);
            ("category", Str category);
            ("region", Str region);
            ("quantity", Num (inject_Z qty));
            ("unit_price", Num price);
            ("discount", Num (value discount));
            ("order_date", Str (random_order_date E 365 (date_draw d)));
            ("status", Str status) ]).

(** The dtype [pd.DataFrame(rows)] gives the discount column: int64 when
    every discount drawn is an int, float64 otherwise. *)
Definition discount_dtype (ds : list draws) : dtype :=
  if forallb (fun d => match discount_of d with
                       | Some (Floating _) => false
                       | _ => true
                       end) ds
  then int64 else float64.

(** Create a DataFrame of synthetic sales orders: one row for each
    element of [ds].  [pd.DataFrame(rows)] has no column when there is no
    row. *)
Definition generate_dataframe (E : Clock) (ds : list draws) : option DataFrame :=
  rows ← mapM (generate_row E) ds;
  Some (match rows with
        | [] => mkFrame ∅ []
        | _ =>
            mkFrame
              (list_to_map
                 [ ("order_id", object_); ("customer_id", object_); ("product", object_);
                   ("category", object_); ("region", object_); ("quantity", int64);
                   ("unit_price", float64); ("discount", discount_dtype ds);
                   ("order_date", object_); ("status", object_) ])
              rows
        end).

(** The columns of a generated row other than the date. *)
Definition plain_columns : list string :=
  [ "order_id"; "customer_id"; "product"; "category"; "region";
    "quantity"; "unit_price"; "discount"; "status" ].

Import Config Task S3.

(** [csv_buffer.tell()] once [upload_fileobj] is back: the transfer has
    closed the buffer, and a closed [BytesIO] raises ValueError. *)
Definition tell_closed : outcome Z := Failed (Exn (ValueError ClosedFile)).

(** Serialise DataFrame to CSV and upload to MinIO raw bucket.  [to_csv]
    is [df.to_csv(index=False)], [timestamp] the text of
    [datetime.utcnow().strftime("%Y%m%d_%H%M%S")]; the result is the
    object key. *)
Definition upload_to_minio {DB} (to_csv : DataFrame -> string)
           (settings : Settings) (timestamp : string) (df : DataFrame)
  : task DB string :=
  let object_key := ("sales_" ++ timestamp ++ ".csv")%string in
  _ ← tell (upload_fileobj (to_csv df) (minio_raw_bucket settings) object_key);
  (* logger.info(..., object_key, settings.minio_raw_bucket, csv_buffer.tell()) *)
  _ ← lift tell_closed;
  mret object_key.

End Generator.

(* ===================================================================== *)
(** ** Runs used in the examples *)
(* ===================================================================== *)

Module Runs.
Import Pandas Postgres Config Task Examples.

Definition settings : Settings := mkSettings "raw-data" "processed-data".

(** The service serves the copy and times out on the delete. *)
Definition delete_times_out : S3.Refusals :=
  S3.mkRefusals None (Some (ClientError "RequestTimeout")).

(** Two uploads wait in the raw bucket. *)
Definition uploads : bucket :=
  {[ "sales_20240601_120000.csv" := "csv-1"; "sales_20240601_121500.csv" := "csv-2" ]}.

Definition pending : world database :=
  mkWorld {[ "raw-data" := uploads; "processed-data" := ∅ ]} ∅ empty_db.

(** The first upload is the unit-test batch. *)
Definition formats : Formats :=
  mkFormats
    (fun data => if String.eqb data "csv-1" then Done test_batch else Failed FormatError)
    (fun _ => Done "parquet-1")
    (fun data =>
       if String.eqb data "parquet-1" then Done (cleaned_of test_batch)
       else Failed FormatError).

(** The raw bucket holds one object, which is no CSV file. *)
Definition unreadable : world database :=
  mkWorld {[ "raw-data" := {[ "notes.txt" := "garbage" ]}; "processed-data" := ∅ ]}
          ∅ empty_db.

(** The unit-test batch without its status column. *)
Definition without_status : DataFrame :=
  mkFrame (delete "status" (dtypes test_batch)) (rows test_batch).

End Runs.
(* ===================================================================== *)
(** * Properties *)
(* ===================================================================== *)

Import Pandas Transformations Rowwise DbLoader Dag Postgres Examples.
Local Open Scope list_scope.

(* --------------------------------------------------------------------- *)
(** ** Frames, columns and the bind of [result] *)
(* --------------------------------------------------------------------- *)

Lemma bind_Return {A B} (a : A) (k : A -> result B) : (Return a ≫= k) = k a.
Proof. reflexivity. Qed.

Lemma bind_Raise {A B} (e : exn) (k : A -> result B) : (Raise e ≫= k) = Raise e.
Proof. reflexivity. Qed.

Lemma assign_map {name} (f : gmap string cell -> cell) rs :
  assign name rs (map f rs) = map (fun r => <[name := f r]> r) rs.
Proof. induction rs as [|r rs IH]; simpl; [done | by rewrite IH]. Qed.

Lemma zip_cells_map (g : cell -> cell -> cell) (f1 f2 : gmap string cell -> cell) rs :
  zip_cells g (map f1 rs) (map f2 rs) = map (fun r => g (f1 r) (f2 r)) rs.
Proof. induction rs as [|r rs IH]; simpl; [done | by rewrite IH]. Qed.

Lemma getitem_Some df name dt :
  dtypes df !! name = Some dt ->
  getitem df name = Return (mkSeries dt (map (at_col name) (rows df))).
Proof. intros H. unfold getitem. by rewrite H. Qed.

Lemma getitem_None df name :
  dtypes df !! name = None -> getitem df name = Raise (KeyError name).
Proof. intros H. unfold getitem. by rewrite H. Qed.

Lemma setitem_map name dt (f : gmap string cell -> cell) dts rs :
  setitem name (mkSeries dt (map f rs)) (mkFrame dts rs)
  = mkFrame (<[name := dt]> dts) (map (fun r => <[name := f r]> r) rs).
Proof. unfold setitem; simpl. by rewrite assign_map. Qed.

Lemma required_elem (name : string) :
  name ∈ REQUIRED_COLUMNS <->
  name ∈ [ "order_id"; "customer_id"; "product"; "category"; "region";
           "quantity"; "unit_price"; "discount"; "order_date"; "status" ].
Proof. unfold REQUIRED_COLUMNS. by rewrite elem_of_list_to_set. Qed.

Ltac in_list := apply list_elem_of_In; simpl; auto 20.

Lemma required_lookup df name :
  REQUIRED_COLUMNS ⊆ columns df -> name ∈ REQUIRED_COLUMNS ->
  is_Some (dtypes df !! name).
Proof. intros Hsub Hin. apply elem_of_dom. by apply Hsub. Qed.

Lemma validate_schema_Return df :
  validate_schema df = Return tt <-> REQUIRED_COLUMNS ⊆ columns df.
Proof.
  unfold validate_schema. case_bool_decide as H.
  - split; [|done]. intros _. by apply empty_difference_subseteq_L.
  - split; [done|]. intros Hsub. destruct H. by apply subseteq_empty_difference_L.
Qed.

Lemma validate_schema_Raise df :
  ¬ REQUIRED_COLUMNS ⊆ columns df ->
  validate_schema df
  = Raise (ValueError (MissingRequiredColumns (REQUIRED_COLUMNS ∖ columns df))).
Proof.
  intros Hn. unfold validate_schema. case_bool_decide as H; [|done].
  destruct Hn. by apply empty_difference_subseteq_L.
Qed.

Lemma setitem_col name c dt (f : cell -> cell) dts rs :
  setitem name (mkSeries dt (map f (map (at_col c) rs))) (mkFrame dts rs)
  = mkFrame (<[name := dt]> dts) (map (fun r => <[name := f (at_col c r)]> r) rs).
Proof. by rewrite map_map, setitem_map. Qed.

(* --------------------------------------------------------------------- *)
(** ** The cleaning step, section by section *)
(* --------------------------------------------------------------------- *)

Lemma text_typed_lookup df name :
  text_typed df = true -> name ∈ text_columns -> dtypes df !! name = Some object_.
Proof.
  unfold text_typed. rewrite forallb_forall. intros H Hin.
  apply list_elem_of_In in Hin. apply H in Hin. by apply bool_decide_eq_true in Hin.
Qed.

Ltac lookup_col :=
  cbn [dtypes];
  repeat (rewrite lookup_insert_ne by discriminate);
  first [ eassumption | apply lookup_insert_eq ].

Ltac next_col c :=
  erewrite (getitem_Some _ c) by lookup_col; rewrite bind_Return; cbn [rows dtypes values dtype_of].

Lemma setitem_rows name dt (g : gmap string cell -> cell)
      (h : gmap string cell -> gmap string cell) dts rs :
  setitem name (mkSeries dt (map g rs)) (mkFrame dts (map h rs))
  = mkFrame (<[name := dt]> dts) (map (fun r => <[name := g r]> (h r)) rs).
Proof.
  unfold setitem. cbn [dtypes rows values dtype_of]. f_equal.
  induction rs as [|r rs IH]; simpl; [done | by rewrite IH].
Qed.

Lemma at_col_insert_ne name c v r : name <> c -> at_col name (<[c := v]> r) = at_col name r.
Proof. intros Hne. unfold at_col. by rewrite lookup_insert_ne. Qed.

(** The column [name] of rows in which other columns were written. *)
Lemma column_of_rows name (h : gmap string cell -> gmap string cell) rs :
  (forall r, at_col name (h r) = at_col name r) ->
  map (at_col name) (map h rs) = map (at_col name) rs.
Proof. intros Hh. rewrite map_map. apply map_ext. intros r. apply Hh. Qed.

Lemma coerce_types_rowwise P D R d1 :
  D !! "order_date" = Some d1 -> is_Some (D !! "quantity") ->
  is_Some (D !! "unit_price") -> is_Some (D !! "discount") ->
  let source := source_dtype (mkFrame D R) in
  let target name := numeric_dtype P (mkSeries (source name) (map (at_col name) R)) in
  coerce_types P (mkFrame D R)
  = Return (mkFrame
              (<["discount" := target "discount"]>
                 (<["unit_price" := target "unit_price"]>
                    (<["quantity" := target "quantity"]>
                       (<["order_date" := if one_zone P (map (at_col "order_date") R)
                                          then datetime64 else object_]> D))))
              (map (coerce_row P (format_hint (map (at_col "order_date") R)) source target)
                   R)).
Proof.
  intros H1 [d2 H2] [d3 H3] [d4 H4] source target. unfold coerce_types.
  assert (S2 : source "quantity" = d2) by (unfold source, source_dtype; cbn [dtypes]; by rewrite H2).
  assert (S3 : source "unit_price" = d3) by (unfold source, source_dtype; cbn [dtypes]; by rewrite H3).
  assert (S4 : source "discount" = d4) by (unfold source, source_dtype; cbn [dtypes]; by rewrite H4).
  unfold to_datetime, to_numeric, clip. cbn [values dtype_of].
  next_col "order_date". rewrite map_map, setitem_map.
  next_col "quantity".
  rewrite (column_of_rows "quantity") by (intros r; by apply at_col_insert_ne).
  rewrite (map_map (at_col "quantity")), setitem_rows.
  next_col "unit_price".
  rewrite (column_of_rows "unit_price") by (intros r; by rewrite !at_col_insert_ne).
  rewrite (map_map (at_col "unit_price")), setitem_rows.
  next_col "discount".
  rewrite (column_of_rows "discount") by (intros r; by rewrite !at_col_insert_ne).
  rewrite !(map_map (at_col "discount")), map_map, setitem_rows.
  rewrite <- S2, <- S3, <- S4. fold (target "quantity") (target "unit_price") (target "discount").
  do 2 f_equal. apply map_ext. intros r.
  unfold coerce_row, set_col. cbn [id].
  by rewrite !at_col_insert_ne.
Qed.

Lemma str_method_object f vs :
  str_method f (mkSeries object_ vs) = Return (mkSeries object_ (map (str_cell f) vs)).
Proof. reflexivity. Qed.

Lemma normalise_text_rowwise P D R :
  D !! "region" = Some object_ -> D !! "category" = Some object_ ->
  D !! "product" = Some object_ -> D !! "status" = Some object_ ->
  normalise_text P (mkFrame D R)
  = Return (mkFrame
              (<["status" := object_]>
                 (<["product" := object_]>
                    (<["category" := object_]>
                       (<["region" := object_]> D))))
              (map (normalise_row P) R)).
Proof.
  intros H1 H2 H3 H4. unfold normalise_text. cbn zeta.
  next_col "region". repeat (rewrite str_method_object, bind_Return; cbn [values dtype_of]); rewrite (map_map (str_cell (Text.strip (unicode P)))), setitem_col.
  next_col "category". repeat (rewrite str_method_object, bind_Return; cbn [values dtype_of]); rewrite (map_map (str_cell (Text.strip (unicode P)))), setitem_col.
  next_col "product". repeat (rewrite str_method_object, bind_Return; cbn [values dtype_of]); rewrite setitem_col.
  next_col "status". repeat (rewrite str_method_object, bind_Return; cbn [values dtype_of]); rewrite (map_map (str_cell (Text.strip (unicode P)))), setitem_col.
  rewrite !map_map. reflexivity.
Qed.

Lemma compute_revenue_rowwise (target : string -> dtype) D R :
  D !! "quantity" = Some (target "quantity") ->
  D !! "unit_price" = Some (target "unit_price") ->
  D !! "discount" = Some (target "discount") ->
  compute_revenue (mkFrame D R)
  = Return (mkFrame (<["total_revenue" := revenue_dtype target]> D)
                    (map (fun r => <["total_revenue" := revenue target r]> r) R)).
Proof.
  intros H1 H2 H3. unfold compute_revenue.
  next_col "quantity". next_col "unit_price". next_col "discount".
  unfold round, mul, rsub. cbn [values dtype_of].
  rewrite (map_map (at_col "discount")), !zip_cells_map, map_map, setitem_map.
  reflexivity.
Qed.

Lemma cast_order_date_rowwise D R :
  D !! "order_date" = Some datetime64 ->
  cast_order_date (mkFrame D R)
  = Return (mkFrame (<["order_date" := object_]> D) (map (set_col "order_date" date_cell) R)).
Proof.
  intros H1. unfold cast_order_date. next_col "order_date".
  unfold dt_date. cbn [values dtype_of]. rewrite bind_Return, setitem_col. reflexivity.
Qed.

(** On a column that is no datetime64 column the [.dt] accessor raises. *)
Lemma cast_order_date_raises D R :
  D !! "order_date" = Some object_ ->
  cast_order_date (mkFrame D R) = Raise (AttributeError "dt").
Proof. intros H1. unfold cast_order_date. by next_col "order_date". Qed.

Lemma filter_map_comm {A B} (f : A -> B) (p : B -> bool) l :
  List.filter p (map f l) = map f (List.filter (fun x => p (f x)) l).
Proof.
  induction l as [|x l IH]; simpl; [done|]. destruct (p (f x)); simpl; by rewrite IH.
Qed.

Lemma cleanable_parts P df :
  cleanable P df = true <->
  REQUIRED_COLUMNS ⊆ columns df /\ text_typed df = true /\ dates_of_one_zone P df = true.
Proof.
  unfold cleanable. rewrite !andb_true_iff, bool_decide_eq_true. tauto.
Qed.

(** The cleaning step up to the cast of the order date. *)
Lemma clean_and_transform_steps P df :
  REQUIRED_COLUMNS ⊆ columns df -> text_typed df = true ->
  clean_and_transform P df
  = (df' ← cast_order_date
             (mkFrame
                (<["total_revenue" := revenue_dtype (target_dtype P df)]>
                   (<["status" := object_]>
                      (<["product" := object_]>
                         (<["category" := object_]>
                            (<["region" := object_]>
                               (<["discount" := target_dtype P df "discount"]>
                                  (<["unit_price" := target_dtype P df "unit_price"]>
                                     (<["quantity" := target_dtype P df "quantity"]>
                                        (<["order_date" := if dates_of_one_zone P df
                                                           then datetime64 else object_]>
                                           (dtypes df))))))))))
                (map (fun r => <["total_revenue" := revenue (target_dtype P df)
                                                      (normalise_row P (coerced P df r))]>
                                 (normalise_row P (coerced P df r)))
                     (List.filter (salvageable P df) (dedup (rows df)))));
     Return (df', len df - len df')).
Proof.
  intros Hsub Htext.
  assert (Hreq : forall name, name ∈ REQUIRED_COLUMNS -> is_Some (dtypes df !! name))
    by (intros; by apply required_lookup).
  destruct (Hreq "order_date") as [d1 H1]; [by apply required_elem; in_list|].
  pose proof (Hreq "quantity" ltac:(by apply required_elem; in_list)) as H2.
  pose proof (Hreq "unit_price" ltac:(by apply required_elem; in_list)) as H3.
  pose proof (Hreq "discount" ltac:(by apply required_elem; in_list)) as H4.
  pose proof (text_typed_lookup df "region" Htext ltac:(in_list)) as T1.
  pose proof (text_typed_lookup df "category" Htext ltac:(in_list)) as T2.
  pose proof (text_typed_lookup df "product" Htext ltac:(in_list)) as T3.
  pose proof (text_typed_lookup df "status" Htext ltac:(in_list)) as T4.
  unfold clean_and_transform.
  rewrite (proj2 (validate_schema_Return df) Hsub), bind_Return.
  destruct df as [D R]. unfold drop_duplicates, len. cbn [dtypes rows] in *.
  rewrite (coerce_types_rowwise P D _ d1 H1 H2 H3 H4). cbn zeta. rewrite bind_Return.
  unfold dropna. cbn [dtypes rows].
  rewrite normalise_text_rowwise by lookup_col. rewrite bind_Return.
  change (source_dtype (mkFrame D (first_of_each (at_col "order_id") cell_eqb [] R)))
    with (source_dtype (mkFrame D R)).
  change (fun name : string =>
            numeric_dtype P
              (mkSeries (source_dtype (mkFrame D R) name)
                 (map (at_col name) (first_of_each (at_col "order_id") cell_eqb [] R))))
    with (target_dtype P (mkFrame D R)).
  rewrite (compute_revenue_rowwise (target_dtype P (mkFrame D R))) by lookup_col.
  rewrite bind_Return.
  rewrite filter_map_comm, !map_map. reflexivity.
Qed.

Lemma clean_and_transform_rowwise P df :
  cleanable P df = true ->
  clean_and_transform P df
  = Return (mkFrame (clean_dtypes P df) (clean_rows P df),
            len df - Z.of_nat (List.length (clean_rows P df))).
Proof.
  rewrite cleanable_parts. intros (Hsub & Htext & Hzone).
  rewrite clean_and_transform_steps by done. rewrite Hzone.
  rewrite cast_order_date_rowwise by lookup_col. rewrite bind_Return.
  unfold len. cbn [rows]. unfold clean_rows, clean_dtypes.
  rewrite !map_map. reflexivity.
Qed.

(** With all required columns and text columns of strings, but order
    dates of different zones, the cleaning step raises at the [.dt]
    accessor. *)
Lemma clean_and_transform_mixed_zones P df :
  REQUIRED_COLUMNS ⊆ columns df -> text_typed df = true ->
  dates_of_one_zone P df = false ->
  clean_and_transform P df = Raise (AttributeError "dt").
Proof.
  intros Hsub Htext Hzone.
  rewrite clean_and_transform_steps by done. rewrite Hzone.
  rewrite cast_order_date_raises by lookup_col. reflexivity.
Qed.
(* --------------------------------------------------------------------- *)
(** ** Text normalisation is idempotent *)
(* --------------------------------------------------------------------- *)

Section TextFacts.
Import Text.

Ltac by_cases_on_char c :=
  destruct c as [[] [] [] [] [] [] [] []]; reflexivity.

Lemma to_lower_idem c : to_lower (to_lower c) = to_lower c.
Proof. by_cases_on_char c. Qed.

Lemma to_upper_idem c : to_upper (to_upper c) = to_upper c.
Proof. by_cases_on_char c. Qed.

Lemma iscased_to_lower c : iscased (to_lower c) = iscased c.
Proof. by_cases_on_char c. Qed.

Lemma iscased_to_upper c : iscased (to_upper c) = iscased c.
Proof. by_cases_on_char c. Qed.

Lemma isspace_to_lower c : isspace (to_lower c) = isspace c.
Proof. by_cases_on_char c. Qed.

Lemma isspace_to_upper c : isspace (to_upper c) = isspace c.
Proof. by_cases_on_char c. Qed.

Lemma ascii_lower_idem s : ascii_lower (ascii_lower s) = ascii_lower s.
Proof. induction s as [|c s IH]; simpl; [done|]. by rewrite to_lower_idem, IH. Qed.

Lemma ascii_title_from_idem b s : ascii_title_from b (ascii_title_from b s) = ascii_title_from b s.
Proof.
  revert b. induction s as [|c s IH]; intros b; simpl; [done|].
  destruct b.
  - by rewrite to_lower_idem, iscased_to_lower, IH.
  - by rewrite to_upper_idem, iscased_to_upper, IH.
Qed.

Lemma ascii_title_idem s : ascii_title (ascii_title s) = ascii_title s.
Proof. apply ascii_title_from_idem. Qed.

Lemma lower_shape s : same_shape s (ascii_lower s).
Proof.
  induction s as [|c s IH]; simpl; constructor; [|done].
  by rewrite isspace_to_lower.
Qed.

Lemma title_from_shape b s : same_shape s (ascii_title_from b s).
Proof.
  revert b. induction s as [|c s IH]; intros b; simpl; constructor; [|done].
  destruct b; by rewrite ?isspace_to_lower, ?isspace_to_upper.
Qed.

Lemma lstrip_length s : (String.length (ascii_lstrip s) <= String.length s)%nat.
Proof.
  induction s as [|c s IH]; simpl; [lia|]. destruct (isspace c); simpl; lia.
Qed.

(** A string is unchanged by [ascii_lstrip] exactly when it does not start
    with white space. *)
Lemma lstrip_fixed s : ascii_lstrip s = s <-> starts_clean s = true.
Proof.
  destruct s as [|c s]; simpl; [done|].
  destruct (isspace c) eqn:E; simpl; [|done].
  split; [|done]. intros H. pose proof (lstrip_length s) as Hl.
  rewrite H in Hl. simpl in Hl. lia.
Qed.

Lemma lstrip_starts_clean s : starts_clean (ascii_lstrip s) = true.
Proof.
  induction s as [|c s IH]; simpl; [done|].
  destruct (isspace c) eqn:E; [done|]. simpl. by rewrite E.
Qed.

Lemma rstrip_starts_clean s : starts_clean s = true -> starts_clean (ascii_rstrip s) = true.
Proof.
  destruct s as [|c s]; simpl; [done|]. intros Hc.
  apply negb_true_iff in Hc. rewrite Hc. simpl. by rewrite Hc.
Qed.

Lemma rstrip_idem s : ascii_rstrip (ascii_rstrip s) = ascii_rstrip s.
Proof.
  induction s as [|c s IH]; simpl; [done|].
  destruct (isspace c && is_empty (ascii_rstrip s)) eqn:E; simpl; [done|].
  by rewrite IH, E.
Qed.

Lemma strip_starts_clean s : starts_clean (ascii_strip s) = true.
Proof. apply rstrip_starts_clean, lstrip_starts_clean. Qed.

Lemma strip_rstrip_fixed s : ascii_rstrip (ascii_strip s) = ascii_strip s.
Proof. apply rstrip_idem. Qed.

Lemma shape_starts_clean s t :
  same_shape s t -> starts_clean s = starts_clean t.
Proof. destruct 1 as [|c d s t Hcd _]; simpl; [done | by rewrite Hcd]. Qed.

Lemma shape_rstrip s t :
  same_shape s t ->
  is_empty (ascii_rstrip s) = is_empty (ascii_rstrip t) /\ (ascii_rstrip s = s -> ascii_rstrip t = t).
Proof.
  induction 1 as [|c d s t Hcd Hst [IHe IHf]]; simpl; [done|].
  rewrite <- Hcd, <- IHe.
  destruct (isspace c && is_empty (ascii_rstrip s)) eqn:E; simpl; [done|].
  split; [done|]. intros [= Hs]. by rewrite IHf.
Qed.

Lemma strip_trimmed s : trimmed (ascii_strip s).
Proof. split; [apply strip_starts_clean | apply strip_rstrip_fixed]. Qed.

Lemma trimmed_strip s : trimmed s -> ascii_strip s = s.
Proof.
  intros [Hl Hr]. unfold ascii_strip. apply lstrip_fixed in Hl. by rewrite Hl.
Qed.

Lemma trimmed_shape s t : same_shape s t -> trimmed s -> trimmed t.
Proof.
  intros Hst [Hl Hr]. split.
  - by rewrite <- (shape_starts_clean _ _ Hst).
  - by apply (shape_rstrip _ _ Hst).
Qed.

Lemma ascii_strip_idem s : ascii_strip (ascii_strip s) = ascii_strip s.
Proof. apply trimmed_strip, strip_trimmed. Qed.

Lemma strip_title_strip s : ascii_strip (ascii_title (ascii_strip s)) = ascii_title (ascii_strip s).
Proof.
  apply trimmed_strip. eapply trimmed_shape; [apply title_from_shape|apply strip_trimmed].
Qed.

Lemma strip_lower_strip s : ascii_strip (ascii_lower (ascii_strip s)) = ascii_lower (ascii_strip s).
Proof.
  apply trimmed_strip. eapply trimmed_shape; [apply lower_shape|apply strip_trimmed].
Qed.



(** *** ASCII text: the methods of [str] work byte by byte *)

(** The code points of a string of ASCII characters. *)
Let points (s : string) : list N := map code (list_ascii_of_string s).

Lemma code_to_lower c : (code c <? 128)%N = true -> (code (to_lower c) <? 128)%N = true.
Proof. destruct c as [[] [] [] [] [] [] [] []]; vm_compute; congruence. Qed.

Lemma code_to_upper c : (code c <? 128)%N = true -> (code (to_upper c) <? 128)%N = true.
Proof. destruct c as [[] [] [] [] [] [] [] []]; vm_compute; congruence. Qed.

Lemma ascii_of_code c : ascii_of_N (code c) = c.
Proof. apply ascii_N_embedding. Qed.

Lemma is_ascii_cons c s :
  is_ascii (String c s) = true <-> (code c <? 128)%N = true /\ is_ascii s = true.
Proof. unfold is_ascii. simpl. apply andb_true_iff. Qed.

Lemma decode_ascii s : is_ascii s = true -> decode s = points s.
Proof.
  induction s as [|c s IH]; [done|]. rewrite is_ascii_cons. intros [Hc Hs].
  cbn [decode]. cbv zeta. rewrite Hc.
  assert ((code c <? 194)%N = true) as ->.
  { apply N.ltb_lt in Hc. apply N.ltb_lt. lia. }
  cbn [orb]. unfold points. simpl. f_equal. by apply IH.
Qed.

Lemma encode_ascii s : is_ascii s = true -> encode (points s) = s.
Proof.
  induction s as [|c s IH]; [done|]. rewrite is_ascii_cons. intros [Hc Hs].
  unfold points. simpl. unfold encode_point. rewrite Hc. simpl.
  rewrite ascii_of_code. f_equal. by apply IH.
Qed.

Lemma is_ascii_lower s : is_ascii s = true -> is_ascii (ascii_lower s) = true.
Proof.
  induction s as [|c s IH]; [done|]. simpl. rewrite !is_ascii_cons. intros [Hc Hs].
  split; [by apply code_to_lower | by apply IH].
Qed.

Lemma is_ascii_title_from b s :
  is_ascii s = true -> is_ascii (ascii_title_from b s) = true.
Proof.
  revert b. induction s as [|c s IH]; intros b; [done|]. simpl.
  rewrite !is_ascii_cons. intros [Hc Hs].
  split; [destruct b; by auto using code_to_lower, code_to_upper | by apply IH].
Qed.

Lemma is_ascii_lstrip s : is_ascii s = true -> is_ascii (ascii_lstrip s) = true.
Proof.
  induction s as [|c s IH]; [done|]. intros H. simpl.
  destruct (isspace c); [|done]. apply is_ascii_cons in H as [_ Hs]. by apply IH.
Qed.

Lemma is_ascii_rstrip s : is_ascii s = true -> is_ascii (ascii_rstrip s) = true.
Proof.
  induction s as [|c s IH]; [done|]. rewrite is_ascii_cons. intros [Hc Hs]. simpl.
  destruct (isspace c && is_empty (ascii_rstrip s)); [done|].
  apply is_ascii_cons. split; [done | by apply IH].
Qed.

Lemma is_ascii_strip s : is_ascii s = true -> is_ascii (ascii_strip s) = true.
Proof. intros H. by apply is_ascii_rstrip, is_ascii_lstrip. Qed.

Section Database.
Context (U : Unicode).

Lemma lower_at_ascii before c after :
  (code c <? 128)%N = true -> lower_at U before (code c) after = [code (to_lower c)].
Proof.
  intros Hc. unfold lower_at, lower_point. rewrite Hc, ascii_of_code.
  destruct (code c =? 931)%N eqn:E; [|done].
  apply N.eqb_eq in E. rewrite E in Hc. done.
Qed.

Lemma title_point_ascii c :
  (code c <? 128)%N = true -> title_point U (code c) = [code (to_upper c)].
Proof. intros Hc. unfold title_point. by rewrite Hc, ascii_of_code. Qed.

Lemma is_cased_ascii c : (code c <? 128)%N = true -> is_cased U (code c) = iscased c.
Proof. intros Hc. unfold is_cased. by rewrite Hc, ascii_of_code. Qed.

Lemma is_space_ascii c : (code c <? 128)%N = true -> is_space U (code c) = isspace c.
Proof. intros Hc. unfold is_space. by rewrite Hc, ascii_of_code. Qed.

Lemma lower_from_ascii before s :
  is_ascii s = true -> lower_from U before (points s) = points (ascii_lower s).
Proof.
  revert before. induction s as [|c s IH]; intros before; [done|].
  rewrite is_ascii_cons. intros [Hc Hs].
  unfold points. simpl. rewrite lower_at_ascii by done. simpl. f_equal.
  by apply IH.
Qed.

Lemma title_from_ascii b before s :
  is_ascii s = true ->
  title_from U b before (points s) = points (ascii_title_from b s).
Proof.
  revert b before. induction s as [|c s IH]; intros b before; [done|].
  rewrite is_ascii_cons. intros [Hc Hs].
  unfold points. simpl. rewrite lower_at_ascii, title_point_ascii, is_cased_ascii by done.
  destruct b; simpl; f_equal; by apply IH.
Qed.

Lemma lstrip_points_ascii s :
  is_ascii s = true -> lstrip_points U (points s) = points (ascii_lstrip s).
Proof.
  induction s as [|c s IH]; [done|]. rewrite is_ascii_cons. intros [Hc Hs].
  unfold points. simpl. rewrite is_space_ascii by done.
  destruct (isspace c); [by apply IH | done].
Qed.

Lemma rstrip_points_ascii s :
  is_ascii s = true -> rstrip_points U (points s) = points (ascii_rstrip s).
Proof.
  induction s as [|c s IH]; [done|]. rewrite is_ascii_cons. intros [Hc Hs].
  unfold points in *. simpl. rewrite IH, is_space_ascii by done.
  destruct (ascii_rstrip s) as [|d t]; simpl; [by destruct (isspace c)|].
  by rewrite andb_false_r.
Qed.

(** On ASCII text [str.lower], [str.title] and [str.strip] are the
    byte-wise functions, whatever the character database. *)
Lemma lower_ascii s : is_ascii s = true -> lower U s = ascii_lower s.
Proof.
  intros H. unfold lower. rewrite decode_ascii, lower_from_ascii by done.
  by apply encode_ascii, is_ascii_lower.
Qed.

Lemma title_ascii s : is_ascii s = true -> title U s = ascii_title s.
Proof.
  intros H. unfold title. rewrite decode_ascii, title_from_ascii by done.
  by apply encode_ascii, is_ascii_title_from.
Qed.

Lemma strip_ascii s : is_ascii s = true -> strip U s = ascii_strip s.
Proof.
  intros H. unfold strip, ascii_strip.
  rewrite decode_ascii, lstrip_points_ascii by done.
  rewrite rstrip_points_ascii by (by apply is_ascii_lstrip).
  by apply encode_ascii, is_ascii_rstrip, is_ascii_lstrip.
Qed.



Lemma strip_strip_fixed s :
  is_ascii s = true -> strip U (strip U s) = strip U s.
Proof.
  intros H. rewrite (strip_ascii s) by done.
  rewrite strip_ascii by (by apply is_ascii_strip). apply ascii_strip_idem.
Qed.

End Database.

End TextFacts.
(* --------------------------------------------------------------------- *)
(** ** Numbers, dates and the cells of a cleaned row *)
(* --------------------------------------------------------------------- *)

(** *** Numbers *)


Lemma clip_range q : (0 <= Numeric.clip 0 1 q <= 1)%Q.
Proof.
  unfold Numeric.clip.
  destruct (Qle_bool q 0) eqn:E0; [split; [apply Qle_refl | discriminate]|].
  destruct (Qle_bool 1 q) eqn:E1; [split; [discriminate | apply Qle_refl]|].
  split.
  - apply Qlt_le_weak, Qnot_le_lt. intros H. apply Qle_bool_iff in H. congruence.
  - apply Qlt_le_weak, Qnot_le_lt. intros H. apply Qle_bool_iff in H. congruence.
Qed.

Lemma clip_below q : (q <= 0)%Q -> Numeric.clip 0 1 q = 0%Q.
Proof. intros H. unfold Numeric.clip. apply Qle_bool_iff in H. by rewrite H. Qed.

Lemma clip_above q : (1 <= q)%Q -> Numeric.clip 0 1 q = 1%Q.
Proof.
  intros H. unfold Numeric.clip.
  destruct (Qle_bool q 0) eqn:E0.
  - apply Qle_bool_iff in E0. exfalso.
    assert (H10 : (1 <= 0)%Q) by (eapply Qle_trans; eassumption).
    exact (H10 eq_refl).
  - apply Qle_bool_iff in H. by rewrite H.
Qed.

Lemma clip_inside q : (0 < q)%Q -> (q < 1)%Q -> Numeric.clip 0 1 q = q.
Proof.
  intros H0 H1. unfold Numeric.clip.
  destruct (Qle_bool q 0) eqn:E0.
  - apply Qle_bool_iff in E0. exfalso. by apply (Qlt_not_le _ _ H0).
  - destruct (Qle_bool 1 q) eqn:E1; [|done].
    apply Qle_bool_iff in E1. exfalso. by apply (Qlt_not_le _ _ H1).
Qed.

Lemma to_numeric_cell_idem P c :
  to_numeric_cell P (to_numeric_cell P c) = to_numeric_cell P c.
Proof. destruct c; simpl; try done. by destruct (parse_number P s). Qed.

Lemma to_numeric_cell_Num_or_NA P c :
  to_numeric_cell P c = NA \/ exists q, to_numeric_cell P c = Num q.
Proof. destruct c; simpl; eauto. destruct (parse_number P s); eauto. Qed.

Lemma numeric_cell_Num_or_NA P source target c :
  numeric_cell P source target c = NA \/ exists q, numeric_cell P source target c = Num q.
Proof.
  unfold numeric_cell.
  destruct (to_numeric_cell_Num_or_NA P c) as [-> | [q ->]];
    destruct source, target; simpl; eauto.
Qed.





Lemma to_datetime_cell_Stamp_or_NA P h c :
  to_datetime_cell P h c = NA \/ exists ns, to_datetime_cell P h c = Stamp ns.
Proof.
  destruct c; simpl; eauto.
  - destruct (parse_datetime P h s); eauto.
  - destruct (epoch_datetime P q); eauto.
Qed.



Lemma str_cell_idem f c :
  (forall s, f (f s) = f s) -> str_cell f (str_cell f c) = str_cell f c.
Proof. intros Hf. destruct c; simpl; try done. by rewrite Hf. Qed.

Lemma str_cell_compose f g c : str_cell f (str_cell g c) = str_cell (fun s => f (g s)) c.
Proof. by destruct c. Qed.

(** *** Cells of a cleaned row *)

Ltac lookup_row :=
  unfold finish_row, normalise_row, coerce_row, revenue, set_col, at_col;
  repeat (rewrite ?lookup_insert_eq; rewrite ?lookup_insert_ne by discriminate);
  cbn [default from_option]; try reflexivity.

Section CleanedRow.
Context (P : Coercions) (h : option string) (source target : string -> dtype)
        (r : gmap string cell).
Let cr := finish_row P target (coerce_row P h source target r).
Let U := unicode P.

Lemma coerce_row_order_id :
  at_col "order_id" (coerce_row P h source target r) = at_col "order_id" r.
Proof. lookup_row. Qed.

Lemma coerce_row_order_date :
  at_col "order_date" (coerce_row P h source target r)
  = to_datetime_cell P h (at_col "order_date" r).
Proof. lookup_row. Qed.

Lemma coerce_row_quantity :
  at_col "quantity" (coerce_row P h source target r)
  = numeric_cell P (source "quantity") (target "quantity") (at_col "quantity" r).
Proof. lookup_row. Qed.

Lemma coerce_row_unit_price :
  at_col "unit_price" (coerce_row P h source target r)
  = numeric_cell P (source "unit_price") (target "unit_price") (at_col "unit_price" r).
Proof. lookup_row. Qed.

Lemma coerce_row_discount :
  at_col "discount" (coerce_row P h source target r)
  = clip_cell 0 1
      (numeric_cell P (source "discount") (target "discount") (at_col "discount" r)).
Proof. lookup_row. Qed.

Lemma cleaned_order_date :
  cr !! "order_date" = Some (date_cell (to_datetime_cell P h (at_col "order_date" r))).
Proof. subst cr. lookup_row. Qed.

Lemma cleaned_quantity :
  cr !! "quantity"
  = Some (numeric_cell P (source "quantity") (target "quantity") (at_col "quantity" r)).
Proof. subst cr. lookup_row. Qed.

Lemma cleaned_unit_price :
  cr !! "unit_price"
  = Some (numeric_cell P (source "unit_price") (target "unit_price")
            (at_col "unit_price" r)).
Proof. subst cr. lookup_row. Qed.

Lemma cleaned_discount :
  cr !! "discount"
  = Some (clip_cell 0 1
            (numeric_cell P (source "discount") (target "discount")
               (at_col "discount" r))).
Proof. subst cr. lookup_row. Qed.

Lemma cleaned_region :
  cr !! "region"
  = Some (str_cell (Text.title U) (str_cell (Text.strip U) (at_col "region" r))).
Proof. subst cr U. lookup_row. Qed.

Lemma cleaned_category :
  cr !! "category"
  = Some (str_cell (Text.title U) (str_cell (Text.strip U) (at_col "category" r))).
Proof. subst cr U. lookup_row. Qed.

Lemma cleaned_product :
  cr !! "product" = Some (str_cell (Text.strip U) (at_col "product" r)).
Proof. subst cr U. lookup_row. Qed.

Lemma cleaned_status :
  cr !! "status"
  = Some (str_cell (Text.lower U) (str_cell (Text.strip U) (at_col "status" r))).
Proof. subst cr U. lookup_row. Qed.

Lemma cleaned_total_revenue :
  cr !! "total_revenue"
  = Some (round_cell (revenue_dtype target) 2
            (mul_cell (gross_dtype target) (result_dtype (target "discount") int64)
               (mul_cell (target "quantity") (target "unit_price")
                  (numeric_cell P (source "quantity") (target "quantity")
                     (at_col "quantity" r))
                  (numeric_cell P (source "unit_price") (target "unit_price")
                     (at_col "unit_price" r)))
               (rsub_cell (target "discount") 1
                  (clip_cell 0 1
                     (numeric_cell P (source "discount") (target "discount")
                        (at_col "discount" r)))))).
Proof. subst cr. lookup_row. Qed.

Lemma cleaned_order_id : cr !! "order_id" = r !! "order_id".
Proof. subst cr. lookup_row. Qed.

Lemma cleaned_customer_id : cr !! "customer_id" = r !! "customer_id".
Proof. subst cr. lookup_row. Qed.

End CleanedRow.
(* --------------------------------------------------------------------- *)
(** ** A cleaned row is cleaned into itself *)
(* --------------------------------------------------------------------- *)

Lemma cleaned_other P h source target r k :
  k ∉ touched -> finish_row P target (coerce_row P h source target r) !! k = r !! k.
Proof.
  unfold touched. rewrite !not_elem_of_cons. intros (?&?&?&?&?&?&?&?&?&_).
  unfold finish_row, normalise_row, coerce_row, revenue, set_col.
  by rewrite !lookup_insert_ne by done.
Qed.

Lemma at_col_Some r k v : r !! k = Some v -> at_col k r = v.
Proof. unfold at_col. by intros ->. Qed.

Lemma complete_critical r :
  complete critical r = true <->
  notna (at_col "order_id" r) = true /\ notna (at_col "order_date" r) = true /\
  notna (at_col "quantity" r) = true /\ notna (at_col "unit_price" r) = true.
Proof.
  unfold complete, critical. simpl. rewrite !andb_true_iff. tauto.
Qed.

Lemma notna_date_cell P h c :
  notna (to_datetime_cell P h c) = true ->
  exists d, date_cell (to_datetime_cell P h c) = Day d.
Proof.
  destruct (to_datetime_cell_Stamp_or_NA P h c) as [-> | [ns ->]]; simpl; [done|eauto].
Qed.

Lemma notna_to_numeric P source target c :
  notna (numeric_cell P source target c) = true ->
  exists q, numeric_cell P source target c = Num q.
Proof.
  destruct (numeric_cell_Num_or_NA P source target c) as [-> | [q ->]];
    simpl; [done|eauto].
Qed.



(* --------------------------------------------------------------------- *)
(** ** Deduplication *)
(* --------------------------------------------------------------------- *)

Lemma cell_eqb_refl c : cell_eqb c c = true.
Proof.
  destruct c; simpl; auto using String.eqb_refl, Z.eqb_refl.
  apply Qeq_bool_iff. reflexivity.
Qed.

Lemma cell_eqb_sym a b : cell_eqb a b = cell_eqb b a.
Proof.
  destruct a, b; simpl; auto using String.eqb_sym, Z.eqb_sym.
  apply eq_true_iff_eq. rewrite !Qeq_bool_iff. split; intros H; by symmetry.
Qed.

Lemma cell_eqb_trans a b c :
  cell_eqb a b = true -> cell_eqb b c = true -> cell_eqb a c = true.
Proof.
  destruct a, b, c; simpl; try done.
  - rewrite !String.eqb_eq. congruence.
  - rewrite !Qeq_bool_iff. intros H1 H2. by rewrite H1.
  - rewrite !Z.eqb_eq. congruence.
  - rewrite !Z.eqb_eq. congruence.
Qed.

Section FirstOfEach.
Context {A K : Type} (key : A -> K) (eqb : K -> K -> bool).
Hypothesis eqb_sym : forall a b, eqb a b = eqb b a.
Hypothesis eqb_trans : forall a b c, eqb a b = true -> eqb b c = true -> eqb a c = true.

Lemma eqb_compat a b c : eqb a b = true -> eqb a c = eqb b c.
Proof.
  intros Hab. apply eq_true_iff_eq. split; intros H.
  - eapply eqb_trans; [|exact H]. by rewrite eqb_sym.
  - by eapply eqb_trans.
Qed.

Lemma existsb_eqb_compat a b seen :
  eqb a b = true -> existsb (eqb a) seen = existsb (eqb b) seen.
Proof.
  intros Hab. induction seen as [|s seen IH]; simpl; [done|].
  by rewrite IH, (eqb_compat a b s).
Qed.

Lemma first_of_each_fresh seen xs : fresh key eqb seen (first_of_each key eqb seen xs).
Proof.
  revert seen. induction xs as [|x xs IH]; intros seen; simpl; [done|].
  destruct (existsb (eqb (key x)) seen) eqn:E; simpl; auto.
Qed.


Lemma fresh_weaken seen seen' xs :
  (forall c, existsb (eqb c) seen' = true -> existsb (eqb c) seen = true) ->
  fresh key eqb seen xs -> fresh key eqb seen' xs.
Proof.
  revert seen seen'. induction xs as [|x xs IH]; intros seen seen' Hsub; simpl; [done|].
  intros [H1 H2]. split.
  - destruct (existsb (eqb (key x)) seen') eqn:E; [|done].
    apply Hsub in E. congruence.
  - eapply IH; [|exact H2]. intros c. simpl. rewrite !orb_true_iff.
    intros [?|?]; auto.
Qed.

Lemma fresh_filter seen p xs :
  fresh key eqb seen xs -> fresh key eqb seen (List.filter p xs).
Proof.
  revert seen. induction xs as [|x xs IH]; intros seen; simpl; [done|].
  intros [H1 H2]. destruct (p x); simpl.
  - split; [done|]. by apply IH.
  - apply IH. eapply fresh_weaken; [|exact H2].
    intros c Hc. simpl. by rewrite Hc, orb_true_r.
Qed.

Lemma fresh_map seen (f : A -> A) xs :
  (forall x, key (f x) = key x) ->
  fresh key eqb seen xs -> fresh key eqb seen (map f xs).
Proof.
  intros Hf. revert seen. induction xs as [|x xs IH]; intros seen; simpl; [done|].
  rewrite Hf. intros [H1 H2]. split; [done|]. by apply IH.
Qed.

Lemma first_of_each_In seen xs x : In x (first_of_each key eqb seen xs) -> In x xs.
Proof.
  revert seen. induction xs as [|y xs IH]; intros seen; simpl; [done|].
  destruct (existsb (eqb (key y)) seen); simpl; [eauto|]. intros [?|?]; eauto.
Qed.

(** Of the elements with one key, the first is kept and no other. *)
Lemma filter_first_of_each k seen xs :
  List.filter (fun x => eqb (key x) k) (first_of_each key eqb seen xs)
  = if existsb (eqb k) seen then []
    else match List.find (fun x => eqb (key x) k) xs with
         | Some x0 => [x0]
         | None => []
         end.
Proof.
  revert seen. induction xs as [|x xs IH]; intros seen; simpl.
  - by destruct (existsb (eqb k) seen).
  - destruct (eqb (key x) k) eqn:Eid.
    + rewrite (existsb_eqb_compat _ _ seen Eid).
      destruct (existsb (eqb k) seen) eqn:Es.
      * by rewrite IH, Es.
      * simpl. rewrite Eid, IH. simpl.
        by rewrite eqb_sym, Eid.
    + destruct (existsb (eqb (key x)) seen) eqn:Es.
      * apply IH.
      * simpl. rewrite Eid, IH. simpl. by rewrite eqb_sym, Eid.
Qed.

End FirstOfEach.

Lemma clean_row_order_id P df r :
  at_col "order_id" (clean_row P df r) = at_col "order_id" r.
Proof. unfold clean_row, coerced, at_col. by rewrite cleaned_order_id. Qed.

Lemma dedup_fresh rs : fresh (at_col "order_id") cell_eqb [] (dedup rs).
Proof. apply first_of_each_fresh. Qed.

Lemma clean_rows_fresh P df :
  fresh (at_col "order_id") cell_eqb [] (clean_rows P df).
Proof.
  apply fresh_map; [apply clean_row_order_id|]. apply fresh_filter, dedup_fresh.
Qed.




(** A cleaned row is salvaged: its order date is a date. *)
Lemma clean_row_date P df r :
  salvageable P df r = true -> exists d, at_col "order_date" (clean_row P df r) = Day d.
Proof.
  unfold salvageable, coerced. rewrite complete_critical, coerce_row_order_date.
  intros (_ & Hdate & _). destruct (notna_date_cell _ _ _ Hdate) as [d Hd].
  exists d. unfold clean_row, coerced.
  by rewrite (at_col_Some _ _ _ (cleaned_order_date _ _ _ _ _)).
Qed.

(** Dates are timestamps of no zone. *)
Lemma one_zone_days P vs :
  (forall c, In c vs -> exists d, c = Day d) -> one_zone P vs = true.
Proof.
  intros Hd. unfold one_zone.
  assert (Hz : forall h, Forall (fun z => z = None) (omap (zone_of P h) vs)).
  { intros h. induction vs as [|c vs IH]; simpl; [constructor|].
    destruct (Hd c ltac:(by left)) as [d ->]. simpl. constructor; [done|].
    apply IH. intros c' Hc'. apply Hd. by right. }
  specialize (Hz (format_hint vs)).
  destruct (omap _ vs) as [|z zs]; [done|].
  inversion Hz as [|? ? Hz0 Hzs]; subst. apply forallb_forall. intros z' Hz'.
  rewrite Forall_forall in Hzs. apply Hzs in Hz'. by subst z'.
Qed.

(* --------------------------------------------------------------------- *)
(** ** A second pass over the cleaned batch *)
(* --------------------------------------------------------------------- *)

Section SecondPass.
Context (P : Coercions) (df : DataFrame).
Let out := mkFrame (clean_dtypes P df) (clean_rows P df).



Lemma cleaned_dates_of_one_zone : dates_of_one_zone P out = true.
Proof.
  unfold dates_of_one_zone. apply one_zone_days. intros c Hc.
  apply in_map_iff in Hc as (x & <- & Hx). apply first_of_each_In in Hx.
  unfold out in Hx. cbn [rows] in Hx. unfold clean_rows in Hx.
  apply in_map_iff in Hx as (r & <- & Hr). apply filter_In in Hr as [_ Hs].
  by apply clean_row_date.
Qed.

Lemma columns_clean_dtypes : dom (dtypes df) ⊆ dom (clean_dtypes P df).
Proof.
  unfold clean_dtypes. rewrite !dom_insert_L. set_solver.
Qed.

Lemma cleanable_clean : REQUIRED_COLUMNS ⊆ columns df -> cleanable P out = true.
Proof.
  intros Hsub. apply cleanable_parts. split; [|split].
  - unfold columns in *. unfold out. cbn [dtypes]. etrans; [exact Hsub|apply columns_clean_dtypes].
  - unfold text_typed, text_columns, out. cbn [forallb dtypes]. unfold clean_dtypes.
    rewrite !andb_true_iff, !bool_decide_eq_true. repeat split; lookup_col.
  - apply cleaned_dates_of_one_zone.
Qed.




End SecondPass.

(* --------------------------------------------------------------------- *)
(** ** When the cleaning step returns *)
(* --------------------------------------------------------------------- *)

Ltac norm_step P :=
  repeat (rewrite str_method_object, bind_Return; cbn [values dtype_of]);
  rewrite ?(map_map (str_cell (Text.strip (unicode P)))), setitem_col.

Lemma normalise_text_raises P D R t1 t2 t3 t4 :
  D !! "region" = Some t1 -> D !! "category" = Some t2 ->
  D !! "product" = Some t3 -> D !! "status" = Some t4 ->
  ~ (t1 = object_ /\ t2 = object_ /\ t3 = object_ /\ t4 = object_) ->
  normalise_text P (mkFrame D R) = Raise (AttributeError "str").
Proof.
  intros H1 H2 H3 H4 Hn. unfold normalise_text. cbn zeta.
  next_col "region". destruct t1; [|reflexivity..]. norm_step P.
  next_col "category". destruct t2; [|reflexivity..]. norm_step P.
  next_col "product". destruct t3; [|reflexivity..]. norm_step P.
  next_col "status". destruct t4; [|reflexivity..].
  by destruct Hn.
Qed.

Lemma text_typed_false df t1 t2 t3 t4 :
  dtypes df !! "region" = Some t1 -> dtypes df !! "category" = Some t2 ->
  dtypes df !! "product" = Some t3 -> dtypes df !! "status" = Some t4 ->
  text_typed df = false ->
  ~ (t1 = object_ /\ t2 = object_ /\ t3 = object_ /\ t4 = object_).
Proof.
  intros H1 H2 H3 H4 Hf (-> & -> & -> & ->).
  unfold text_typed, text_columns in Hf. simpl in Hf.
  rewrite H1, H2, H3, H4 in Hf. by rewrite !bool_decide_eq_true_2 in Hf.
Qed.

(** With all required columns but a text column that does not hold
    strings, the cleaning step raises at the [.str] accessor. *)
Lemma clean_and_transform_untyped P df :
  REQUIRED_COLUMNS ⊆ columns df -> text_typed df = false ->
  clean_and_transform P df = Raise (AttributeError "str").
Proof.
  intros Hsub Htext.
  assert (Hreq : forall name, name ∈ REQUIRED_COLUMNS -> is_Some (dtypes df !! name))
    by (intros; by apply required_lookup).
  destruct (Hreq "order_date") as [d1 H1]; [by apply required_elem; in_list|].
  pose proof (Hreq "quantity" ltac:(by apply required_elem; in_list)) as H2.
  pose proof (Hreq "unit_price" ltac:(by apply required_elem; in_list)) as H3.
  pose proof (Hreq "discount" ltac:(by apply required_elem; in_list)) as H4.
  destruct (Hreq "region") as [t1 T1]; [by apply required_elem; in_list|].
  destruct (Hreq "category") as [t2 T2]; [by apply required_elem; in_list|].
  destruct (Hreq "product") as [t3 T3]; [by apply required_elem; in_list|].
  destruct (Hreq "status") as [t4 T4]; [by apply required_elem; in_list|].
  pose proof (text_typed_false df _ _ _ _ T1 T2 T3 T4 Htext) as Hn.
  unfold clean_and_transform.
  rewrite (proj2 (validate_schema_Return df) Hsub), bind_Return.
  destruct df as [D R]. unfold drop_duplicates, len. cbn [dtypes rows] in *.
  rewrite (coerce_types_rowwise P D _ d1 H1 H2 H3 H4). cbn zeta. rewrite bind_Return.
  unfold dropna. cbn [dtypes rows].
  erewrite normalise_text_raises; [reflexivity|lookup_col..|exact Hn].
Qed.

Lemma clean_and_transform_missing P df :
  ¬ REQUIRED_COLUMNS ⊆ columns df ->
  clean_and_transform P df
  = Raise (ValueError (MissingRequiredColumns (REQUIRED_COLUMNS ∖ columns df))).
Proof.
  intros Hn. unfold clean_and_transform. by rewrite validate_schema_Raise.
Qed.

(** The cleaning step returns exactly on the cleanable batches. *)
Lemma clean_and_transform_returns P df :
  (exists out k, clean_and_transform P df = Return (out, k)) <-> cleanable P df = true.
Proof.
  split.
  - intros (out & k & H). apply cleanable_parts.
    destruct (decide (REQUIRED_COLUMNS ⊆ columns df)) as [Hsub|Hsub];
      [|by rewrite clean_and_transform_missing in H].
    destruct (text_typed df) eqn:Ht;
      [|by rewrite clean_and_transform_untyped in H].
    destruct (dates_of_one_zone P df) eqn:Hz; [done|].
    by rewrite clean_and_transform_mixed_zones in H.
  - intros H. rewrite clean_and_transform_rowwise by done. eauto.
Qed.






(* --------------------------------------------------------------------- *)
(** ** The load transaction *)
(* --------------------------------------------------------------------- *)

Section Transaction.
Context {DB : Type} (S : Server DB).

Lemma keeps_ret {A} (a : A) : keeps_durable (@ret DB A a).
Proof. intros conn conn' r [= <- _]. done. Qed.

Lemma keeps_raise {A} e : keeps_durable (@raise DB A e).
Proof. intros conn conn' r [= <- _]. done. Qed.

Lemma keeps_lift {A} (x : result A) : keeps_durable (@lift DB A x).
Proof. intros conn conn' r [= <- _]. done. Qed.

Lemma keeps_bind {A B} (m : io DB A) (k : A -> io DB B) :
  keeps_durable m -> (forall a, keeps_durable (k a)) -> keeps_durable (m ≫= k).
Proof.
  intros Hm Hk conn conn' r. unfold mbind, io_bind, bind.
  destruct (m conn) as [conn1 [a|e]] eqn:E.
  - intros H. apply Hk in H. apply Hm in E. congruence.
  - intros [= <- _]. by apply Hm in E.
Qed.

Lemma keeps_cursor_execute st : keeps_durable (cursor_execute S st).
Proof.
  intros conn conn' r. unfold cursor_execute.
  destruct (execute S st (session conn)) as [[db' rp]|e]; by intros [= <- _].
Qed.

Lemma keeps_execute_pages sql pages n : keeps_durable (execute_pages S sql pages n).
Proof.
  revert n. induction pages as [|p pages IH]; intros n; simpl.
  - apply keeps_ret.
  - apply keeps_bind; [apply keeps_cursor_execute|]. intros r. apply IH.
Qed.

Lemma keeps_execute_values sql recs n : keeps_durable (execute_values S sql recs n).
Proof. apply keeps_execute_pages. Qed.

Lemma keeps_upsert_orders df : keeps_durable (upsert_orders S df).
Proof.
  unfold upsert_orders. destruct (empty df); [apply keeps_ret|].
  apply keeps_bind; [apply keeps_lift|]. intros recs.
  apply keeps_bind; [apply keeps_execute_values|]. intros n. apply keeps_ret.
Qed.

Lemma keeps_upsert_purchased_products agg_df :
  keeps_durable (upsert_purchased_products S agg_df).
Proof.
  unfold upsert_purchased_products. destruct (empty agg_df); [apply keeps_ret|].
  apply keeps_bind; [apply keeps_lift|]. intros recs.
  apply keeps_bind; [apply keeps_execute_values|]. intros n. apply keeps_ret.
Qed.

Lemma keeps_log_pipeline_run a b c d e : keeps_durable (log_pipeline_run S a b c d e).
Proof.
  unfold log_pipeline_run. apply keeps_bind; [apply keeps_cursor_execute|].
  intros r. destruct (returning r); [apply keeps_ret|apply keeps_raise].
Qed.

Lemma keeps_load_block df agg k key run :
  keeps_durable (load_block S df agg k key run).
Proof.
  unfold load_block. apply keeps_bind; [apply keeps_upsert_orders|]. intros [n m].
  apply keeps_bind; [apply keeps_upsert_purchased_products|]. intros _.
  apply keeps_bind; [apply keeps_log_pipeline_run|]. intros _. apply keeps_ret.
Qed.

(** A block that raises under [get_connection] leaves the database as it
    was, and so does a failing connect or commit. *)
Lemma get_connection_raise {A} (body : io DB A) db db' e :
  keeps_durable body ->
  get_connection S body db = (db', Raise e) -> db' = db.
Proof.
  intros Hbody. unfold get_connection.
  destruct (connect S db) as [[]|e0]; [|by intros [= <- _]].
  unfold mbind, io_bind, bind.
  destruct (body (mkConn db db [])) as [conn1 [a|e1]] eqn:E.
  - apply Hbody in E. cbn in E. unfold conn_commit.
    destruct (commit S (session conn1)) as [[]|e2]; cbn; [done|].
    intros [= <- _]. done.
  - apply Hbody in E. cbn in E. intros [= <- _]. done.
Qed.

(** When the block returns and the commit goes through, the database is
    the state the block's transaction reached. *)
Lemma get_connection_return {A} (body : io DB A) db db' a :
  get_connection S body db = (db', Return a) ->
  exists conn', body (mkConn db db []) = (conn', Return a) /\ db' = session conn'.
Proof.
  unfold get_connection.
  destruct (connect S db) as [[]|e0]; [|done].
  unfold mbind, io_bind, bind.
  destruct (body (mkConn db db [])) as [conn1 [a1|e1]] eqn:E; [|done].
  unfold conn_commit. destruct (commit S (session conn1)) as [[]|e2]; cbn; [|done].
  intros [= <- <-]. eauto.
Qed.

(** C1. The load is atomic, whatever the server answers.  When
    [load_to_postgres] raises, the database is what it was before the run;
    in particular, when the orders upsert has gone through and the
    aggregation upsert then raises, the run ends with that error and the
    database unchanged.  When it returns, the database is the state the
    three operations reached together. *)
Theorem load_is_atomic df rows_skipped object_key dag_run_id db :
  (forall db' e,
      load_to_postgres S df rows_skipped object_key dag_run_id db = (db', Raise e) ->
      db' = db) /\
  (forall agg_df conn1 r conn2 e,
      Transformations.build_product_aggregations df = Return agg_df ->
      connect S db = Return tt ->
      upsert_orders S df (mkConn db db []) = (conn1, Return r) ->
      upsert_purchased_products S agg_df conn1 = (conn2, Raise e) ->
      load_to_postgres S df rows_skipped object_key dag_run_id db = (db, Raise e)) /\
  (forall db',
      load_to_postgres S df rows_skipped object_key dag_run_id db = (db', Return tt) ->
      exists agg_df conn',
        Transformations.build_product_aggregations df = Return agg_df /\
        load_block S df agg_df rows_skipped object_key dag_run_id (mkConn db db [])
        = (conn', Return tt) /\
        db' = session conn').
Proof.
  split; [|split].
  - intros db' e. unfold load_to_postgres.
    destruct (Transformations.build_product_aggregations df) as [agg|e0];
      [|by intros [= <- _]].
    apply get_connection_raise, keeps_load_block.
  - intros agg conn1 [n m] conn2 e Hagg Hconn Ho Hp.
    unfold load_to_postgres, get_connection. rewrite Hagg, Hconn.
    unfold load_block, mbind, io_bind, bind. rewrite Ho, Hp. cbn.
    apply keeps_upsert_orders in Ho. apply keeps_upsert_purchased_products in Hp.
    cbn in Ho. unfold conn_close, conn_rollback. cbn. congruence.
  - intros db'. unfold load_to_postgres.
    destruct (Transformations.build_product_aggregations df) as [agg|e0]; [|done].
    intros H. apply get_connection_return in H as (conn' & H & ->). eauto.
Qed.

End Transaction.

(* --------------------------------------------------------------------- *)
(** ** The purchased_products statement *)
(* --------------------------------------------------------------------- *)

Lemma paginate_from_concat {A} n room (page seq : list A) :
  concat (paginate_from n room page seq) = rev page ++ seq.
Proof.
  revert room page. induction seq as [|x seq IH]; intros room page; simpl.
  - destruct page; simpl; [done|]. by rewrite !app_nil_r.
  - destruct room as [|[|room]]; simpl; rewrite ?IH; simpl;
      by rewrite <- ?app_assoc.
Qed.

Lemma paginate_concat {A} (seq : list A) n : concat (paginate seq n) = seq.
Proof. unfold paginate. by rewrite paginate_from_concat. Qed.

Lemma values_for_app k l1 l2 :
  values_for k (l1 ++ l2) = values_for k l1 ++ values_for k l2.
Proof. unfold values_for. apply omap_app. Qed.

Lemma merge_all_app now o l1 l2 :
  merge_all now o (l1 ++ l2) = merge_all now (merge_all now o l1) l2.
Proof. unfold merge_all. apply fold_left_app. Qed.

Lemma upsert_all_products now seen page t t' :
  upsert_all (upsert_product now) seen page t = Return t' ->
  forall k, t' !! k = merge_all now (t !! k) (values_for k page).
Proof.
  revert seen t. induction page as [|rec page IH]; intros seen t; simpl.
  - intros [= <-]. done.
  - destruct rec as [|c vals]; [done|].
    destruct (key_of_cell c) as [k0|] eqn:Ek; [|done].
    case_bool_decide; [done|].
    destruct (upsert_product now k0 vals t) as [t1|e] eqn:Eu; [|done].
    rewrite bind_Return. unfold upsert_product in Eu.
    destruct (merge_product now (t !! k0) vals) as [row|e] eqn:Em; [|done].
    rewrite bind_Return in Eu. injection Eu as <-.
    intros H1 k. rewrite (IH _ _ H1 k).
    unfold values_for. simpl. fold (values_for k page).
    case_bool_decide as Hk.
    + injection Hk as <-. simpl. rewrite lookup_insert_eq. unfold merge_all at 2.
      simpl. by rewrite Em.
    + rewrite lookup_insert_ne by congruence. done.
Qed.

Lemma execute_pages_products now pages n conn conn' m :
  execute_pages (server now) InsertPurchasedProducts pages n conn = (conn', Return m) ->
  orders (session conn') = orders (session conn) /\
  pipeline_runs (session conn') = pipeline_runs (session conn) /\
  forall k, purchased_products (session conn') !! k
            = merge_all now (purchased_products (session conn) !! k)
                        (values_for k (concat pages)).
Proof.
  revert n conn. induction pages as [|page pages IH]; intros n conn; simpl.
  - intros [= <- _]. done.
  - unfold mbind, io_bind, bind, cursor_execute. cbn [execute server pg_execute].
    destruct (upsert_all (upsert_product now) ∅ page (purchased_products (session conn)))
      as [t1|e] eqn:E; cbn; [|done].
    intros H. apply IH in H as (Ho & Hr & Hp). cbn in *.
    split; [done|]. split; [done|]. intros k.
    rewrite Hp, values_for_app, merge_all_app.
    by rewrite (upsert_all_products _ _ _ _ _ E k).
Qed.

(** One load of the aggregation table: every product ends with the
    values of its aggregation rows merged into what was stored. *)
Lemma upsert_purchased_products_merge now agg_df conn conn' recs :
  records [ "product"; "category"; "total_units_sold";
            "total_revenue"; "avg_discount"; "last_purchased_date" ] agg_df
  = Return recs ->
  upsert_purchased_products (server now) agg_df conn = (conn', Return tt) ->
  orders (session conn') = orders (session conn) /\
  pipeline_runs (session conn') = pipeline_runs (session conn) /\
  forall k, purchased_products (session conn') !! k
            = merge_all now (purchased_products (session conn) !! k) (values_for k recs).
Proof.
  intros Hrecs. unfold upsert_purchased_products.
  destruct (Pandas.empty agg_df) eqn:Ee.
  - intros [= <-]. split; [done|]. split; [done|]. intros k.
    unfold Pandas.empty in Ee. unfold records in Hrecs.
    destruct (rows agg_df) eqn:Er.
    + injection Hrecs as <-. done.
    + apply bool_decide_eq_true in Ee. unfold columns in Hrecs. rewrite Ee in Hrecs.
      simpl in Hrecs. rewrite bool_decide_eq_false_2 in Hrecs by set_solver.
      simpl in Hrecs. done.
  - rewrite Hrecs. unfold mbind, io_bind, bind, lift, execute_values.
    destruct (execute_pages _ _ _ _ conn) as [conn1 [m|e]] eqn:E; [|done].
    cbn. intros [= <-]. apply execute_pages_products in E.
    by rewrite paginate_concat in E.
Qed.
(* --------------------------------------------------------------------- *)
(** ** The aggregation, group by group *)
(* --------------------------------------------------------------------- *)

Lemma build_product_aggregations_rowwise D R dp dc dq dr dd do :
  D !! "product" = Some dp -> D !! "category" = Some dc ->
  D !! "quantity" = Some dq -> D !! "total_revenue" = Some dr ->
  D !! "discount" = Some dd -> D !! "order_date" = Some do ->
  build_product_aggregations (mkFrame D R)
  = Return (mkFrame (summary_dtypes dp dc dq dr do)
                    (map (summary_row dr R) (group_keys product_keys R))).
Proof.
  intros Hp Hc Hq Hr Hd Ho. unfold build_product_aggregations, groupby_agg.
  cbn [dtypes rows by_dtypes agg_dtypes]. rewrite Hp, Hc. rewrite !bind_Return.
  cbn [agg_dtypes]. rewrite Hq, Hr, Hd, Ho. cbn [agg_dtype]. rewrite !bind_Return.
  next_col "total_revenue". unfold round. cbn [values dtype_of]. rewrite setitem_col.
  next_col "avg_discount". rewrite setitem_col. rewrite !map_map.
  unfold summary_dtypes. f_equal.
Qed.

Lemma key_eqb_sym a b : key_eqb a b = key_eqb b a.
Proof.
  revert b. induction a as [|x a IH]; intros [|y b]; simpl; try done.
  by rewrite cell_eqb_sym, IH.
Qed.

Lemma key_eqb_trans a b c :
  key_eqb a b = true -> key_eqb b c = true -> key_eqb a c = true.
Proof.
  revert b c. induction a as [|x a IH]; intros [|y b] [|z c]; simpl; try done.
  rewrite !andb_true_iff. intros [H1 H2] [H3 H4]. split.
  - by eapply cell_eqb_trans.
  - by eapply IH.
Qed.

Lemma insert_key_perm k ks : Permutation (insert_key k ks) (k :: ks).
Proof.
  induction ks as [|k' ks IH]; simpl; [done|].
  destruct (key_leb k k'); [done|]. rewrite IH. apply perm_swap.
Qed.

Lemma sort_keys_perm ks : Permutation (fold_right insert_key [] ks) ks.
Proof.
  induction ks as [|k ks IH]; simpl; [done|].
  rewrite insert_key_perm. by constructor.
Qed.

Lemma filter_perm {A} (p : A -> bool) l l' :
  Permutation l l' -> Permutation (List.filter p l) (List.filter p l').
Proof.
  induction 1 as [|x l l' _ IH|x y l|l l' l'' _ IH1 _ IH2]; simpl.
  - done.
  - destruct (p x); [by constructor|done].
  - destruct (p x), (p y); try done. apply perm_swap.
  - by etrans.
Qed.

Lemma perm_short {A} (l l' : list A) :
  Permutation l l' -> (List.length l' <= 1)%nat -> l = l'.
Proof.
  intros Hp Hl. destruct l' as [|x [|y l']]; simpl in Hl; [| |lia].
  - by apply Permutation_nil_r in Hp.
  - symmetry in Hp. by apply Permutation_length_1_inv in Hp.
Qed.

(** A key of strings is equal to the keys [groupby] takes for equal. *)
Lemma key_eqb_strings k p c : key_eqb k [Str p; Str c] = true -> k = [Str p; Str c].
Proof.
  destruct k as [|a [|b [|? ?]]]; simpl; try done.
  - by rewrite andb_false_r.
  - rewrite !andb_true_iff. intros (Ha & Hb & _).
    destruct a, b; simpl in *; try done.
    apply String.eqb_eq in Ha, Hb. by subst.
  - by rewrite !andb_false_r.
Qed.

(** The sorted group keys hold a pair of strings once when a row carries
    it, and not at all otherwise. *)
Lemma group_keys_pair by_ rs p c :
  List.filter (fun k => key_eqb k [Str p; Str c]) (group_keys by_ rs)
  = if existsb (fun r => key_eqb (key_of by_ r) [Str p; Str c]) rs
    then [[Str p; Str c]] else [].
Proof.
  unfold group_keys.
  set (ks := List.filter (forallb notna) (map (key_of by_) rs)).
  assert (Hfirst :
    List.filter (fun k => key_eqb k [Str p; Str c]) (first_of_each id key_eqb [] ks)
    = if existsb (fun r => key_eqb (key_of by_ r) [Str p; Str c]) rs
      then [[Str p; Str c]] else []).
  { rewrite (filter_first_of_each id key_eqb key_eqb_sym key_eqb_trans). simpl.
    destruct (List.find _ ks) as [k0|] eqn:Ef.
    - apply find_some in Ef as [Hin Heq]. apply key_eqb_strings in Heq as ->.
      unfold ks in Hin. apply filter_In in Hin as [Hin _].
      apply in_map_iff in Hin as (r & Hr & Hin).
      assert (existsb (fun r => key_eqb (key_of by_ r) [Str p; Str c]) rs = true) as ->; [|done].
      apply existsb_exists. exists r. split; [done|]. rewrite Hr. simpl.
      by rewrite !String.eqb_refl.
    - destruct (existsb _ rs) eqn:Ee; [|done].
      apply existsb_exists in Ee as (r & Hin & Heq).
      pose proof (key_eqb_strings _ _ _ Heq) as Hk.
      assert (In (key_of by_ r) ks) as Hks.
      { unfold ks. apply filter_In. split; [by apply in_map|]. by rewrite Hk. }
      apply (find_none _ _ Ef) in Hks. simpl in Hks. congruence. }
  apply perm_short.
  - rewrite <- Hfirst. apply filter_perm, sort_keys_perm.
  - destruct (existsb _ rs); simpl; lia.
Qed.

Lemma group_keys_in by_ rs k :
  In k (group_keys by_ rs) ->
  forallb notna k = true /\ exists r, In r rs /\ key_of by_ r = k.
Proof.
  unfold group_keys. intros Hin.
  eapply Permutation_in in Hin; [|apply sort_keys_perm].
  apply first_of_each_In in Hin. apply filter_In in Hin as [Hin Hna].
  apply in_map_iff in Hin as (r & Hr & Hin). eauto.
Qed.

(** *** Cells of an aggregation row *)

Ltac lookup_summary :=
  unfold summary_row, agg_row, product_specs, product_keys, set_col, at_col;
  cbn [fold_left zip zip_with list_to_map foldr fst snd uncurry];
  repeat (rewrite ?lookup_insert_eq; rewrite ?lookup_insert_ne by discriminate);
  cbn [default from_option]; try reflexivity.

Section SummaryRow.
Context (dr : dtype) (rs : list (gmap string cell)) (x y : cell).
Let g := group product_keys [x; y] rs.

Lemma summary_product : summary_row dr rs [x; y] !! "product" = Some x.
Proof. lookup_summary. Qed.






End SummaryRow.

(* --------------------------------------------------------------------- *)
(** ** Sums and maxima over a group *)
(* --------------------------------------------------------------------- *)


(** What the cleaning step leaves in a row. *)
Lemma cleaned_row_cells P df r :
  In r (clean_rows P df) ->
  (exists q, at_col "quantity" r = Num q) /\
  (exists d, at_col "order_date" r = Day d) /\
  (at_col "product" r = NA \/ exists s, at_col "product" r = Str s) /\
  (at_col "category" r = NA \/ exists s, at_col "category" r = Str s).
Proof.
  unfold clean_rows. intros Hin. apply in_map_iff in Hin as (r0 & <- & Hin).
  apply filter_In in Hin as [_ Hs]. unfold salvageable, clean_row, coerced in *.
  apply complete_critical in Hs as (_ & Hd & Hq & _).
  rewrite coerce_row_order_date in Hd. rewrite coerce_row_quantity in Hq.
  split; [|split; [|split]].
  - rewrite (at_col_Some _ _ _ (cleaned_quantity _ _ _ _ _)). by apply notna_to_numeric.
  - rewrite (at_col_Some _ _ _ (cleaned_order_date _ _ _ _ _)). by apply notna_date_cell.
  - rewrite (at_col_Some _ _ _ (cleaned_product _ _ _ _ _)).
    destruct (at_col "product" r0); simpl; eauto.
  - rewrite (at_col_Some _ _ _ (cleaned_category _ _ _ _ _)).
    destruct (at_col "category" r0); simpl; eauto.
Qed.






(* --------------------------------------------------------------------- *)
(** ** Aggregation of a cleaned batch *)
(* --------------------------------------------------------------------- *)

Lemma at_col_summary_product dr rs x y :
  at_col "product" (summary_row dr rs [x; y]) = x.
Proof. apply at_col_Some, summary_product. Qed.



Lemma clean_dtypes_lookups P df :
  clean_dtypes P df !! "product" = Some object_ /\
  clean_dtypes P df !! "category" = Some object_ /\
  clean_dtypes P df !! "quantity" = Some (target_dtype P df "quantity") /\
  clean_dtypes P df !! "total_revenue" = Some (revenue_dtype (target_dtype P df)) /\
  clean_dtypes P df !! "discount" = Some (target_dtype P df "discount") /\
  clean_dtypes P df !! "order_date" = Some object_.
Proof. unfold clean_dtypes. repeat split; lookup_col. Qed.

(* --------------------------------------------------------------------- *)
(** ** Rows of the cleaned batch *)
(* --------------------------------------------------------------------- *)

Lemma with_id_dedup id rs :
  with_id id (dedup rs)
  = match first_with_id rs id with Some first => [first] | None => [] end.
Proof.
  unfold with_id, dedup, first_with_id.
  by rewrite (filter_first_of_each _ cell_eqb cell_eqb_sym cell_eqb_trans).
Qed.

Lemma filter_filter_comm {A} (p q : A -> bool) l :
  List.filter p (List.filter q l) = List.filter q (List.filter p l).
Proof.
  induction l as [|x l IH]; simpl; [done|].
  destruct (p x) eqn:Ep, (q x) eqn:Eq; simpl; rewrite ?Ep, ?Eq, IH; done.
Qed.

Lemma with_id_clean_rows P id df :
  with_id id (clean_rows P df)
  = match first_with_id (rows df) id with
    | Some first =>
        if salvageable P df first then [clean_row P df first] else []
    | None => []
    end.
Proof.
  unfold clean_rows, with_id at 1. rewrite filter_map_comm.
  rewrite (filter_ext _ (fun r => cell_eqb (at_col "order_id" r) id))
    by (intros r; by rewrite clean_row_order_id).
  rewrite filter_filter_comm. fold (with_id id (dedup (rows df))). rewrite with_id_dedup.
  destruct (first_with_id (rows df) id) as [first|]; simpl; [|done].
  by destruct (salvageable P df first).
Qed.

(** C6 (amended). For every order identifier, the cleaned batch holds at
    most one row: the cleaned first row of the batch with that identifier
    when that row can be salvaged, and no row otherwise (a later row with
    the same identifier never takes its place). *)
Theorem first_occurrence_wins P df :
  cleanable P df = true ->
  exists out k,
    clean_and_transform P df = Return (out, k) /\
    forall id,
      with_id id (rows out)
      = match first_with_id (rows df) id with
        | Some first =>
            if salvageable P df first then [clean_row P df first] else []
        | None => []
        end.
Proof.
  intros Hc. rewrite clean_and_transform_rowwise by done.
  eexists _, _. split; [done|]. intros id. apply with_id_clean_rows.
Qed.

Lemma clean_row_discount P df r :
  at_col "discount" (clean_row P df r) = clip_cell 0 1 (number_of P df "discount" r).
Proof. apply at_col_Some, cleaned_discount. Qed.

Lemma clean_row_total_revenue P df r :
  let target := target_dtype P df in
  at_col "total_revenue" (clean_row P df r)
  = round_cell (revenue_dtype target) 2
      (mul_cell (gross_dtype target) (result_dtype (target "discount") int64)
         (mul_cell (target "quantity") (target "unit_price")
                   (number_of P df "quantity" r) (number_of P df "unit_price" r))
         (rsub_cell (target "discount") 1
                    (clip_cell 0 1 (number_of P df "discount" r)))).
Proof. apply at_col_Some, cleaned_total_revenue. Qed.

Lemma first_kept P df r :
  first_with_id (rows df) (at_col "order_id" r) = Some r ->
  salvageable P df r = true ->
  with_id (at_col "order_id" r) (clean_rows P df) = [clean_row P df r].
Proof. intros Hf Hs. by rewrite with_id_clean_rows, Hf, Hs. Qed.

Lemma complete_ignores_discount P h source target r v :
  complete critical (coerce_row P h source target (<["discount" := v]> r))
  = complete critical (coerce_row P h source target r).
Proof.
  unfold complete, critical. cbn [forallb].
  rewrite !coerce_row_order_id, !coerce_row_order_date, !coerce_row_quantity,
    !coerce_row_unit_price.
  unfold at_col. by rewrite !lookup_insert_ne by done.
Qed.

(** C8 (amended). Discounts are clamped, not rejected.  Every row of the
    cleaned batch carries the discount of the batch row it comes from,
    coerced to a number and moved into [0,1]; the first row of the batch
    with its order identifier, when it can be salvaged, is kept whatever
    its discount, with the clamped value; values below 0 become 0, values
    above 1 become 1, values in between stay; 1.5 becomes 1 and -0.2
    becomes 0; and the decision to drop a row never looks at its discount. *)
Theorem discount_is_clamped P df :
  cleanable P df = true ->
  exists out k,
    clean_and_transform P df = Return (out, k) /\
    (forall r', In r' (rows out) ->
        exists r, In r (rows df) /\ r' = clean_row P df r /\
                  at_col "discount" r' = clip_cell 0 1 (number_of P df "discount" r)) /\
    (forall r', In r' (rows out) ->
        at_col "discount" r' = NA \/
        exists q, at_col "discount" r' = Num q /\ (0 <= q <= 1)%Q) /\
    (forall r q,
        first_with_id (rows df) (at_col "order_id" r) = Some r ->
        salvageable P df r = true ->
        number_of P df "discount" r = Num q ->
        with_id (at_col "order_id" r) (rows out) = [clean_row P df r] /\
        at_col "discount" (clean_row P df r) = Num (Numeric.clip 0 1 q)) /\
    (forall q, ((q <= 0)%Q -> Numeric.clip 0 1 q = 0%Q) /\
               ((1 <= q)%Q -> Numeric.clip 0 1 q = 1%Q) /\
               ((0 < q)%Q -> (q < 1)%Q -> Numeric.clip 0 1 q = q)) /\
    Numeric.clip 0 1 (3 # 2) = 1%Q /\
    Numeric.clip 0 1 (- 1 # 5) = 0%Q /\
    (forall h source target r v,
        complete critical (coerce_row P h source target (<["discount" := v]> r))
        = complete critical (coerce_row P h source target r)).
Proof.
  intros Hc. rewrite clean_and_transform_rowwise by done.
  eexists _, _. split; [done|]. cbn [rows].
  split; [|split; [|split; [|split; [|split; [|split]]]]].
  - intros r' Hin. unfold clean_rows in Hin. apply in_map_iff in Hin as (r & <- & Hr).
    apply filter_In in Hr as [Hr _]. apply first_of_each_In in Hr.
    exists r. split; [done|]. split; [done|]. apply clean_row_discount.
  - intros r' Hin. unfold clean_rows in Hin. apply in_map_iff in Hin as (r & <- & _).
    rewrite clean_row_discount. unfold number_of.
    destruct (numeric_cell_Num_or_NA P (source_dtype df "discount")
                (target_dtype P df "discount") (at_col "discount" r)) as [-> | [q ->]];
      simpl; [by left|right].
    eexists. split; [done|]. apply clip_range.
  - intros r q Hf Hs Hq. split; [by apply first_kept|].
    by rewrite clean_row_discount, Hq.
  - intros q. split; [apply clip_below|]. split; [apply clip_above|apply clip_inside].
  - reflexivity.
  - reflexivity.
  - intros h source target r v. apply complete_ignores_discount.
Qed.

Lemma mul_cell_NA da db a : mul_cell da db a NA = NA.
Proof. by destruct a. Qed.

(** C9 (amended). A row that is the first of the batch with its order
    identifier, whose identifier, date, quantity and unit price are valid
    and whose discount cannot be coerced to a number, is kept: it is the
    one cleaned row with its identifier, and its discount and total revenue
    are null. *)
Theorem null_discount_row_is_kept P df :
  cleanable P df = true ->
  exists out k,
    clean_and_transform P df = Return (out, k) /\
    forall r,
      first_with_id (rows df) (at_col "order_id" r) = Some r ->
      salvageable P df r = true ->
      number_of P df "discount" r = NA ->
      with_id (at_col "order_id" r) (rows out) = [clean_row P df r] /\
      at_col "discount" (clean_row P df r) = NA /\
      at_col "total_revenue" (clean_row P df r) = NA.
Proof.
  intros Hc. rewrite clean_and_transform_rowwise by done.
  eexists _, _. split; [done|]. cbn [rows]. intros r Hf Hs Hd.
  split; [by apply first_kept|].
  rewrite clean_row_discount, clean_row_total_revenue, Hd. simpl. split; [done|].
  rewrite mul_cell_NA. by destruct (revenue_dtype _).
Qed.

(** C5 (amended). [validate_schema], the check the cleaning step makes,
    succeeds exactly when the ten required columns are present, whatever
    the number of rows; otherwise it raises the ValueError that names
    exactly the missing columns, and so does [clean_and_transform], which
    returns no batch.  The empty-batch check is made by the [validate_csv]
    task only, which raises on an empty batch and otherwise succeeds exactly
    when the ten columns are present. *)
Theorem validation_checks_columns df :
  (validate_schema df = Return tt <-> REQUIRED_COLUMNS ⊆ columns df) /\
  (¬ REQUIRED_COLUMNS ⊆ columns df ->
   validate_schema df
   = Raise (ValueError (MissingRequiredColumns (REQUIRED_COLUMNS ∖ columns df))) /\
   (forall P, clean_and_transform P df
              = Raise (ValueError (MissingRequiredColumns (REQUIRED_COLUMNS ∖ columns df)))) /\
   (forall c, c ∈ REQUIRED_COLUMNS ∖ columns df <->
              c ∈ REQUIRED_COLUMNS /\ c ∉ columns df)) /\
  (Dag.validate_csv df = Return tt <->
   Pandas.empty df = false /\ REQUIRED_COLUMNS ⊆ columns df) /\
  (Pandas.empty df = true -> Dag.validate_csv df = Raise (ValueError CsvEmpty)) /\
  (Pandas.empty df = false -> ¬ REQUIRED_COLUMNS ⊆ columns df ->
   Dag.validate_csv df
   = Raise (ValueError (CsvMissingColumns (REQUIRED_COLUMNS ∖ columns df)))).
Proof.
  split; [apply validate_schema_Return|]. split.
  { intros Hn. split; [by apply validate_schema_Raise|].
    split; [intros P; by apply clean_and_transform_missing|].
    intros c. apply elem_of_difference. }
  unfold Dag.validate_csv. fold REQUIRED_COLUMNS.
  destruct (Pandas.empty df) eqn:Ee.
  - split; [split; [done|by intros [? _]]|]. split; [done|done].
  - case_bool_decide as Hm.
    + apply empty_difference_subseteq_L in Hm.
      split; [done|]. split; [done|]. by intros _ [].
    + assert (¬ REQUIRED_COLUMNS ⊆ columns df) as Hn.
      { intros Hs. apply Hm. by apply subseteq_empty_difference_L. }
      split; [split; [done|by intros [_ ?]]|]. split; [done|done].
Qed.

(* --------------------------------------------------------------------- *)
(** ** Loads of the aggregation table *)
(* --------------------------------------------------------------------- *)

Lemma records_columns cols df :
  Forall (fun c => c ∈ columns df) cols ->
  records cols df = Return (map (fun r => map (fun c => at_col c r) cols) (rows df)).
Proof.
  intros Hall. unfold records. destruct (rows df) as [|r rs] eqn:E; [done|].
  destruct (List.find _ cols) as [c|] eqn:Ef; [|done].
  apply find_some in Ef as [Hin Hc]. rewrite Forall_forall in Hall.
  apply Hall in Hin. by rewrite bool_decide_eq_true_2 in Hc.
Qed.

Lemma values_for_incoming k agg_df :
  values_for k (map (fun r => map (fun c => at_col c r) aggregation_columns) (rows agg_df))
  = incoming k agg_df.
Proof.
  unfold incoming. induction (rows agg_df) as [|r rs IH]; [done|].
  cbn [map List.filter]. unfold values_for in *. cbn [omap list_omap aggregation_columns map].
  case_bool_decide; cbn [map tail]; [f_equal|]; exact IH.
Qed.

Lemma merge_dated_now now old vs :
  merge_dated old (map (pair now) vs) = merge_all now old vs.
Proof.
  unfold merge_dated, merge_all. revert old.
  induction vs as [|v vs IH]; intros old; simpl; [done|]. apply IH.
Qed.

Lemma merge_dated_app old l1 l2 :
  merge_dated old (l1 ++ l2) = merge_dated (merge_dated old l1) l2.
Proof. apply fold_left_app. Qed.

Lemma load_merge now agg_df db db1 :
  Forall (fun c => c ∈ columns agg_df) aggregation_columns ->
  get_connection (server now) (upsert_purchased_products (server now) agg_df) db
  = (db1, Return tt) ->
  orders db1 = orders db /\ pipeline_runs db1 = pipeline_runs db /\
  forall k, purchased_products db1 !! k
            = merge_all now (purchased_products db !! k) (incoming k agg_df).
Proof.
  intros Hcols H. apply get_connection_return in H as (conn' & H & ->).
  eapply upsert_purchased_products_merge in H; [|by apply records_columns].
  cbn in H. destruct H as (Ho & Hr & Hp). split; [done|]. split; [done|].
  intros k. by rewrite Hp, values_for_incoming.
Qed.

Lemma Qred_plus_ge a b : (0 <= b)%Q -> (a <= Qred (a + b))%Q.
Proof.
  intros Hb. rewrite Qred_correct. rewrite <- (Qplus_0_r a) at 1.
  by apply Qplus_le_r.
Qed.

(** C2 (amended). After any sequence of committed loads of the
    aggregation table, the row stored for a product is what was stored
    before with the aggregation rows for that product merged in, in order.
    One merge adds the incoming units and revenue to the stored ones,
    replaces the average discount by the incoming one and the last purchased
    date by the later of the stored and the incoming date.  The sums do not
    decrease when the incoming amount is not negative. *)
Theorem aggregates_accumulate :
  (forall db loads db',
      loaded db loads db' ->
      Forall (fun load => Forall (fun c => c ∈ columns load.2) aggregation_columns) loads ->
      forall k,
        purchased_products db' !! k
        = merge_dated (purchased_products db !! k)
            (concat (map (fun load => map (pair load.1) (incoming k load.2)) loads))) /\
  (forall now old cat units revenue discount date,
      merge_product now (Some old) [cat; units; revenue; discount; date]
      = Return (mkProduct cat
                  (sql_add (total_units_sold old) units)
                  (sql_add (total_revenue old) revenue)
                  discount
                  (sql_greatest (last_purchased_date old) date)
                  now)) /\
  (forall a b, sql_add (Num a) (Num b) = Num (Qred (a + b)) /\
               (Qred (a + b) == a + b)%Q /\
               ((0 <= b)%Q -> (a <= Qred (a + b))%Q)) /\
  (forall d e, sql_greatest (Day d) (Day e) = Day (Z.max d e)).
Proof.
  split; [|split; [|split]].
  - intros db loads db' Hl. induction Hl as [db|db now agg db1 loads db' H Hl IH].
    + done.
    + intros Hall k. inversion Hall as [|? ? Hagg Hall']; subst.
      apply load_merge in H as (_ & _ & Hp); [|done].
      rewrite (IH Hall' k), Hp. cbn [map concat fst snd].
      by rewrite merge_dated_app, merge_dated_now.
  - done.
  - intros a b. split; [done|]. split; [apply Qred_correct|apply Qred_plus_ge].
  - done.
Qed.

(** *** Empty batches *)

Lemma bind_Return_inv {A B} (m : result A) (k : A -> result B) b :
  m ≫= k = Return b -> exists a, m = Return a /\ k a = Return b.
Proof. destruct m as [a|e]; [eauto|done]. Qed.

Lemma build_product_aggregations_empty df agg_df :
  Pandas.empty df = true ->
  build_product_aggregations df = Return agg_df ->
  Pandas.empty agg_df = true.
Proof.
  intros He H. destruct df as [D R]. unfold Pandas.empty in He. cbn in He.
  unfold build_product_aggregations, groupby_agg in H. cbn [dtypes rows] in H.
  apply bind_Return_inv in H as (agg0 & H0 & H).
  apply bind_Return_inv in H0 as (d1 & Hd1 & H0).
  apply bind_Return_inv in H0 as (d2 & Hd2 & H0). injection H0 as <-.
  destruct R as [|r R].
  - apply bind_Return_inv in H as (s1 & _ & H).
    apply bind_Return_inv in H as (s2 & _ & H). injection H as <-. done.
  - apply bool_decide_eq_true in He. subst D. done.
Qed.

(** C10. On an empty batch [upsert_orders] returns (0, 0) and
    [upsert_purchased_products] returns at once, for the batch itself and
    for its aggregation; the connection is left as it was: no statement is
    sent and the state of the transaction is unchanged. *)
Theorem empty_batch_sends_nothing {DB} (S : Server DB) df conn :
  Pandas.empty df = true ->
  upsert_orders S df conn = (conn, Return (0, 0)) /\
  upsert_purchased_products S df conn = (conn, Return tt) /\
  (forall agg_df,
      build_product_aggregations df = Return agg_df ->
      upsert_purchased_products S agg_df conn = (conn, Return tt)).
Proof.
  intros He. split; [|split].
  - unfold upsert_orders. by rewrite He.
  - unfold upsert_purchased_products. by rewrite He.
  - intros agg H. unfold upsert_purchased_products.
    by rewrite (build_product_aggregations_empty _ _ He H).
Qed.
(* --------------------------------------------------------------------- *)
(** ** The unit test of the repository, and batches on which the
       specification as written fails *)
(* --------------------------------------------------------------------- *)

(** The repository's [test_clean_and_transform_basic]: the duplicate is
    removed, revenue is 2 x 999.99 x 0.9, text is normalised. *)
Example test_batch_cleaned :
  exists out,
    clean_and_transform Iso.coercions test_batch = Return (out, 1) /\
    map (fun r => map (fun c => at_col c r)
                    ["order_id"; "region"; "category"; "status"; "total_revenue"; "order_date"])
        (rows out)
    = [ [Str "ord-001"; Str "North America"; Str "Electronics"; Str "completed";
         Float (179998 # 100); Day 19875];
        [Str "ord-002"; Str "Europe"; Str "Apparel"; Str "completed";
         Float (4995 # 100); Day 19919] ].
Proof. eexists. split; [vm_compute; reflexivity|]. vm_compute. reflexivity. Qed.



(** C5 as stated fails: a batch with the ten columns and no row passes
    the schema validation of the cleaning step. *)
Lemma header_only_passes_validation :
  Pandas.empty header_only = true /\ validate_schema header_only = Return tt.
Proof. split; vm_compute; reflexivity. Qed.

(** C6 as stated fails: two rows share an order identifier, the first
    has no quantity, and the cleaned batch has no row for the identifier. *)
Lemma first_without_quantity_leaves_no_row :
  List.length (with_id (Str "ord-001") (rows first_without_quantity)) = 2%nat /\
  exists out,
    clean_and_transform Iso.coercions first_without_quantity = Return (out, 2) /\
    with_id (Str "ord-001") (rows out) = [].
Proof.
  split; [vm_compute; reflexivity|]. eexists. split; vm_compute; reflexivity.
Qed.


(** C9 as stated fails: the second row has a valid identifier, date,
    quantity and unit price and a discount that is no number, and it is not
    kept, because an earlier row carries its identifier. *)
Lemma duplicate_bad_discount_is_dropped :
  In (row_of (laptop_text_discount "ten percent")) (rows duplicate_bad_discount) /\
  number_of Iso.coercions duplicate_bad_discount "discount"
    (row_of (laptop_text_discount "ten percent")) = NA /\
  salvageable Iso.coercions duplicate_bad_discount
    (row_of (laptop_text_discount "ten percent")) = true /\
  exists out,
    clean_and_transform Iso.coercions duplicate_bad_discount = Return (out, 1) /\
    map (at_col "discount") (rows out) = [Float (1 # 10)].
Proof.
  split; [right; left; reflexivity|]. split; [vm_compute; reflexivity|].
  split; [vm_compute; reflexivity|].
  eexists. split; vm_compute; reflexivity.
Qed.

(** C8 as stated fails: the second row carries the discount 1.5 and the
    order identifier of the first; it is dropped, and the cleaned batch
    holds no row with its discount clamped to 1. *)
Lemma later_duplicate_is_not_clamped :
  In (row_of discount_too_high) (rows duplicate_wide_discount) /\
  number_of Iso.coercions duplicate_wide_discount "discount" (row_of discount_too_high)
  = Num (3 # 2) /\
  salvageable Iso.coercions duplicate_wide_discount (row_of discount_too_high) = true /\
  exists out,
    clean_and_transform Iso.coercions duplicate_wide_discount = Return (out, 1) /\
    map (at_col "discount") (rows out) = [Float (1 # 10)].
Proof.
  split; [right; left; reflexivity|]. split; [vm_compute; reflexivity|].
  split; [vm_compute; reflexivity|].
  eexists. split; vm_compute; reflexivity.
Qed.

(** C2 as stated fails: a returned order has a negative quantity, passes
    the cleaning step, and its load takes the stored units from 5 to 2. *)
Lemma refund_decreases_units_sold :
  map (at_col "total_units_sold") (rows (aggregation_of refund)) = [Num (-3)] /\
  exists db1 db2,
    get_connection (server 1)
      (upsert_purchased_products (server 1) (aggregation_of sale)) empty_db
    = (db1, Return tt) /\
    get_connection (server 2)
      (upsert_purchased_products (server 2) (aggregation_of refund)) db1
    = (db2, Return tt) /\
    total_units_sold <$> purchased_products db1 !! KStr "Laptop" = Some (Num 5) /\
    total_units_sold <$> purchased_products db2 !! KStr "Laptop" = Some (Num 2).
Proof.
  split; [vm_compute; reflexivity|]. eexists _, _.
  split; [vm_compute; reflexivity|]. split; [vm_compute; reflexivity|].
  split; vm_compute; reflexivity.
Qed.

(** C4. A batch with all ten columns whose status cells are all blank
    passes schema validation and makes [clean_and_transform] raise an
    AttributeError instead of returning a cleaned batch. *)
Theorem blank_text_column_raises P :
  validate_schema blank_status = Return tt /\
  clean_and_transform P blank_status = Raise (AttributeError "str").
Proof.
  split; [vm_compute; reflexivity|].
  apply clean_and_transform_untyped; [|vm_compute; reflexivity].
  apply validate_schema_Return. vm_compute. reflexivity.
Qed.

(* --------------------------------------------------------------------- *)
(** ** The load of a batch with one product in two categories *)
(* --------------------------------------------------------------------- *)

(** One product in two categories: the orders upsert writes both orders,
    the aggregation upsert is refused by the server, and the run leaves the
    database empty. *)
Lemma load_is_atomic_witness :
  exists agg_df conn1 conn2,
    build_product_aggregations (cleaned_of two_categories) = Return agg_df /\
    upsert_orders (server 1) (cleaned_of two_categories) (mkConn empty_db empty_db [])
    = (conn1, Return (2, 0)) /\
    size (orders (session conn1)) = 2%nat /\
    upsert_purchased_products (server 1) agg_df conn1
    = (conn2, Raise (DatabaseError "21000")) /\
    load_to_postgres (server 1) (cleaned_of two_categories) 0 "sales.csv" "run-1" empty_db
    = (empty_db, Raise (DatabaseError "21000")).
Proof.
  eexists _, _, _.
  assert (Hagg : build_product_aggregations (cleaned_of two_categories)
                 = Return (aggregation_of two_categories)) by (vm_compute; reflexivity).
  split; [exact Hagg|].
  match goal with |- ?A /\ _ => assert (Ho : A) by (vm_compute; reflexivity) end.
  split; [exact Ho|]. split; [vm_compute; reflexivity|].
  match goal with |- ?A /\ _ => assert (Hp : A) by (vm_compute; reflexivity) end.
  split; [exact Hp|].
  exact (proj1 (proj2 (load_is_atomic (server 1) (cleaned_of two_categories)
                         0 "sales.csv" "run-1" empty_db))
           _ _ _ _ _ Hagg eq_refl Ho Hp).
Defined.

(* --------------------------------------------------------------------- *)
(** ** The theorems at concrete batches *)
(* --------------------------------------------------------------------- *)

(** A sale of five laptops and a return of three, loaded one after the
    other. *)
Lemma aggregates_accumulate_witness :
  exists db',
    loaded empty_db [(1, aggregation_of sale); (2, aggregation_of refund)] db' /\
    total_units_sold <$> purchased_products db' !! KStr "Laptop" = Some (Num 2).
Proof.
  eexists.
  assert (Hl : loaded empty_db [(1, aggregation_of sale); (2, aggregation_of refund)]
                 (fst (get_connection (server 2)
                         (upsert_purchased_products (server 2) (aggregation_of refund))
                         (fst (get_connection (server 1)
                                 (upsert_purchased_products (server 1) (aggregation_of sale))
                                 empty_db))))).
  { eapply loaded_cons; [vm_compute; reflexivity|].
    eapply loaded_cons; [vm_compute; reflexivity|]. vm_compute. apply loaded_nil. }
  split; [exact Hl|].
  rewrite (proj1 aggregates_accumulate _ _ _ Hl).
  - vm_compute. reflexivity.
  - repeat constructor; apply (bool_decide_unpack _); vm_compute; exact I.
Defined.

(** The unit-test batch has the ten columns. *)
Lemma validation_checks_columns_witness :
  REQUIRED_COLUMNS ⊆ columns test_batch /\ validate_schema test_batch = Return tt.
Proof.
  assert (H : REQUIRED_COLUMNS ⊆ columns test_batch)
    by (apply (bool_decide_unpack _); vm_compute; exact I).
  split; [exact H|].
  exact (proj2 (proj1 (validation_checks_columns test_batch)) H).
Defined.

(** The unit-test batch: of the two rows of order ord-001, the first. *)
Lemma first_occurrence_wins_witness :
  cleanable Iso.coercions test_batch = true /\
  exists out k,
    clean_and_transform Iso.coercions test_batch = Return (out, k) /\
    with_id (Str "ord-001") (rows out)
    = [clean_row Iso.coercions test_batch (row_of laptop)].
Proof.
  assert (Hc : cleanable Iso.coercions test_batch = true) by (vm_compute; reflexivity).
  split; [exact Hc|].
  destruct (first_occurrence_wins Iso.coercions test_batch Hc) as (out & k & H & Hid).
  exists out, k. split; [exact H|]. rewrite Hid. vm_compute. reflexivity.
Defined.


(** A discount of 1.5 is stored as 1, a discount of -0.2 as 0. *)
Lemma discount_is_clamped_witness :
  cleanable Iso.coercions wide_discounts = true /\
  exists out k,
    clean_and_transform Iso.coercions wide_discounts = Return (out, k) /\
    map (at_col "discount") (with_id (Str "ord-001") (rows out)) = [Num 1] /\
    map (at_col "discount") (with_id (Str "ord-002") (rows out)) = [Num 0].
Proof.
  assert (Hc : cleanable Iso.coercions wide_discounts = true) by (vm_compute; reflexivity).
  split; [exact Hc|].
  destruct (discount_is_clamped Iso.coercions wide_discounts Hc)
    as (out & k & H & _ & _ & Hkept & _).
  exists out, k. split; [exact H|].
  destruct (Hkept (row_of discount_too_high) (3 # 2)) as [Hid1 Hd1];
    [vm_compute; reflexivity..|].
  destruct (Hkept (row_of discount_too_low) (Numeric.fl64 (- 1 # 5))) as [Hid2 Hd2];
    [vm_compute; reflexivity..|].
  change (at_col "order_id" _) with (Str "ord-001") in Hid1.
  change (at_col "order_id" _) with (Str "ord-002") in Hid2.
  rewrite Hid1, Hid2. cbn [map]. rewrite Hd1, Hd2. split; vm_compute; reflexivity.
Defined.

(** A discount that is no number leaves the row in, with null discount
    and revenue. *)
Lemma null_discount_row_is_kept_witness :
  cleanable Iso.coercions bad_discount = true /\
  exists out k,
    clean_and_transform Iso.coercions bad_discount = Return (out, k) /\
    map (fun r => (at_col "discount" r, at_col "total_revenue" r))
        (with_id (Str "ord-001") (rows out))
    = [(NA, NA)].
Proof.
  assert (Hc : cleanable Iso.coercions bad_discount = true) by (vm_compute; reflexivity).
  split; [exact Hc|].
  destruct (null_discount_row_is_kept Iso.coercions bad_discount Hc) as (out & k & H & Hkept).
  exists out, k. split; [exact H|].
  destruct (Hkept (row_of (laptop_text_discount "ten percent"))) as (Hid & Hd & Hr);
    [vm_compute; reflexivity..|].
  change (at_col "order_id" _) with (Str "ord-001") in Hid.
  rewrite Hid. cbn [map]. rewrite Hd, Hr. reflexivity.
Defined.

(** No row: nothing is sent on a fresh connection. *)
Lemma empty_batch_sends_nothing_witness :
  Pandas.empty header_only = true /\
  upsert_orders (server 0) header_only (mkConn empty_db empty_db [])
  = (mkConn empty_db empty_db [], Return (0, 0)) /\
  upsert_purchased_products (server 0) header_only (mkConn empty_db empty_db [])
  = (mkConn empty_db empty_db [], Return tt).
Proof.
  assert (He : Pandas.empty header_only = true) by (vm_compute; reflexivity).
  split; [exact He|].
  destruct (empty_batch_sends_nothing (server 0) header_only
              (mkConn empty_db empty_db []) He) as (Ho & Hp & _).
  split; [exact Ho|exact Hp].
Defined.
(* ===================================================================== *)
(** * Further properties of the cleaning step, the loader and the DAG *)
(* ===================================================================== *)

Import Batch.

(* --------------------------------------------------------------------- *)
(** ** What a cleaned batch looks like *)
(* --------------------------------------------------------------------- *)

Lemma clean_and_transform_inv P df out k :
  clean_and_transform P df = Return (out, k) ->
  cleanable P df = true /\
  out = mkFrame (clean_dtypes P df) (clean_rows P df) /\
  k = len df - len out.
Proof.
  intros H. assert (Hc : cleanable P df = true).
  { apply (clean_and_transform_returns P). eauto. }
  rewrite clean_and_transform_rowwise in H by done.
  injection H as <- <-. done.
Qed.

Lemma in_clean_rows P df r' :
  In r' (clean_rows P df) ->
  exists r, In r (rows df) /\ salvageable P df r = true /\ r' = clean_row P df r.
Proof.
  unfold clean_rows. intros Hin. apply in_map_iff in Hin as (r & <- & Hr).
  apply filter_In in Hr as [Hr Hs]. apply first_of_each_In in Hr. eauto.
Qed.

(** Normalised ASCII text is ASCII, trimmed and in normal form. *)
Lemma title_strip_ascii U s0 :
  Text.is_ascii s0 = true ->
  let s := Text.title U (Text.strip U s0) in
  Text.is_ascii s = true /\ Text.trimmed s /\ Text.title U s = s.
Proof.
  intros H. cbv zeta.
  assert (H1 : Text.is_ascii (Text.ascii_strip s0) = true) by (by apply is_ascii_strip).
  rewrite (strip_ascii U s0) by done. rewrite (title_ascii U _) by done.
  assert (H2 : Text.is_ascii (Text.ascii_title (Text.ascii_strip s0)) = true)
    by (by apply is_ascii_title_from).
  split; [done|]. split.
  - rewrite <- strip_title_strip. apply strip_trimmed.
  - rewrite (title_ascii U _) by done. apply ascii_title_idem.
Qed.

Lemma lower_strip_ascii U s0 :
  Text.is_ascii s0 = true ->
  let s := Text.lower U (Text.strip U s0) in
  Text.is_ascii s = true /\ Text.trimmed s /\ Text.lower U s = s.
Proof.
  intros H. cbv zeta.
  assert (H1 : Text.is_ascii (Text.ascii_strip s0) = true) by (by apply is_ascii_strip).
  rewrite (strip_ascii U s0) by done. rewrite (lower_ascii U _) by done.
  assert (H2 : Text.is_ascii (Text.ascii_lower (Text.ascii_strip s0)) = true)
    by (by apply is_ascii_lower).
  split; [done|]. split.
  - rewrite <- strip_lower_strip. apply strip_trimmed.
  - rewrite (lower_ascii U _) by done. apply ascii_lower_idem.
Qed.

Lemma strip_ascii_trimmed U s0 :
  Text.is_ascii s0 = true ->
  let s := Text.strip U s0 in
  Text.is_ascii s = true /\ Text.trimmed s /\ Text.strip U s = s.
Proof.
  intros H. cbv zeta. split; [|split].
  - rewrite (strip_ascii U s0) by done. by apply is_ascii_strip.
  - rewrite (strip_ascii U s0) by done. apply strip_trimmed.
  - by apply strip_strip_fixed.
Qed.

Lemma with_id_at_most_one P df id : (List.length (with_id id (clean_rows P df)) <= 1)%nat.
Proof.
  rewrite with_id_clean_rows. destruct (first_with_id (rows df) id); simpl; [|lia].
  destruct (salvageable P df g); simpl; lia.
Qed.

(** X1. In a batch [clean_and_transform] returns, no order identifier
    occurs twice, and every row comes from a row of the batch and has an
    order identifier, a date in order_date, numbers in quantity and
    unit_price, a discount that is missing or a number in [0,1], and text
    cells that are missing or the strings of the batch normalised:
    stripped and in title case for region and category, stripped for
    product, stripped and in lower case for status.  When the text of the
    batch row is ASCII, these strings are ASCII, trimmed, and in normal
    form: [str.title], or [str.lower] for status, leaves them as they
    are. *)
Theorem cleaned_batch_is_well_formed P df out k :
  clean_and_transform P df = Return (out, k) ->
  let U := unicode P in
  (forall id, (List.length (with_id id (rows out)) <= 1)%nat) /\
  forall r', In r' (rows out) ->
    exists r, In r (rows df) /\
    notna (at_col "order_id" r') = true /\
    (exists d, at_col "order_date" r' = Day d) /\
    (exists q, at_col "quantity" r' = Num q) /\
    (exists p, at_col "unit_price" r' = Num p) /\
    (at_col "discount" r' = NA \/
     exists d, at_col "discount" r' = Num d /\ (0 <= d <= 1)%Q) /\
    at_col "region" r'
    = str_cell (Text.title U) (str_cell (Text.strip U) (at_col "region" r)) /\
    at_col "category" r'
    = str_cell (Text.title U) (str_cell (Text.strip U) (at_col "category" r)) /\
    at_col "product" r' = str_cell (Text.strip U) (at_col "product" r) /\
    at_col "status" r'
    = str_cell (Text.lower U) (str_cell (Text.strip U) (at_col "status" r)) /\
    (ascii_text r = true ->
     (at_col "region" r' = NA \/
      exists s, at_col "region" r' = Str s /\ Text.is_ascii s = true /\
                Text.trimmed s /\ Text.title U s = s) /\
     (at_col "category" r' = NA \/
      exists s, at_col "category" r' = Str s /\ Text.is_ascii s = true /\
                Text.trimmed s /\ Text.title U s = s) /\
     (at_col "product" r' = NA \/
      exists s, at_col "product" r' = Str s /\ Text.is_ascii s = true /\
                Text.trimmed s /\ Text.strip U s = s) /\
     (at_col "status" r' = NA \/
      exists s, at_col "status" r' = Str s /\ Text.is_ascii s = true /\
                Text.trimmed s /\ Text.lower U s = s)).
Proof.
  intros H U. apply clean_and_transform_inv in H as (_ & -> & _). cbn [rows].
  split; [intros id; apply with_id_at_most_one|].
  intros r' Hin. apply in_clean_rows in Hin as (r & Hr & Hs & ->).
  exists r. split; [exact Hr|].
  unfold salvageable, clean_row, coerced in *.
  apply complete_critical in Hs as (Hid & Hd & Hq & Hp).
  rewrite coerce_row_order_id in Hid. rewrite coerce_row_order_date in Hd.
  rewrite coerce_row_quantity in Hq. rewrite coerce_row_unit_price in Hp.
  rewrite (at_col_Some _ _ _ (cleaned_region _ _ _ _ _)),
    (at_col_Some _ _ _ (cleaned_category _ _ _ _ _)),
    (at_col_Some _ _ _ (cleaned_product _ _ _ _ _)),
    (at_col_Some _ _ _ (cleaned_status _ _ _ _ _)).
  fold U.
  split; [|split; [|split; [|split; [|split; [|split; [|split; [|split; [|split]]]]]]]];
    try reflexivity.
  - unfold at_col. rewrite cleaned_order_id. exact Hid.
  - rewrite (at_col_Some _ _ _ (cleaned_order_date _ _ _ _ _)). by apply notna_date_cell.
  - rewrite (at_col_Some _ _ _ (cleaned_quantity _ _ _ _ _)). by apply notna_to_numeric.
  - rewrite (at_col_Some _ _ _ (cleaned_unit_price _ _ _ _ _)). by apply notna_to_numeric.
  - rewrite (at_col_Some _ _ _ (cleaned_discount _ _ _ _ _)).
    destruct (numeric_cell_Num_or_NA P (source_dtype df "discount")
                (target_dtype P df "discount") (at_col "discount" r)) as [-> | [q ->]];
      simpl; [by left|right].
    eexists. split; [done|]. apply clip_range.
  - unfold ascii_text, text_columns. cbn [forallb]. rewrite !andb_true_iff.
    intros (Hregion & Hcategory & Hproduct & Hstatus & _).
    split; [|split; [|split]].
    + destruct (at_col "region" r); simpl; eauto. right. eexists. split; [done|].
      by apply title_strip_ascii.
    + destruct (at_col "category" r); simpl; eauto. right. eexists. split; [done|].
      by apply title_strip_ascii.
    + destruct (at_col "product" r); simpl; eauto. right. eexists. split; [done|].
      by apply strip_ascii_trimmed.
    + destruct (at_col "status" r); simpl; eauto. right. eexists. split; [done|].
      by apply lower_strip_ascii.
Qed.

(* --------------------------------------------------------------------- *)
(** ** Rounding *)
(* --------------------------------------------------------------------- *)







(* --------------------------------------------------------------------- *)
(** ** Order and number of the cleaned rows *)
(* --------------------------------------------------------------------- *)

Lemma first_of_each_sublist {A K} (key : A -> K) eqb seen xs :
  sublist (first_of_each key eqb seen xs) xs.
Proof.
  revert seen. induction xs as [|x xs IH]; intros seen; simpl; [constructor|].
  destruct (existsb _ seen); [apply sublist_cons|apply sublist_skip]; apply IH.
Qed.

Lemma filter_sublist {A} (p : A -> bool) xs : sublist (List.filter p xs) xs.
Proof.
  induction xs as [|x xs IH]; simpl; [constructor|].
  destruct (p x); [by apply sublist_skip|by apply sublist_cons].
Qed.

Lemma map_sublist {A B} (f : A -> B) xs ys : sublist xs ys -> sublist (map f xs) (map f ys).
Proof. induction 1; simpl; by constructor. Qed.

Lemma clean_rows_ids P df :
  map (at_col "order_id") (clean_rows P df)
  = map (at_col "order_id") (List.filter (salvageable P df) (dedup (rows df))).
Proof.
  unfold clean_rows. rewrite map_map. apply map_ext. intros r. apply clean_row_order_id.
Qed.

(** X3. The cleaned rows come in the order of the batch: their order
    identifiers are a subsequence of the batch's.  The count of skipped
    rows is the number of rows that went missing, between 0 and the length
    of the batch: the later duplicates plus the first occurrences that
    could not be salvaged. *)
Theorem cleaned_rows_keep_batch_order P df out k :
  clean_and_transform P df = Return (out, k) ->
  sublist (map (at_col "order_id") (rows out)) (map (at_col "order_id") (rows df)) /\
  len out + k = len df /\
  0 <= k <= len df /\
  k = Z.of_nat (List.length (rows df) - List.length (dedup (rows df)))
      + Z.of_nat (List.length
                    (List.filter (fun r => negb (salvageable P df r))
                                 (dedup (rows df)))).
Proof.
  intros H. apply clean_and_transform_inv in H as (_ & -> & ->). cbn [rows].
  assert (Hsub : sublist (List.filter (salvageable P df) (dedup (rows df))) (rows df)).
  { etrans; [apply filter_sublist|apply first_of_each_sublist]. }
  split.
  - rewrite clean_rows_ids. by apply map_sublist.
  - unfold len. cbn [rows].
    assert (Hlen : List.length (clean_rows P df)
                   = List.length (List.filter (salvageable P df) (dedup (rows df)))).
    { unfold clean_rows. apply length_map. }
    pose proof (sublist_length _ _ Hsub) as Hle.
    pose proof (sublist_length _ _ (first_of_each_sublist (at_col "order_id") cell_eqb [] (rows df)))
      as Hded.
    fold (dedup (rows df)) in Hded.
    pose proof (filter_length (salvageable P df) (dedup (rows df))) as Hsplit.
    rewrite Hlen. repeat split; lia.
Qed.

(* --------------------------------------------------------------------- *)
(** ** The columns the cleaning step does not write *)
(* --------------------------------------------------------------------- *)

Lemma dom_clean_dtypes P df :
  REQUIRED_COLUMNS ⊆ columns df ->
  dom (clean_dtypes P df) = columns df ∪ {["total_revenue"]}.
Proof.
  unfold columns, clean_dtypes. set (D := dtypes df). clearbody D.
  intros Hreq. rewrite !dom_insert_L.
  assert (forall c, c ∈ REQUIRED_COLUMNS -> c ∈ dom D) as Hin by set_solver.
  pose proof (Hin "order_date" ltac:(apply required_elem; in_list)).
  pose proof (Hin "quantity" ltac:(apply required_elem; in_list)).
  pose proof (Hin "unit_price" ltac:(apply required_elem; in_list)).
  pose proof (Hin "discount" ltac:(apply required_elem; in_list)).
  pose proof (Hin "region" ltac:(apply required_elem; in_list)).
  pose proof (Hin "category" ltac:(apply required_elem; in_list)).
  pose proof (Hin "product" ltac:(apply required_elem; in_list)).
  pose proof (Hin "status" ltac:(apply required_elem; in_list)).
  clear Hin Hreq. apply set_eq. intros c.
  rewrite !elem_of_union, !elem_of_singleton.
  split.
  - intros Hc. repeat (destruct Hc as [Hc|Hc]; [subst c; auto|]). auto.
  - intros [Hc| ->]; auto 20.
Qed.

Lemma clean_dtypes_other P df c :
  c ∉ touched -> clean_dtypes P df !! c = dtypes df !! c.
Proof.
  unfold touched. rewrite !not_elem_of_cons. intros (?&?&?&?&?&?&?&?&?&_).
  unfold clean_dtypes. by rewrite !lookup_insert_ne by done.
Qed.

(** X4. The cleaning step adds the column total_revenue and no other;
    it leaves order_id, customer_id and every column that is not one of
    the nine it writes as they are, dtype and cells: each cleaned row
    agrees on them with a row of the batch. *)
Theorem cleaning_leaves_other_columns P df out k :
  clean_and_transform P df = Return (out, k) ->
  columns out = columns df ∪ {["total_revenue"]} /\
  (forall c, c ∉ touched -> dtypes out !! c = dtypes df !! c) /\
  (forall r', In r' (rows out) ->
     exists r, In r (rows df) /\
               at_col "order_id" r' = at_col "order_id" r /\
               at_col "customer_id" r' = at_col "customer_id" r /\
               forall c, c ∉ touched -> r' !! c = r !! c).
Proof.
  intros H. apply clean_and_transform_inv in H as (Hc & -> & _). cbn [rows dtypes].
  apply cleanable_parts in Hc as (Hreq & _ & _).
  split; [apply dom_clean_dtypes, Hreq|]. split; [intros c; apply clean_dtypes_other|].
  intros r' Hin. apply in_clean_rows in Hin as (r & Hr & _ & ->).
  exists r. split; [done|]. unfold clean_row, coerced, at_col.
  rewrite cleaned_order_id, cleaned_customer_id. split; [done|]. split; [done|].
  intros c. apply cleaned_other.
Qed.

(* --------------------------------------------------------------------- *)
(** ** The outcomes of the cleaning step *)
(* --------------------------------------------------------------------- *)


(* --------------------------------------------------------------------- *)
(** ** Pages *)
(* --------------------------------------------------------------------- *)

Lemma paginate_from_pages {A} n room (page seq : list A) pg :
  (1 <= room)%nat -> (List.length page + room = n)%nat ->
  In pg (paginate_from n room page seq) ->
  (1 <= List.length pg <= n)%nat.
Proof.
  revert room page. induction seq as [|x seq IH]; intros room page Hroom Hlen; simpl.
  - destruct page as [|y page]; simpl; [done|]. intros [<-|[]].
    rewrite length_app, length_rev. simpl in *. lia.
  - destruct room as [|[|room]]; [lia| |].
    + simpl. intros [<-|Hin].
      * rewrite length_app, length_rev. simpl in *. lia.
      * apply (IH n []) in Hin; simpl; lia.
    + intros Hin. apply (IH (S room) (x :: page)) in Hin; simpl in *; lia.
Qed.

Lemma paginate_pages {A} (seq : list A) n pg :
  (1 <= n)%nat -> In pg (paginate seq n) -> (1 <= List.length pg <= n)%nat.
Proof. intros Hn. unfold paginate. apply paginate_from_pages; simpl; lia. Qed.

Lemma paginate_short {A} (seq : list A) n :
  seq <> [] -> (List.length seq <= n)%nat -> paginate seq n = [seq].
Proof.
  intros Hne Hlen. unfold paginate.
  assert (Hgen : forall room page (s : list A),
             (List.length s <= room)%nat -> page ++ s <> [] ->
             paginate_from n room (rev page) s = [page ++ s]).
  { intros room page s. revert room page. induction s as [|x s IH]; intros room page Hl Hn; simpl.
    - rewrite app_nil_r in *. destruct (rev page) eqn:E.
      + apply (f_equal (@rev A)) in E. rewrite rev_involutive in E. done.
      + by rewrite <- E, rev_involutive.
    - simpl in Hl. destruct room as [|[|room]]; [lia| |].
      + destruct s; [|simpl in Hl; lia]. simpl.
        by rewrite rev_involutive.
      + specialize (IH (S room) (page ++ [x])). rewrite rev_app_distr in IH. simpl in IH.
        rewrite IH; [by rewrite <- app_assoc|simpl; lia|]. by destruct page. }
  apply (Hgen n [] seq); done.
Qed.

Lemma in_concat_sublist {A} (pg : list A) pages : In pg pages -> sublist pg (concat pages).
Proof.
  induction pages as [|p pages IH]; simpl; [done|]. intros [->|Hin].
  - apply sublist_inserts_r. done.
  - apply sublist_inserts_l. by apply IH.
Qed.

Lemma last_In {A} (l : list A) x : list.last l = Some x -> In x l.
Proof.
  intros H. apply list_elem_of_In. apply last_Some in H as [l' ->].
  apply elem_of_app. right. by apply list_elem_of_singleton.
Qed.

(* --------------------------------------------------------------------- *)
(** ** The orders statement *)
(* --------------------------------------------------------------------- *)

Lemma overwrite_app now o l1 l2 :
  overwrite now o (l1 ++ l2) = overwrite now (overwrite now o l1) l2.
Proof.
  unfold overwrite. destruct l2 as [|v l2 _] using rev_ind.
  - by rewrite app_nil_r.
  - by rewrite app_assoc, !last_snoc.
Qed.

Lemma upsert_all_orders now seen page t t' :
  upsert_all (put_order now) seen page t = Return t' ->
  forall k, t' !! k = overwrite now (t !! k) (values_for k page).
Proof.
  revert seen t. induction page as [|rec page IH]; intros seen t; simpl.
  - intros [= <-]. done.
  - destruct rec as [|c vals]; [done|].
    destruct (key_of_cell c) as [k0|] eqn:Ek; [|done].
    case_bool_decide; [done|].
    destruct (put_order now k0 vals t) as [t1|e] eqn:Eu; [|done].
    unfold put_order in Eu. case_bool_decide as Hlen; [|done]. injection Eu as <-.
    rewrite bind_Return. intros H1 k. rewrite (IH _ _ H1 k).
    unfold values_for. simpl. fold (values_for k page).
    case_bool_decide as Hk.
    + injection Hk as <-. unfold upsert_order. rewrite lookup_insert_eq.
      change (vals :: values_for k0 page) with ([vals] ++ values_for k0 page).
      by rewrite overwrite_app.
    + unfold upsert_order. rewrite lookup_insert_ne by congruence. done.
Qed.

Lemma execute_pages_orders now pages n conn conn' m :
  execute_pages (server now) InsertOrders pages n conn = (conn', Return m) ->
  purchased_products (session conn') = purchased_products (session conn) /\
  pipeline_runs (session conn') = pipeline_runs (session conn) /\
  durable conn' = durable conn /\
  executed conn' = executed conn ++ map InsertOrders pages /\
  m = match list.last pages with
      | Some page => Z.of_nat (List.length page)
      | None => n
      end /\
  forall k, orders (session conn') !! k
            = overwrite now (orders (session conn) !! k) (values_for k (concat pages)).
Proof.
  revert n conn. induction pages as [|page pages IH]; intros n conn; simpl.
  - intros [= <- <-]. by rewrite app_nil_r.
  - unfold mbind, io_bind, bind, cursor_execute. cbn [execute server pg_execute].
    fold (put_order now).
    destruct (upsert_all (put_order now) ∅ page (orders (session conn)))
      as [t1|e] eqn:E; cbn; [|done].
    intros H. apply IH in H as (Hp & Hr & Hd & Hx & Hm & Ho). cbn in *.
    split; [done|]. split; [done|]. split; [done|].
    split; [by rewrite Hx, <- app_assoc|]. split.
    + rewrite Hm. destruct pages as [|p2 pages]; [done|]. rewrite last_cons_cons.
      destruct (list.last (p2 :: pages)) eqn:El; [done|]. by apply last_None in El.
    + intros k. rewrite Ho, values_for_app, overwrite_app.
      by rewrite (upsert_all_orders _ _ _ _ _ E k).
Qed.

Lemma records_Return cols df recs :
  records cols df = Return recs ->
  recs = map (fun r => map (fun c => at_col c r) cols) (rows df).
Proof.
  unfold records. destruct (rows df); [by intros [= <-]|].
  destruct (List.find _ cols); [done|]. by intros [= <-].
Qed.

Lemma values_for_incoming_orders k df :
  values_for k (map (fun r => map (fun c => at_col c r) order_columns) (rows df))
  = incoming_orders k df.
Proof.
  unfold incoming_orders. induction (rows df) as [|r rs IH]; [done|].
  cbn [map List.filter]. unfold values_for in *. cbn [omap list_omap order_columns map].
  case_bool_decide; cbn [map tail]; [f_equal|]; exact IH.
Qed.

(** What [upsert_orders] does on the store: it sends the records page by
    page and answers with the size of the last page. *)
Lemma upsert_orders_pg now df conn conn' r :
  Pandas.empty df = false ->
  upsert_orders (server now) df conn = (conn', Return r) ->
  let recs := map (fun r => map (fun c => at_col c r) order_columns) (rows df) in
  exists page,
    list.last (paginate recs 500) = Some page /\
    r = (Z.of_nat (List.length page), len df - Z.of_nat (List.length page)) /\
    purchased_products (session conn') = purchased_products (session conn) /\
    pipeline_runs (session conn') = pipeline_runs (session conn) /\
    durable conn' = durable conn /\
    executed conn' = executed conn ++ map InsertOrders (paginate recs 500) /\
    forall k, orders (session conn') !! k
              = overwrite now (orders (session conn) !! k) (incoming_orders k df).
Proof.
  intros He. unfold upsert_orders. rewrite He.
  fold order_columns.
  destruct (records order_columns df) as [recs|e] eqn:Er; [|done].
  apply records_Return in Er. subst recs.
  unfold mbind, io_bind, bind, lift, execute_values.
  destruct (execute_pages _ _ _ _ conn) as [conn1 [m|e]] eqn:E; [|done].
  cbn. intros [= <- <-]. apply execute_pages_orders in E as (Hp & Hr & Hd & Hx & Hm & Ho).
  rewrite paginate_concat in Ho.
  destruct (list.last (paginate _ 500)) as [page|] eqn:El.
  - exists page. split; [done|]. subst m.
    rewrite (proj2 (Z.leb_le 0 _)) by lia.
    repeat split; try done. intros k. by rewrite Ho, values_for_incoming_orders.
  - exfalso. apply last_None in El.
    pose proof (paginate_concat (map (fun r => map (fun c => at_col c r) order_columns) (rows df)) 500) as Hc.
    rewrite El in Hc. simpl in Hc. unfold Pandas.empty in He.
    destruct (rows df); done.
Qed.

Lemma upsert_all_keys {T} (f : key -> list cell -> T -> result T) seen page t t' :
  upsert_all f seen page t = Return t' ->
  Forall (fun rec => is_Some (head rec ≫= key_of_cell)) page.
Proof.
  revert seen t. induction page as [|rec page IH]; intros seen t; simpl; [constructor|].
  destruct rec as [|c vals]; [done|].
  destruct (key_of_cell c) as [k0|] eqn:Ek; [|done].
  case_bool_decide; [done|].
  destruct (f k0 vals t) as [t1|e]; [|done]. rewrite bind_Return. intros H1.
  constructor; [simpl; rewrite Ek; eauto|]. by eapply IH.
Qed.

Lemma execute_pages_orders_keys now pages n conn conn' m :
  execute_pages (server now) InsertOrders pages n conn = (conn', Return m) ->
  Forall (fun rec => is_Some (head rec ≫= key_of_cell)) (concat pages).
Proof.
  revert n conn. induction pages as [|page pages IH]; intros n conn; simpl; [constructor|].
  unfold mbind, io_bind, bind, cursor_execute. cbn [execute server pg_execute].
  destruct (upsert_all _ ∅ page (orders (session conn))) as [t1|e] eqn:E; cbn; [|done].
  intros H. apply Forall_app. split; [by eapply upsert_all_keys|by eapply IH].
Qed.

Lemma key_of_cell_eqb a b k :
  key_of_cell a = Some k -> bool_decide (key_of_cell b = Some k) = cell_eqb b a.
Proof.
  destruct a as [|s|q|d|ns], b as [|t|p|e|ms]; simpl; try done;
    intros [= <-]; try (by rewrite bool_decide_eq_false_2 by done).
  - destruct (String.eqb_spec t s) as [->|Hn];
      [by rewrite bool_decide_eq_true_2|rewrite bool_decide_eq_false_2; congruence].
  - destruct (Qeq_bool p q) eqn:E.
    + apply Qeq_bool_iff in E. apply Qred_complete in E. rewrite E.
      by rewrite bool_decide_eq_true_2.
    + rewrite bool_decide_eq_false_2; [done|]. intros [= Hn Hd].
      assert (Qred p = Qred q) as Heq.
      { destruct (Qred p), (Qred q). simpl in *. congruence. }
      assert (p == q)%Q as Hpq.
      { rewrite <- (Qred_correct p), <- (Qred_correct q), Heq. reflexivity. }
      apply Qeq_bool_iff in Hpq. congruence.
  - destruct (Z.eqb_spec e d) as [->|Hn];
      [by rewrite bool_decide_eq_true_2|rewrite bool_decide_eq_false_2; congruence].
  - destruct (Z.eqb_spec ms ns) as [->|Hn];
      [by rewrite bool_decide_eq_true_2|rewrite bool_decide_eq_false_2; congruence].
Qed.

Lemma filter_none {A} (p : A -> bool) l :
  (forall x, In x l -> p x = false) -> List.filter p l = [].
Proof.
  induction l as [|x l IH]; intros H; simpl; [done|].
  rewrite H by (by left). apply IH. intros; apply H; by right.
Qed.

Lemma incoming_orders_with_id df row k :
  key_of_cell (at_col "order_id" row) = Some k ->
  incoming_orders k df
  = map (fun r => map (fun c => at_col c r) (tail order_columns))
        (with_id (at_col "order_id" row) (rows df)).
Proof.
  intros Hk. unfold incoming_orders, with_id. f_equal.
  apply filter_ext. intros r. by apply key_of_cell_eqb.
Qed.

Lemma last_page_size {A} (recs : list A) page :
  list.last (paginate recs 500) = Some page ->
  (1 <= List.length page <= 500)%nat /\
  (List.length page <= List.length recs)%nat /\
  ((List.length recs <= 500)%nat -> page = recs).
Proof.
  intros Hl. pose proof (last_In _ _ Hl) as Hin.
  split; [apply (paginate_pages recs 500 page); [lia|done]|]. split.
  - apply in_concat_sublist in Hin. rewrite paginate_concat in Hin.
    by apply sublist_length.
  - intros Hle. destruct recs as [|x recs]; [done|].
    rewrite paginate_short in Hl by done. by injection Hl as <-.
Qed.

(** X7. [upsert_orders] sends all the records of a non-empty batch, in
    pages of 500, and reports as rows_inserted the row count of the last
    statement: the size of the last page.  Up to 500 rows that is the
    length of the batch and rows_skipped is 0; beyond 500 rows
    rows_inserted is at most 500 and rows_skipped is positive although
    every row was sent. *)
Theorem upsert_orders_counts_the_last_page now df conn conn' rows_inserted rows_skipped :
  Pandas.empty df = false ->
  upsert_orders (server now) df conn = (conn', Return (rows_inserted, rows_skipped)) ->
  (exists pages,
      executed conn' = executed conn ++ map InsertOrders pages /\
      concat pages = map (fun r => map (fun c => at_col c r) order_columns) (rows df) /\
      exists page, list.last pages = Some page /\
                   rows_inserted = Z.of_nat (List.length page)) /\
  1 <= rows_inserted <= 500 /\
  rows_skipped = len df - rows_inserted /\
  (len df <= 500 -> rows_inserted = len df /\ rows_skipped = 0) /\
  (500 < len df -> 0 < rows_skipped).
Proof.
  intros He H. apply upsert_orders_pg in H as (page & Hl & Hr & _ & _ & _ & Hx & _); [|done].
  injection Hr as -> ->.
  set (recs := map (fun r => map (fun c => at_col c r) order_columns) (rows df)) in *.
  destruct (last_page_size recs page Hl) as (Hb & Hle & Hshort).
  assert (Hrecs : List.length recs = List.length (rows df)) by apply length_map.
  split.
  { exists (paginate recs 500). split; [done|]. split; [apply paginate_concat|]. eauto. }
  split; [lia|]. split; [done|]. unfold len. split.
  - intros Hlen. rewrite Hshort by lia. lia.
  - lia.
Qed.

(** X8. After [upsert_orders] has returned for a non-empty batch, every
    row of the batch is stored under its order identifier, with the
    timestamp of the transaction and, when no other row of the batch has
    the identifier, with the row's values; orders of other identifiers, the
    aggregation table and the audit table are as they were. *)
Theorem upsert_orders_stores_the_batch now df conn conn' r :
  Pandas.empty df = false ->
  upsert_orders (server now) df conn = (conn', Return r) ->
  purchased_products (session conn') = purchased_products (session conn) /\
  pipeline_runs (session conn') = pipeline_runs (session conn) /\
  (forall row, In row (rows df) ->
     exists k o,
       key_of_cell (at_col "order_id" row) = Some k /\
       orders (session conn') !! k = Some o /\
       ingested_at o = now /\
       (with_id (at_col "order_id" row) (rows df) = [row] ->
        order_values o = map (fun c => at_col c row) (tail order_columns))) /\
  (forall k,
     (forall row, In row (rows df) -> key_of_cell (at_col "order_id" row) <> Some k) ->
     orders (session conn') !! k = orders (session conn) !! k).
Proof.
  intros He H. pose proof H as H'.
  apply upsert_orders_pg in H as (page & _ & _ & Hp & Hr & _ & _ & Ho); [|done].
  split; [done|]. split; [done|]. split.
  - intros row Hin.
    assert (is_Some (key_of_cell (at_col "order_id" row))) as [k Hk].
    { unfold upsert_orders in H'. rewrite He in H'. fold order_columns in H'.
      destruct (records order_columns df) as [recs|e] eqn:Er; [|done].
      apply records_Return in Er. subst recs.
      unfold mbind, io_bind, bind, lift, execute_values in H'.
      destruct (execute_pages _ _ _ _ conn) as [conn1 [m|e]] eqn:E; [|done].
      apply execute_pages_orders_keys in E. rewrite paginate_concat in E.
      rewrite Forall_forall in E.
      specialize (E (map (fun c => at_col c row) order_columns)).
      apply E. apply in_map_iff. eauto. }
    exists k. rewrite Ho. rewrite (incoming_orders_with_id df row k Hk).
    assert (In row (with_id (at_col "order_id" row) (rows df))) as Hw.
    { unfold with_id. apply filter_In. split; [done|apply cell_eqb_refl]. }
    unfold overwrite.
    destruct (list.last _) as [vals|] eqn:El.
    + eexists. split; [done|]. split; [done|]. split; [done|].
      intros Hone. rewrite Hone in El. simpl in El. by injection El as <-.
    + apply last_None in El. apply map_eq_nil in El. rewrite El in Hw. done.
  - intros k Hk. rewrite Ho. unfold incoming_orders.
    rewrite filter_none; [done|].
    intros row Hin. apply bool_decide_eq_false_2. by apply Hk.
Qed.

(* --------------------------------------------------------------------- *)
(** ** A whole load on the store *)
(* --------------------------------------------------------------------- *)

Lemma build_product_aggregations_inv df agg :
  build_product_aggregations df = Return agg ->
  Forall (fun c => c ∈ columns agg) aggregation_columns /\
  exists dr, dtypes df !! "total_revenue" = Some dr /\
             rows agg = map (summary_row dr (rows df)) (group_keys product_keys (rows df)).
Proof.
  destruct df as [D R]. intros H. pose proof H as H'.
  unfold build_product_aggregations, groupby_agg in H. cbn [dtypes rows] in H.
  apply bind_Return_inv in H as (agg0 & H0 & _).
  apply bind_Return_inv in H0 as (d1 & Hd1 & H0).
  apply bind_Return_inv in H0 as (d2 & Hd2 & _).
  cbn [by_dtypes] in Hd1.
  destruct (D !! "product") as [dp|] eqn:Ep; [|done].
  destruct (D !! "category") as [dc|] eqn:Ec; [|done].
  rewrite !bind_Return in Hd1. injection Hd1 as <-.
  cbn [agg_dtypes] in Hd2.
  destruct (D !! "quantity") as [dq|] eqn:Eq; [|done].
  destruct (D !! "total_revenue") as [dr|] eqn:Er; [|done].
  destruct (D !! "discount") as [dd|] eqn:Ed; [|done].
  destruct (D !! "order_date") as [do|] eqn:Eo; [|done].
  rewrite (build_product_aggregations_rowwise D R dp dc dq dr dd do) in H' by done.
  injection H' as <-. split; [|by exists dr].
  unfold columns, summary_dtypes, aggregation_columns. cbn [dtypes].
  repeat constructor; rewrite !dom_insert_L; set_solver.
Qed.

Lemma log_pipeline_run_pg now run key ins k status conn :
  log_pipeline_run (server now) run key ins k status conn
  = (mkConn (durable conn)
       (mkDb (orders (session conn)) (purchased_products (session conn))
          (pipeline_runs (session conn)
           ++ [mkRun (next_run_id (pipeline_runs (session conn)))
                 [Str run; Str key; Num (inject_Z ins); Num (inject_Z k); Str status] now]))
       (executed conn
        ++ [InsertPipelineRun
              [Str run; Str key; Num (inject_Z ins); Num (inject_Z k); Str status]]),
     Return (Num (inject_Z (next_run_id (pipeline_runs (session conn)))))).
Proof. reflexivity. Qed.

Lemma get_connection_pg {A} now (body : io database A) db conn' a :
  body (mkConn db db []) = (conn', Return a) ->
  get_connection (server now) body db = (session conn', Return a).
Proof.
  intros H. unfold get_connection. cbn [connect server].
  unfold mbind, io_bind, bind. rewrite H. reflexivity.
Qed.

(** What the block of a load does on the store when it returns. *)
Lemma load_block_pg now df agg k key run conn conn' :
  Forall (fun c => c ∈ columns agg) aggregation_columns ->
  load_block (server now) df agg k key run conn = (conn', Return tt) ->
  exists ins skipped conn1,
    upsert_orders (server now) df conn = (conn1, Return (ins, skipped)) /\
    (forall kk, purchased_products (session conn') !! kk
                = merge_all now (purchased_products (session conn) !! kk) (incoming kk agg)) /\
    orders (session conn') = orders (session conn1) /\
    purchased_products (session conn1) = purchased_products (session conn) /\
    pipeline_runs (session conn')
    = pipeline_runs (session conn)
      ++ [mkRun (next_run_id (pipeline_runs (session conn)))
            [Str run; Str key; Num (inject_Z ins); Num (inject_Z k); Str "success"] now].
Proof.
  intros Hcols. unfold load_block. unfold mbind, io_bind, bind.
  destruct (upsert_orders (server now) df conn) as [conn1 [[ins skipped]|e]] eqn:Eo; [|done].
  destruct (upsert_purchased_products (server now) agg conn1) as [conn2 [[]|e]] eqn:Ep; [|done].
  rewrite log_pipeline_run_pg. cbn. intros [= <-]. cbn.
  exists ins, skipped, conn1. split; [done|].
  eapply upsert_purchased_products_merge in Ep as (Ho2 & Hr2 & Hp2);
    [|by apply records_columns].
  assert (purchased_products (session conn1) = purchased_products (session conn)
          /\ pipeline_runs (session conn1) = pipeline_runs (session conn)) as [Hp1 Hr1].
  { destruct (Pandas.empty df) eqn:He.
    - unfold upsert_orders in Eo. rewrite He in Eo. by injection Eo as <- _ _.
    - apply upsert_orders_pg in Eo as (_ & _ & _ & ? & ? & _); done. }
  split; [|split; [done|split; [done|]]].
  - intros kk. rewrite Hp2, Hp1. f_equal. apply values_for_incoming.
  - by rewrite Hr2, Hr1.
Qed.

(** X9. A load that returns has appended one row to pipeline_runs and
    left the earlier ones in place.  The row holds the run identifier, the
    object key, the rows_inserted that [upsert_orders] returned, the
    rows_skipped the task was given (not the count [upsert_orders]
    computes) and the status "success". *)
Theorem successful_load_logs_one_run now df rows_skipped object_key dag_run_id db db' :
  load_to_postgres (server now) df rows_skipped object_key dag_run_id db = (db', Return tt) ->
  exists rows_inserted,
    pipeline_runs db'
    = pipeline_runs db
      ++ [mkRun (next_run_id (pipeline_runs db))
            [ Str dag_run_id; Str object_key; Num (inject_Z rows_inserted);
              Num (inject_Z rows_skipped); Str "success" ] now] /\
    (Pandas.empty df = true -> rows_inserted = 0) /\
    (Pandas.empty df = false -> 1 <= rows_inserted <= 500) /\
    (Pandas.empty df = false -> len df <= 500 -> rows_inserted = len df).
Proof.
  unfold load_to_postgres.
  destruct (build_product_aggregations df) as [agg|e] eqn:Ea; [|done].
  intros H. apply get_connection_return in H as (conn' & H & ->).
  apply build_product_aggregations_inv in Ea as [Hcols _].
  apply load_block_pg in H as (ins & skipped & conn1 & Ho & _ & _ & _ & Hr); [|done].
  cbn in Hr. exists ins. split; [done|].
  split; [|split].
  - intros He. unfold upsert_orders in Ho. rewrite He in Ho. by injection Ho as _ <- _.
  - intros He. apply upsert_orders_pg in Ho as (page & Hl & [= -> _] & _); [|done].
    apply last_page_size in Hl as (? & _). lia.
  - intros He Hlen. apply upsert_orders_pg in Ho as (page & Hl & [= -> _] & _); [|done].
    apply last_page_size in Hl as (_ & _ & Hs). rewrite Hs; rewrite length_map; unfold len in *; lia.
Qed.

(* --------------------------------------------------------------------- *)
(** ** The same load, a second time *)
(* --------------------------------------------------------------------- *)

(** Whether a statement is accepted does not depend on the rows the
    table holds. *)
Lemma upsert_all_again {T} (f f' : key -> list cell -> T -> result T) seen page t t' t2 :
  (forall k vals t t1 t2, f k vals t = Return t1 -> exists t2', f' k vals t2 = Return t2') ->
  upsert_all f seen page t = Return t' ->
  exists t2', upsert_all f' seen page t2 = Return t2'.
Proof.
  intros Hf. revert seen t t2. induction page as [|rec page IH]; intros seen t t2; simpl; [eauto|].
  destruct rec as [|c vals]; [done|].
  destruct (key_of_cell c) as [k0|]; [|done].
  case_bool_decide; [done|].
  destruct (f k0 vals t) as [t1|e] eqn:E; [|done]. rewrite bind_Return.
  destruct (Hf _ _ _ _ t2 E) as [t2' ->]. rewrite bind_Return. apply IH.
Qed.

Lemma put_order_again now now' k vals (t t1 t2 : gmap key order_row) :
  put_order now k vals t = Return t1 -> exists t2', put_order now' k vals t2 = Return t2'.
Proof. unfold put_order. case_bool_decide; [eauto|done]. Qed.

Lemma upsert_product_again now now' k vals (t t1 t2 : gmap key product_row) :
  upsert_product now k vals t = Return t1 ->
  exists t2', upsert_product now' k vals t2 = Return t2'.
Proof.
  unfold upsert_product, merge_product.
  destruct vals as [|v1 [|v2 [|v3 [|v4 [|v5 [|v6 vals]]]]]]; try done.
  intros _. destruct (t2 !! k); rewrite bind_Return; eauto.
Qed.

Lemma execute_pages_orders_again now now' pages n conn conn' m conn2 :
  execute_pages (server now) InsertOrders pages n conn = (conn', Return m) ->
  exists conn2', execute_pages (server now') InsertOrders pages n conn2 = (conn2', Return m).
Proof.
  revert n conn conn2. induction pages as [|page pages IH]; intros n conn conn2; simpl.
  - intros [= _ <-]. eauto.
  - unfold mbind, io_bind, bind, cursor_execute. cbn [execute server pg_execute].
    fold (put_order now). fold (put_order now').
    destruct (upsert_all (put_order now) ∅ page (orders (session conn)))
      as [t1|e] eqn:E; cbn; [|done].
    destruct (upsert_all_again _ (put_order now') _ _ _ _ (orders (session conn2))
                (put_order_again now now') E) as [t2 ->]. cbn.
    apply IH.
Qed.

Lemma execute_pages_products_again now now' pages n conn conn' m conn2 :
  execute_pages (server now) InsertPurchasedProducts pages n conn = (conn', Return m) ->
  exists conn2',
    execute_pages (server now') InsertPurchasedProducts pages n conn2 = (conn2', Return m).
Proof.
  revert n conn conn2. induction pages as [|page pages IH]; intros n conn conn2; simpl.
  - intros [= _ <-]. eauto.
  - unfold mbind, io_bind, bind, cursor_execute. cbn [execute server pg_execute].
    destruct (upsert_all (upsert_product now) ∅ page (purchased_products (session conn)))
      as [t1|e] eqn:E; cbn; [|done].
    destruct (upsert_all_again _ (upsert_product now') _ _ _ _ (purchased_products (session conn2))
                (upsert_product_again now now') E) as [t2 ->]. cbn.
    apply IH.
Qed.

Lemma upsert_orders_again now now' df conn conn' r conn2 :
  upsert_orders (server now) df conn = (conn', Return r) ->
  exists conn2', upsert_orders (server now') df conn2 = (conn2', Return r).
Proof.
  unfold upsert_orders. destruct (Pandas.empty df); [intros [= _ <-]; eauto|].
  destruct (records _ df) as [recs|e]; [|done].
  unfold mbind, io_bind, bind, lift, execute_values.
  destruct (execute_pages _ _ _ _ conn) as [conn1 [m|e]] eqn:E; [|done].
  destruct (execute_pages_orders_again now now' _ _ _ _ _ conn2 E) as [conn2' ->].
  cbn. intros [= _ <-]. eauto.
Qed.

Lemma upsert_purchased_products_again now now' agg conn conn' conn2 :
  upsert_purchased_products (server now) agg conn = (conn', Return tt) ->
  exists conn2', upsert_purchased_products (server now') agg conn2 = (conn2', Return tt).
Proof.
  unfold upsert_purchased_products. destruct (Pandas.empty agg); [eauto|].
  destruct (records _ agg) as [recs|e]; [|done].
  unfold mbind, io_bind, bind, lift, execute_values.
  destruct (execute_pages _ _ _ _ conn) as [conn1 [m|e]] eqn:E; [|done].
  destruct (execute_pages_products_again now now' _ _ _ _ _ conn2 E) as [conn2' ->].
  cbn. eauto.
Qed.

Lemma load_block_again now now' df agg k key run conn conn' conn2 :
  load_block (server now) df agg k key run conn = (conn', Return tt) ->
  exists conn2', load_block (server now') df agg k key run conn2 = (conn2', Return tt).
Proof.
  unfold load_block. unfold mbind, io_bind, bind.
  destruct (upsert_orders (server now) df conn) as [conn1 [[ins skipped]|e]] eqn:Eo; [|done].
  destruct (upsert_purchased_products (server now) agg conn1) as [conn1' [[]|e]] eqn:Ep; [|done].
  destruct (upsert_orders_again now now' _ _ _ _ conn2 Eo) as [c2 ->].
  destruct (upsert_purchased_products_again now now' _ _ _ c2 Ep) as [c3 ->].
  rewrite !log_pipeline_run_pg. cbn. eauto.
Qed.

Lemma overwrite_values now now' o1 o2 valss :
  order_values <$> o1 = order_values <$> o2 ->
  order_values <$> overwrite now o1 valss = order_values <$> overwrite now' o2 valss.
Proof. unfold overwrite. by destruct (list.last valss). Qed.

Lemma overwrite_twice now now' o valss :
  order_values <$> overwrite now' (overwrite now o valss) valss
  = order_values <$> overwrite now o valss.
Proof. unfold overwrite. by destruct (list.last valss). Qed.

(** X10. A load that went through goes through again on the database it
    left.  The second load leaves the values of the orders as they are,
    merges the aggregation into purchased_products a second time, so that a
    product's units are counted twice, and appends a second audit row. *)
Theorem replayed_load_counts_twice now now' df rows_skipped object_key dag_run_id db db1 :
  load_to_postgres (server now) df rows_skipped object_key dag_run_id db = (db1, Return tt) ->
  exists db2 agg,
    build_product_aggregations df = Return agg /\
    load_to_postgres (server now') df rows_skipped object_key dag_run_id db1
    = (db2, Return tt) /\
    (forall k, order_values <$> orders db2 !! k = order_values <$> orders db1 !! k) /\
    (forall k, purchased_products db1 !! k
               = merge_all now (purchased_products db !! k) (incoming k agg)) /\
    (forall k, purchased_products db2 !! k
               = merge_all now' (purchased_products db1 !! k) (incoming k agg)) /\
    (forall k old cat units revenue discount date a,
        purchased_products db1 !! k = Some old ->
        total_units_sold old = Num a ->
        incoming k agg = [[cat; Num units; revenue; discount; date]] ->
        total_units_sold <$> purchased_products db2 !! k = Some (Num (Qred (a + units)))) /\
    List.length (pipeline_runs db2) = S (List.length (pipeline_runs db1)).
Proof.
  unfold load_to_postgres.
  destruct (build_product_aggregations df) as [agg|e] eqn:Ea; [|done].
  intros H. apply get_connection_return in H as (conn1 & H1 & ->).
  destruct (load_block_again now now' _ _ _ _ _ _ _
              (mkConn (session conn1) (session conn1) []) H1) as [conn2 H2].
  exists (session conn2), agg. split; [done|].
  split; [by apply get_connection_pg|].
  apply build_product_aggregations_inv in Ea as [Hcols _].
  apply load_block_pg in H1 as (ins1 & sk1 & c1 & Ho1 & Hp1 & Hoo1 & _ & Hr1); [|done].
  apply load_block_pg in H2 as (ins2 & sk2 & c2 & Ho2 & Hp2 & Hoo2 & _ & Hr2); [|done].
  cbn in *.
  split; [|split; [done|split; [done|split]]].
  - intros k. rewrite Hoo2, Hoo1. destruct (Pandas.empty df) eqn:He.
    + unfold upsert_orders in Ho1, Ho2. rewrite He in Ho1, Ho2.
      injection Ho1 as <- _ _. injection Ho2 as <- _ _. cbn. by rewrite Hoo1.
    + apply upsert_orders_pg in Ho1 as (_ & _ & _ & _ & _ & _ & _ & Hk1); [|done].
      apply upsert_orders_pg in Ho2 as (_ & _ & _ & _ & _ & _ & _ & Hk2); [|done].
      cbn in *. rewrite Hk2, Hoo1, Hk1. apply overwrite_twice.
  - intros k old cat units revenue discount date a Hold Ha Hin.
    rewrite Hp2, Hold, Hin. cbn. by rewrite Ha.
  - rewrite Hr2, length_app. simpl. lia.
Qed.
(* --------------------------------------------------------------------- *)
(** ** The statements a cleaned batch leads to *)
(* --------------------------------------------------------------------- *)


Lemma upsert_all_accepts {T} (f : key -> list cell -> T -> result T) seen page t :
  Forall (fun rec => exists c vals k,
              rec = c :: vals /\ key_of_cell c = Some k /\
              forall t, exists t', f k vals t = Return t') page ->
  base.NoDup (keys_of page) ->
  (forall k, k ∈ keys_of page -> k ∉ seen) ->
  exists t', upsert_all f seen page t = Return t'.
Proof.
  revert seen t. induction page as [|rec page IH]; intros seen t Hall Hnd Hseen; simpl; [eauto|].
  unfold keys_of in *. inversion Hall as [|? ? (c & vals & k & -> & Hk & Hf) Hall']; subst.
  rewrite Hk. simpl in Hnd, Hseen. rewrite Hk in Hnd, Hseen. simpl in Hnd, Hseen.
  apply list.NoDup_cons in Hnd as [Hnin Hnd].
  rewrite bool_decide_eq_false_2 by (apply Hseen; left).
  destruct (Hf t) as [t1 ->]. rewrite bind_Return. apply IH; [done|done|].
  intros k' Hin. apply not_elem_of_union. split.
  - intros ->%elem_of_singleton. done.
  - apply Hseen. by right.
Qed.

Lemma upsert_all_refuses now seen page t :
  Forall (fun rec => exists c vals k,
              rec = c :: vals /\ key_of_cell c = Some k /\ List.length vals = 5%nat) page ->
  ¬ (base.NoDup (keys_of page) /\ forall k, k ∈ keys_of page -> k ∉ seen) ->
  upsert_all (upsert_product now) seen page t = Raise (DatabaseError "21000").
Proof.
  revert seen t. induction page as [|rec page IH]; intros seen t Hall Hbad; simpl.
  - exfalso. apply Hbad. split; [constructor|]. intros k Hk. by apply elem_of_nil in Hk.
  - unfold keys_of in *. inversion Hall as [|? ? (c & vals & k & -> & Hk & Hlen) Hall']; subst.
    rewrite Hk. simpl in Hbad. rewrite Hk in Hbad. simpl in Hbad.
    case_bool_decide as Hin; [done|].
    assert (exists t1, upsert_product now k vals t = Return t1) as [t1 ->].
    { unfold upsert_product, merge_product.
      destruct vals as [|v1 [|v2 [|v3 [|v4 [|v5 [|v6 vals]]]]]]; try done.
      destruct (t !! k); rewrite bind_Return; eauto. }
    rewrite bind_Return. apply IH; [done|].
    intros [Hnd Hseen]. apply Hbad. split.
    + apply list.NoDup_cons. split; [|done]. intros Hk'. apply (Hseen k Hk'). set_solver.
    + intros k' [->|Hk']%elem_of_cons; [done|]. specialize (Hseen k' Hk'). set_solver.
Qed.

Lemma not_NoDup_map {A B} (f : A -> B) l x y :
  In x l -> In y l -> x <> y -> f x = f y -> ¬ base.NoDup (map f l).
Proof.
  intros Hx Hy Hne Hf Hnd. induction l as [|z l IH]; [done|].
  simpl in Hnd. apply list.NoDup_cons in Hnd as [Hz Hnd].
  destruct Hx as [->|Hx], Hy as [->|Hy]; [done| | |by apply IH].
  - apply Hz. rewrite Hf. apply list_elem_of_In, in_map. done.
  - apply Hz. rewrite <- Hf. apply list_elem_of_In, in_map. done.
Qed.

(** The order identifiers of a cleaned batch are distinct keys. *)
Lemma fresh_keys_NoDup seen rs :
  fresh (at_col "order_id") cell_eqb seen rs ->
  (forall r, In r rs -> notna (at_col "order_id" r) = true) ->
  base.NoDup (omap (fun r => key_of_cell (at_col "order_id" r)) rs) /\
  forall k c, k ∈ omap (fun r => key_of_cell (at_col "order_id" r)) rs ->
              In c seen -> key_of_cell c <> Some k.
Proof.
  revert seen. induction rs as [|r rs IH]; intros seen Hf Hn; simpl.
  - split; [constructor|]. intros k c Hk. by apply elem_of_nil in Hk.
  - destruct Hf as [Hex Hf]. destruct (IH _ Hf) as [Hnd Hseen].
    { intros; apply Hn; by right. }
    destruct (key_of_cell (at_col "order_id" r)) as [k0|] eqn:Ek.
    2:{ specialize (Hn r (or_introl eq_refl)). by destruct (at_col "order_id" r). }
    split.
    + apply list.NoDup_cons. split; [|done]. intros Hin.
      apply (Hseen k0 (at_col "order_id" r) Hin); [by left|done].
    + intros k c [->|Hk]%elem_of_cons Hc.
      * intros Hck. rewrite <- (bool_decide_eq_true (key_of_cell c = Some k0)) in Hck.
        rewrite (key_of_cell_eqb _ c _ Ek) in Hck.
        rewrite cell_eqb_sym in Hck.
        assert (existsb (cell_eqb (at_col "order_id" r)) seen = true) as Ht.
        { apply existsb_exists. eauto. }
        congruence.
      * apply (Hseen k c Hk). by right.
Qed.

Lemma omap_sublist {A B} (f : A -> option B) l1 l2 :
  sublist l1 l2 -> sublist (omap f l1) (omap f l2).
Proof.
  induction 1 as [|x l1 l2 _ IH|x l1 l2 _ IH]; simpl; [constructor|..];
    destruct (f x); try done; by constructor.
Qed.

Lemma execute_pages_orders_accepts now pages n conn :
  (forall page, In page pages ->
     Forall (fun rec => exists c vals k,
                 rec = c :: vals /\ key_of_cell c = Some k /\
                 List.length vals = 9%nat) page /\
     base.NoDup (keys_of page)) ->
  exists conn' m, execute_pages (server now) InsertOrders pages n conn = (conn', Return m).
Proof.
  revert n conn. induction pages as [|page pages IH]; intros n conn Hall; simpl; [eauto|].
  unfold mbind, io_bind, bind, cursor_execute. cbn [execute server pg_execute].
  fold (put_order now).
  destruct (Hall page (or_introl eq_refl)) as [Hgood Hnd].
  destruct (upsert_all_accepts (put_order now) ∅ page (orders (session conn))) as [t1 ->];
    [|done|set_solver|].
  - eapply Forall_impl; [|exact Hgood]. cbn. intros rec (c & vals & k & -> & Hk & Hlen).
    exists c, vals, k. split; [done|]. split; [done|]. intros t. unfold put_order.
    rewrite bool_decide_eq_true_2 by done. eauto.
  - cbn. apply IH. intros p Hp. apply Hall. by right.
Qed.

Lemma keys_of_records rs :
  keys_of (map (fun r => map (fun c => at_col c r) order_columns) rs)
  = omap (fun r => key_of_cell (at_col "order_id" r)) rs.
Proof.
  unfold keys_of. induction rs as [|r rs IH]; [done|]. simpl.
  destruct (key_of_cell _); [f_equal|]; exact IH.
Qed.

Lemma clean_rows_notna P df r :
  In r (clean_rows P df) -> notna (at_col "order_id" r) = true.
Proof.
  intros Hin. apply in_clean_rows in Hin as (r0 & _ & Hs & ->).
  unfold salvageable, clean_row, coerced in *.
  apply complete_critical in Hs as (Hid & _).
  rewrite coerce_row_order_id in Hid. unfold at_col. rewrite cleaned_order_id. exact Hid.
Qed.

Lemma notna_key c : notna c = true -> is_Some (key_of_cell c).
Proof. destruct c; simpl; eauto. done. Qed.

Lemma cleaned_columns P df0 df k :
  clean_and_transform P df0 = Return (df, k) ->
  Forall (fun c => c ∈ columns df) order_columns.
Proof.
  intros H. apply clean_and_transform_inv in H as (Hc & -> & _).
  apply cleanable_parts in Hc as (Hreq0 & _ & _).
  pose proof (cleanable_clean P df0 Hreq0) as Hc.
  apply cleanable_parts in Hc as (Hreq & _ & _).
  apply Forall_forall. intros c Hin. apply Hreq. apply required_elem.
  apply list_elem_of_In. exact Hin.
Qed.

Lemma cleaned_not_empty P df0 df k :
  clean_and_transform P df0 = Return (df, k) ->
  rows df <> [] -> Pandas.empty df = false.
Proof.
  intros H Hne. apply clean_and_transform_inv in H as (_ & -> & _).
  unfold Pandas.empty. cbn [rows dtypes] in *.
  destruct (clean_rows P df0); [done|].
  apply bool_decide_eq_false_2. unfold clean_dtypes. apply insert_non_empty.
Qed.

(** The orders statement accepts a cleaned batch: the records have a
    key each, and no key twice. *)
Lemma upsert_orders_cleaned now P df0 df k conn :
  clean_and_transform P df0 = Return (df, k) ->
  exists conn' r, upsert_orders (server now) df conn = (conn', Return r).
Proof.
  intros H. unfold upsert_orders. destruct (Pandas.empty df) eqn:He; [eauto|].
  fold order_columns. rewrite records_columns by (by eapply cleaned_columns).
  unfold mbind, io_bind, bind, lift, execute_values.
  set (recs := map _ (rows df)).
  destruct (execute_pages_orders_accepts now (paginate recs 500) (-1) conn) as (conn1 & m & ->);
    [|cbn; eauto].
  apply clean_and_transform_inv in H as (_ & -> & _). cbn [rows] in *.
  assert (Hgood : Forall (fun rec => exists c vals k,
                    rec = c :: vals /\ key_of_cell c = Some k /\
                    List.length vals = 9%nat) recs).
  { apply Forall_forall. intros rec Hin. apply in_map_iff in Hin as (r & <- & Hr).
    destruct (notna_key _ (clean_rows_notna _ _ _ Hr)) as [key Hkey].
    eexists _, _, key. cbn [map order_columns]. split; [reflexivity|]. split; [done|]. done. }
  assert (Hnd : base.NoDup (keys_of recs)).
  { unfold recs. rewrite keys_of_records.
    apply (fresh_keys_NoDup []); [apply clean_rows_fresh|apply clean_rows_notna]. }
  intros page Hin. apply in_concat_sublist in Hin. rewrite paginate_concat in Hin.
  split.
  - eapply Forall_forall. intros rec Hrec. rewrite Forall_forall in Hgood. apply Hgood.
    apply list_elem_of_In. eapply elem_of_sublist; [|exact Hin]. by apply list_elem_of_In.
  - eapply sublist_NoDup; [exact Hnd|]. by apply omap_sublist.
Qed.

(** X11. The records of a cleaned batch all have an order identifier,
    and no two the same: the orders statement is not refused for a null or
    a repeated key.  [upsert_orders] returns, with the length of the batch
    and 0 when the batch has at most 500 rows, and every row of the batch
    is stored under its order identifier with its values. *)
Theorem cleaned_batch_is_accepted P now df0 df k conn :
  clean_and_transform P df0 = Return (df, k) ->
  exists conn' rows_inserted rows_skipped,
    upsert_orders (server now) df conn = (conn', Return (rows_inserted, rows_skipped)) /\
    (len df <= 500 -> rows_inserted = len df /\ rows_skipped = 0) /\
    forall row, In row (rows df) ->
      exists key,
        key_of_cell (at_col "order_id" row) = Some key /\
        orders (session conn') !! key
        = Some (mkOrder (map (fun c => at_col c row) (tail order_columns)) now).
Proof.
  intros H. destruct (upsert_orders_cleaned now P df0 df k conn H) as (conn' & [ins sk] & Hu).
  exists conn', ins, sk. split; [done|].
  destruct (rows df) as [|r0 rs] eqn:Er.
  { split; [|done]. intros _. unfold upsert_orders, Pandas.empty in Hu. rewrite Er in Hu.
    injection Hu as _ <- <-. unfold len. by rewrite Er. }
  assert (He : Pandas.empty df = false).
  { eapply cleaned_not_empty; [done|]. by rewrite Er. }
  apply upsert_orders_pg in Hu as (page & Hl & [= -> ->] & _ & _ & _ & _ & Ho); [|done].
  split.
  { intros Hlen. apply last_page_size in Hl as (_ & _ & Hs).
    rewrite Hs; rewrite length_map; unfold len in *; lia. }
  rewrite <- Er. intros row Hin.
  apply clean_and_transform_inv in H as (_ & -> & _). cbn [rows] in *.
  destruct (notna_key _ (clean_rows_notna _ _ _ Hin)) as [key Hkey].
  exists key. split; [done|]. rewrite Ho.
  cbn [rows]. rewrite (incoming_orders_with_id _ row key Hkey). cbn [rows].
  assert (with_id (at_col "order_id" row) (clean_rows P df0) = [row]) as ->.
  { pose proof (with_id_at_most_one P df0 (at_col "order_id" row)) as Hle.
    assert (In row (with_id (at_col "order_id" row) (clean_rows P df0))) as Hw.
    { unfold with_id. apply filter_In. split; [done|apply cell_eqb_refl]. }
    destruct (with_id _ _) as [|x [|y l]]; simpl in *; [done| |lia].
    by destruct Hw as [->|[]]. }
  reflexivity.
Qed.

(* --------------------------------------------------------------------- *)
(** ** One product under two categories *)
(* --------------------------------------------------------------------- *)

Lemma group_keys_length by_ rs : (List.length (group_keys by_ rs) <= List.length rs)%nat.
Proof.
  unfold group_keys. rewrite (Permutation_length (sort_keys_perm _)).
  etrans; [apply sublist_length, first_of_each_sublist|].
  etrans; [apply sublist_length, filter_sublist|]. by rewrite length_map.
Qed.

Lemma pair_rows_key p c rs :
  pair_rows p c rs <> [] -> In [Str p; Str c] (group_keys product_keys rs).
Proof.
  intros Hne. pose proof (group_keys_pair product_keys rs p c) as H.
  assert (existsb (fun r => key_eqb (key_of product_keys r) [Str p; Str c]) rs = true) as He.
  { destruct (pair_rows p c rs) as [|r g] eqn:Eg; [done|].
    assert (In r (pair_rows p c rs)) as Hin by (rewrite Eg; by left).
    unfold pair_rows in Hin. apply filter_In in Hin as [Hin Hr].
    apply existsb_exists. exists r. split; [done|]. simpl. by rewrite andb_true_r. }
  rewrite He in H.
  assert (In [Str p; Str c]
            (List.filter (fun k => key_eqb k [Str p; Str c]) (group_keys product_keys rs)))
    as Hin by (rewrite H; by left).
  by apply filter_In in Hin as [? _].
Qed.

Lemma cleaned_group_key P df k :
  In k (group_keys product_keys (clean_rows P df)) -> exists p c, k = [Str p; Str c].
Proof.
  intros Hin. apply group_keys_in in Hin as (Hn & r & Hr & <-).
  destruct (cleaned_row_cells _ _ _ Hr) as (_ & _ & Hp & Hc).
  unfold key_of, product_keys in *. simpl in *.
  destruct Hp as [Hp|[p Hp]], Hc as [Hc|[c Hc]]; rewrite Hp, Hc in *; simpl in Hn;
    try done. eauto.
Qed.

Lemma summary_record dr rs p c :
  exists vals,
    map (fun col => at_col col (summary_row dr rs [Str p; Str c])) aggregation_columns
    = Str p :: vals /\ List.length vals = 5%nat.
Proof.
  eexists. cbn [map aggregation_columns]. rewrite at_col_summary_product. done.
Qed.

Lemma two_categories_refused now dr rs keys p c1 c2 t :
  (forall k, In k keys -> exists p c, k = [Str p; Str c]) ->
  In [Str p; Str c1] keys -> In [Str p; Str c2] keys -> c1 <> c2 ->
  upsert_all (upsert_product now) ∅
    (map (fun r => map (fun col => at_col col r) aggregation_columns)
         (map (summary_row dr rs) keys)) t
  = Raise (DatabaseError "21000").
Proof.
  intros Hform H1 H2 Hne. apply upsert_all_refuses.
  - apply Forall_forall. intros rec Hin. rewrite map_map in Hin.
    apply in_map_iff in Hin as (k & <- & Hk).
    destruct (Hform k Hk) as (p' & c' & ->).
    destruct (summary_record dr rs p' c') as (vals & -> & Hlen).
    exists (Str p'), vals, (KStr p'). done.
  - intros [Hnd _].
    assert (keys_of (map (fun r => map (fun col => at_col col r) aggregation_columns)
                         (map (summary_row dr rs) keys))
            = map (fun k => match k with Str p :: _ => KStr p | _ => KStr "" end) keys) as Heq.
    { unfold keys_of. clear H1 H2 Hnd. induction keys as [|k keys IH]; [done|].
      destruct (Hform k (or_introl eq_refl)) as (p' & c' & ->).
      cbn [map omap list_omap]. destruct (summary_record dr rs p' c') as (vals & -> & _).
      cbn. f_equal. apply IH. intros; apply Hform; by right. }
    rewrite Heq in Hnd. revert Hnd.
    apply (not_NoDup_map _ _ [Str p; Str c1] [Str p; Str c2]); [done|done|congruence|done].
Qed.

(** X12. A cleaned batch of at most 500 rows in which one product occurs
    under two categories cannot be loaded.  The aggregation has a row for
    each of the two pairs, the purchased_products statement would write the
    product's row twice and is refused with SQLSTATE 21000, and the load
    ends with that error and the database as it was. *)
Theorem product_in_two_categories_is_refused
        P now df0 df rows_skipped object_key dag_run_id db p c1 c2 :
  clean_and_transform P df0 = Return (df, rows_skipped) ->
  len df <= 500 ->
  pair_rows p c1 (rows df) <> [] -> pair_rows p c2 (rows df) <> [] -> c1 <> c2 ->
  load_to_postgres (server now) df rows_skipped object_key dag_run_id db
  = (db, Raise (DatabaseError "21000")).
Proof.
  intros Hclean Hlen Hp1 Hp2 Hne.
  destruct (upsert_orders_cleaned now P df0 df rows_skipped (mkConn db db []) Hclean)
    as (conn1 & [ins sk] & Ho).
  pose proof Hclean as Hinv. apply clean_and_transform_inv in Hinv as (_ & Hdf & _).
  assert (exists agg, build_product_aggregations df = Return agg) as [agg Hagg].
  { destruct (clean_dtypes_lookups P df0) as (? & ? & ? & ? & ? & ?). subst df.
    erewrite build_product_aggregations_rowwise by eassumption. eauto. }
  pose proof (build_product_aggregations_inv _ _ Hagg) as (Hcols & dr & _ & Hrows).
  set (keys := group_keys product_keys (rows df)) in *.
  assert (Hk1 : In [Str p; Str c1] keys) by (by apply pair_rows_key).
  assert (Hk2 : In [Str p; Str c2] keys) by (by apply pair_rows_key).
  assert (Hform : forall k, In k keys -> exists p c, k = [Str p; Str c]).
  { intros k. subst keys df. cbn [rows]. apply cleaned_group_key. }
  assert (Hklen : (List.length keys <= 500)%nat).
  { pose proof (group_keys_length product_keys (rows df)). unfold len in Hlen.
    fold keys in H. lia. }
  assert (Hup : upsert_purchased_products (server now) agg conn1
                = (mkConn (durable conn1) (session conn1)
                     (executed conn1
                      ++ [InsertPurchasedProducts
                            (map (fun r => map (fun col => at_col col r) aggregation_columns)
                                 (rows agg))]),
                   Raise (DatabaseError "21000"))).
  { unfold upsert_purchased_products.
    assert (Pandas.empty agg = false) as ->.
    { unfold Pandas.empty. rewrite Hrows. destruct keys; [done|]. simpl.
      apply bool_decide_eq_false_2. intros Hd.
      inversion Hcols as [|? ? Hc _]. unfold columns in Hc. rewrite Hd in Hc. set_solver. }
    fold aggregation_columns. rewrite records_columns by done.
    unfold mbind, io_bind, bind, lift, execute_values.
    rewrite paginate_short.
    2:{ rewrite Hrows. destruct keys; done. }
    2:{ rewrite Hrows, !length_map. done. }
    cbn [execute_pages]. unfold mbind, io_bind, bind, cursor_execute.
    cbn [execute server pg_execute]. rewrite Hrows.
    rewrite (two_categories_refused now dr (rows df) keys p c1 c2) by done.
    reflexivity. }
  unfold load_to_postgres. rewrite Hagg. unfold get_connection. cbn [connect server].
  unfold load_block, mbind, io_bind, bind. rewrite Ho, Hup. cbn.
  apply keeps_upsert_orders in Ho. cbn in Ho. unfold conn_close, conn_rollback. cbn.
  congruence.
Qed.

(* --------------------------------------------------------------------- *)
(** ** The aggregation adds up *)
(* --------------------------------------------------------------------- *)
















(** X14. On a non-empty frame that lacks one of the ten order columns
    [upsert_orders] raises KeyError for a missing column before it sends
    anything: the connection is as it was, whatever the server. *)
Theorem upsert_orders_needs_every_column {DB} (S : Server DB) df conn c :
  Pandas.empty df = false ->
  c ∈ order_columns -> c ∉ columns df ->
  exists missing,
    missing ∈ order_columns /\ (missing ∉ columns df) /\
    upsert_orders S df conn = (conn, Raise (KeyError missing)).
Proof.
  intros He Hc Hn. unfold upsert_orders. rewrite He. fold order_columns.
  unfold records. unfold Pandas.empty in He. destruct (rows df) as [|r rs]; [done|].
  destruct (List.find _ order_columns) as [m|] eqn:Ef.
  - apply find_some in Ef as [Hin Hm]. exists m.
    split; [by apply list_elem_of_In|]. split; [|done].
    apply negb_true_iff, bool_decide_eq_false in Hm. done.
  - apply list_elem_of_In in Hc. eapply find_none in Ef; [|exact Hc]. cbn in Ef.
    apply negb_false_iff, bool_decide_eq_true in Ef. done.
Qed.
(* --------------------------------------------------------------------- *)
(** ** Generated batches *)
(* --------------------------------------------------------------------- *)

Section Generated.
Import Generator.

Lemma choice_In {A} (seq : list A) draw :
  seq <> [] -> exists x, choice seq draw = Some x /\ In x seq.
Proof.
  intros Hne. unfold choice.
  assert (Hlt : (draw mod List.length seq < List.length seq)%nat).
  { apply Nat.mod_upper_bound. by destruct seq. }
  destruct (lookup_lt_is_Some_2 seq _ Hlt) as [x Hx].
  exists x. split; [done|]. apply list_elem_of_In. by eapply list_elem_of_lookup_2.
Qed.

(** The tables hold ASCII text the cleaning step leaves as it is, and
    discounts in [0,1]. *)
Lemma tables_are_normalised :
  Forall (fun entry =>
            Text.is_ascii (fst entry) = true /\
            Text.ascii_title (Text.ascii_strip (fst entry)) = fst entry /\
            products_of (fst entry) = Some (snd entry) /\ snd entry <> [] /\
            Forall (fun product => Text.is_ascii product = true /\
                                   Text.ascii_strip product = product) (snd entry))
         PRODUCTS /\
  Forall (fun region => Text.is_ascii region = true /\
                        Text.ascii_title (Text.ascii_strip region) = region) REGIONS /\
  Forall (fun status => Text.is_ascii status = true /\
                        Text.ascii_lower (Text.ascii_strip status) = status) STATUSES /\
  Forall (fun discount =>
            Numeric.clip 0 1 (value (round_number 2 discount))
            = value (round_number 2 discount))
         DISCOUNTS.
Proof.
  unfold PRODUCTS, REGIONS, STATUSES, DISCOUNTS.
  repeat first [ split | apply Forall_cons | apply Forall_nil | done
               | (vm_compute; reflexivity) ].
Qed.

Lemma title_strip_table U s :
  Text.is_ascii s = true -> Text.ascii_title (Text.ascii_strip s) = s ->
  Text.title U (Text.strip U s) = s.
Proof.
  intros Ha E. rewrite strip_ascii by done.
  rewrite title_ascii by (by apply is_ascii_strip). exact E.
Qed.

Lemma lower_strip_table U s :
  Text.is_ascii s = true -> Text.ascii_lower (Text.ascii_strip s) = s ->
  Text.lower U (Text.strip U s) = s.
Proof.
  intros Ha E. rewrite strip_ascii by done.
  rewrite lower_ascii by (by apply is_ascii_strip). exact E.
Qed.

(** What a generated row holds. *)
Lemma generate_row_spec E d :
  exists product category region status discount,
    generate_row E d
    = Some (list_to_map
              [ ("order_id", Str (order_uuid d));
                ("customer_id", Str (customer_uuid d));
                ("product", Str product);
                ("category", Str category);
                ("region", Str region);
                ("quantity", Num (inject_Z (randint 1 10 (quantity_draw d))));
                ("unit_price", Num (Numeric.py_round 2 (uniform 5 1500 (price_draw d))));
                ("discount", Num discount);
                ("order_date", Str (random_order_date E 365 (date_draw d)));
                ("status", Str status) ]) /\
    (forall U, Text.strip U product = product /\
               Text.title U (Text.strip U category) = category /\
               Text.title U (Text.strip U region) = region /\
               Text.lower U (Text.strip U status) = status) /\
    Numeric.clip 0 1 discount = discount.
Proof.
  destruct tables_are_normalised as (Hp & Hr & Hs & Hd).
  rewrite Forall_forall in Hp, Hr, Hs, Hd.
  destruct (choice_In PRODUCTS.*1 (category_draw d)) as (category & Hc & Hcin); [done|].
  apply in_map_iff in Hcin as ([c products] & <- & Hentry).
  destruct (Hp _ Hentry) as (Hca & Hct & Hpo & Hne & Hprods). cbn [fst snd] in *.
  destruct (choice_In products (product_draw d) Hne) as (product & Hpc & Hpin).
  destruct (choice_In DISCOUNTS (discount_draw d)) as (discount & Hdc & Hdin); [done|].
  destruct (choice_In REGIONS (region_draw d)) as (region & Hrc & Hrin); [done|].
  destruct (choice_In STATUSES (status_draw d)) as (status & Hsc & Hsin); [done|].
  exists product, c, region, status, (value (round_number 2 discount)).
  split.
  - unfold generate_row, discount_of. rewrite Hc. cbn [mbind option_bind]. rewrite Hpo.
    cbn [mbind option_bind]. rewrite Hpc, Hdc, Hrc, Hsc. reflexivity.
  - rewrite Forall_forall in Hprods. split; [|by apply Hd].
    intros U. destruct (Hprods _ Hpin) as [Hpa Hps].
    destruct (Hr _ Hrin) as [Hra Hrt]. destruct (Hs _ Hsin) as [Hsa Hsl].
    split; [by rewrite strip_ascii|]. split; [by apply title_strip_table|].
    split; [by apply title_strip_table|by apply lower_strip_table].
Qed.

Lemma mapM_generate_row E ds :
  exists rows, mapM (generate_row E) ds = Some rows /\
               Forall2 (fun d r => generate_row E d = Some r) ds rows.
Proof.
  induction ds as [|d ds (rows & Hrows & Hall)]; [by exists []|].
  destruct (generate_row_spec E d) as (? & ? & ? & ? & ? & Hd & _).
  eexists (_ :: rows). cbn. rewrite Hd. cbn. rewrite Hrows. cbn.
  split; [reflexivity|]. by constructor.
Qed.

Lemma generated_row E ds rows r :
  Forall2 (fun d r => generate_row E d = Some r) ds rows ->
  In r rows -> exists d, generate_row E d = Some r.
Proof.
  induction 1 as [|d r0 ds rows Hd _ IH]; [done|]. intros [<-|Hin]; eauto.
Qed.

Lemma discount_dtype_cases ds : discount_dtype ds = int64 \/ discount_dtype ds = float64.
Proof. unfold discount_dtype. destruct (forallb _ ds); auto. Qed.

(** Timestamps without a UTC offset are of one zone. *)
Lemma one_zone_no_offset P vs :
  (forall h s, utc_offset P h s = None) -> one_zone P vs = true.
Proof.
  intros Hno. unfold one_zone.
  assert (Hall : Forall (fun z => z = None) (omap (zone_of P (format_hint vs)) vs)).
  { generalize (format_hint vs) as h. intros h.
    induction vs as [|v vs IH]; [constructor|]. cbn [omap list_omap].
    destruct (zone_of P h v) as [z|] eqn:Ez; [|exact IH]. constructor; [|exact IH].
    unfold zone_of in Ez. destruct v; try (destruct (to_datetime_cell _ _ _); congruence).
    destruct (parse_datetime P h s); [|done]. rewrite Hno in Ez. congruence. }
  destruct (omap _ vs) as [|z zs]; [done|].
  inversion Hall as [|? ? -> Hzs]; subst. apply forallb_forall. intros z' Hz'.
  rewrite Forall_forall in Hzs. apply bool_decide_eq_true. by apply Hzs.
Qed.

(** X15. The generator returns a batch with one row for each row asked
    for.  A batch with a row has the ten columns, the text columns typed as
    strings: the cleaning step raises on it only if the generated dates are
    read with different UTC offsets, and not at all when dates are read
    without an offset.  The cleaning step leaves order id, customer id,
    product, category, region, quantity, unit price, discount and status of
    a generated row as generated (the lookup tables hold text the
    normalisation does not change, and the discounts lie in [0,1]), and it
    can salvage the row exactly when the date parses. *)
Theorem generated_batch_is_clean E ds :
  exists df,
    generate_dataframe E ds = Some df /\
    len df = Z.of_nat (List.length ds) /\
    (ds <> [] ->
     REQUIRED_COLUMNS ⊆ columns df /\ text_typed df = true /\
     forall P,
       cleanable P df = dates_of_one_zone P df /\
       ((forall h s, utc_offset P h s = None) -> cleanable P df = true)) /\
    forall r, In r (rows df) ->
      forall P,
        (forall c, c ∈ plain_columns -> clean_row P df r !! c = r !! c) /\
        salvageable P df r
        = notna (to_datetime_cell P (hint_of (rows df)) (at_col "order_date" r)).
Proof.
  destruct (mapM_generate_row E ds) as (rows & Hrows & Hall).
  unfold generate_dataframe. rewrite Hrows. cbn [mbind option_bind].
  eexists. split; [reflexivity|].
  assert (Hlen : List.length ds = List.length rows) by (eapply Forall2_length; eauto).
  split; [|split].
  - unfold len. destruct rows; cbn [Pandas.rows]; by rewrite Hlen.
  - intros Hne. destruct rows as [|r rows]; [by destruct ds|].
    set (df := mkFrame _ _).
    assert (Hreq : REQUIRED_COLUMNS ⊆ columns df).
    { apply (bool_decide_unpack _). subst df.
      destruct (discount_dtype_cases ds) as [-> | ->]; vm_compute; exact I. }
    assert (Htext : text_typed df = true).
    { subst df. destruct (discount_dtype_cases ds) as [-> | ->]; vm_compute; reflexivity. }
    split; [exact Hreq|]. split; [exact Htext|]. intros P.
    assert (Hc : cleanable P df = dates_of_one_zone P df).
    { unfold cleanable. rewrite Htext, bool_decide_eq_true_2 by done. reflexivity. }
    split; [exact Hc|]. intros Hno. rewrite Hc. by apply one_zone_no_offset.
  - intros r Hr.
    assert (In r rows) as Hin by (destruct rows; [done|exact Hr]).
    destruct rows as [|r1 rows1] eqn:Erows; [done|]. rewrite <- Erows in *.
    clear Hr. set (df := mkFrame _ _).
    destruct (generated_row E ds rows r Hall Hin) as [d Hd].
    destruct (generate_row_spec E d)
      as (product & category & region & status & discount & Hspec & Htxt & Hdc).
    rewrite Hspec in Hd. clear Hin Hspec.
    match type of Hd with Some ?x = Some _ => set (r0 := x) in * end.
    injection Hd as <-.
    assert (Lid : r0 !! "order_id" = Some (Str (order_uuid d))) by reflexivity.
    assert (Lcid : r0 !! "customer_id" = Some (Str (customer_uuid d))) by reflexivity.
    assert (Lprod : r0 !! "product" = Some (Str product)) by reflexivity.
    assert (Lcat : r0 !! "category" = Some (Str category)) by reflexivity.
    assert (Lreg : r0 !! "region" = Some (Str region)) by reflexivity.
    assert (Lq : r0 !! "quantity"
                 = Some (Num (inject_Z (randint 1 10 (quantity_draw d))))) by reflexivity.
    assert (Lp : r0 !! "unit_price"
                 = Some (Num (Numeric.py_round 2 (uniform 5 1500 (price_draw d)))))
      by reflexivity.
    assert (Ld : r0 !! "discount" = Some (Num discount)) by reflexivity.
    assert (Lst : r0 !! "status" = Some (Str status)) by reflexivity.
    assert (Sq : source_dtype df "quantity" = int64) by reflexivity.
    assert (Sp : source_dtype df "unit_price" = float64) by reflexivity.
    assert (Sd : source_dtype df "discount" = discount_dtype ds) by reflexivity.
    intros P. destruct (Htxt (unicode P)) as (Hp & Hc & Hrg & Hs).
    unfold salvageable, clean_row, coerced. split.
    + intros c Hcin. unfold plain_columns in Hcin. rewrite !elem_of_cons in Hcin.
      destruct Hcin as [->|[->|[->|[->|[->|[->|[->|[->|[->|Hcin]]]]]]]]];
        [..|by apply elem_of_nil in Hcin].
      * apply cleaned_order_id.
      * apply cleaned_customer_id.
      * rewrite cleaned_product, (at_col_Some _ _ _ Lprod), Lprod. cbn. by rewrite Hp.
      * rewrite cleaned_category, (at_col_Some _ _ _ Lcat), Lcat. cbn. by rewrite Hc.
      * rewrite cleaned_region, (at_col_Some _ _ _ Lreg), Lreg. cbn. by rewrite Hrg.
      * rewrite cleaned_quantity, (at_col_Some _ _ _ Lq), Lq, Sq. done.
      * rewrite cleaned_unit_price, (at_col_Some _ _ _ Lp), Lp, Sp. done.
      * rewrite cleaned_discount, (at_col_Some _ _ _ Ld), Ld, Sd.
        destruct (discount_dtype_cases ds) as [-> | ->]; cbn; by rewrite Hdc.
      * rewrite cleaned_status, (at_col_Some _ _ _ Lst), Lst. cbn. by rewrite Hs.
    + unfold complete, critical. cbn [forallb].
      rewrite coerce_row_order_id, coerce_row_order_date, coerce_row_quantity,
        coerce_row_unit_price.
      rewrite (at_col_Some _ _ _ Lid), (at_col_Some _ _ _ Lq), (at_col_Some _ _ _ Lp), Sq, Sp.
      cbn. by rewrite !andb_true_r.
Qed.

End Generated.

(* --------------------------------------------------------------------- *)
(** ** The endpoint validators *)
(* --------------------------------------------------------------------- *)

Section Endpoint.
Import Config.

Lemma rstrip_slashes_split s : exists n, s = (rstrip ["/"%char] s ++ slashes n)%string.
Proof.
  induction s as [|c s [n IH]]; [by exists 0%nat|]. simpl.
  destruct (bool_decide (c ∈ ["/"%char]) && Text.is_empty (rstrip ["/"%char] s)) eqn:E.
  - apply andb_true_iff in E as [Hc Ht]. apply bool_decide_eq_true in Hc.
    apply list_elem_of_singleton in Hc as ->.
    destruct (rstrip ["/"%char] s); [|done]. exists (S n).
    change (String "/" s = String "/" (slashes n)). f_equal. exact IH.
  - exists n. change (String c s = String c (rstrip ["/"%char] s ++ slashes n)%string).
    f_equal. exact IH.
Qed.

Lemma rstrip_no_slash s w : rstrip ["/"%char] s <> (w ++ "/")%string.
Proof.
  revert w. induction s as [|c s IH]; intros w; simpl; [by destruct w|].
  destruct (bool_decide (c ∈ ["/"%char]) && Text.is_empty (rstrip ["/"%char] s)) eqn:E;
    [by destruct w|].
  destruct w as [|d w]; simpl.
  - intros [= -> Ht]. rewrite Ht in E. by rewrite bool_decide_eq_true_2 in E by set_solver.
  - intros [= _ Ht]. by apply IH in Ht.
Qed.

Lemma rstrip_slashes_idem s : rstrip ["/"%char] (rstrip ["/"%char] s) = rstrip ["/"%char] s.
Proof.
  induction s as [|c s IH]; simpl; [done|].
  destruct (bool_decide (c ∈ ["/"%char]) && Text.is_empty (rstrip ["/"%char] s)) eqn:E;
    [done|].
  simpl. by rewrite IH, E.
Qed.

Lemma rstrip_only_slashes n : rstrip ["/"%char] (slashes n) = "".
Proof.
  induction n as [|n IH]; [done|]. cbn [slashes rstrip]. rewrite IH. reflexivity.
Qed.

(** X16. The two endpoint validators are the same function.  A value
    is refused exactly when it starts with neither "http://" nor
    "https://"; an accepted value comes back without its trailing slashes
    and with nothing else changed.  The scheme alone, "http://" with any
    number of slashes, is accepted and becomes "http:", a value the
    validator itself refuses. *)
Theorem endpoint_is_stripped_of_trailing_slashes v :
  validate_endpoint v = validate_minio_endpoint v /\
  match validate_minio_endpoint v with
  | inl _ => String.prefix "http://" v = false /\ String.prefix "https://" v = false
  | inr w =>
      (String.prefix "http://" v = true \/ String.prefix "https://" v = true) /\
      (exists n, v = (w ++ slashes n)%string) /\
      (forall w', w <> (w' ++ "/")%string) /\
      rstrip ["/"%char] w = w
  end /\
  (forall n, validate_minio_endpoint ("http://" ++ slashes n)%string = inr "http:" /\
             validate_minio_endpoint "http:" = inl EndpointScheme).
Proof.
  split; [reflexivity|]. split.
  - unfold validate_minio_endpoint.
    destruct (String.prefix "http://" v) eqn:E1, (String.prefix "https://" v) eqn:E2; simpl;
      try (split; [auto|]; split; [apply rstrip_slashes_split|];
           split; [apply rstrip_no_slash|apply rstrip_slashes_idem]).
    done.
  - intros n. split; [|reflexivity].
    change (("http://" ++ slashes n)%string)
      with (String "h" (String "t" (String "t" (String "p" (String ":" (slashes (S (S n)))))))).
    unfold validate_minio_endpoint.
    set (v0 := String "h" (String "t" (String "t" (String "p" (String ":" (slashes (S (S n)))))))).
    assert (String.prefix "http://" v0 = true) as -> by (subst v0; cbn; by destruct (slashes n)).
    subst v0. cbn [orb negb rstrip]. rewrite rstrip_only_slashes. reflexivity.
Qed.

End Endpoint.
Section DagRun.
Import Config Task S3 Tasks.

(* --------------------------------------------------------------------- *)
(** ** The order of a listing *)
(* --------------------------------------------------------------------- *)

Lemma string_leb_refl s : String.leb s s = true.
Proof. destruct (String.leb_total s s); done. Qed.

Lemma string_leb_trans s1 s2 s3 :
  String.leb s1 s2 = true -> String.leb s2 s3 = true -> String.leb s1 s3 = true.
Proof.
  unfold String.leb. revert s2 s3.
  induction s1 as [|a s1 IH]; intros [|b s2] [|c s3]; simpl; try done.
  unfold Ascii.compare.
  destruct (N.compare_spec (N_of_ascii a) (N_of_ascii b)) as [Hab|Hab|Hab];
    destruct (N.compare_spec (N_of_ascii b) (N_of_ascii c)) as [Hbc|Hbc|Hbc];
    try done.
  - rewrite Hab, Hbc, N.compare_refl. apply IH.
  - rewrite Hab. by rewrite (proj2 (N.compare_lt_iff _ _) Hbc).
  - rewrite <- Hbc. by rewrite (proj2 (N.compare_lt_iff _ _) Hab).
  - by rewrite (proj2 (N.compare_lt_iff _ _) (N.lt_trans _ _ _ Hab Hbc)).
Qed.

Lemma insert_sorted_perm k ks : Permutation (insert_sorted k ks) (k :: ks).
Proof.
  induction ks as [|k' ks IH]; simpl; [done|].
  destruct (String.leb k k'); [done|]. rewrite IH. apply perm_swap.
Qed.

Lemma sorted_perm ks : Permutation (fold_right insert_sorted [] ks) ks.
Proof. induction ks as [|k ks IH]; simpl; [done|]. by rewrite insert_sorted_perm, IH. Qed.

Lemma keys_perm b : Permutation (keys b) (map fst (map_to_list b)).
Proof. apply sorted_perm. Qed.

Lemma elem_of_keys b k : k ∈ keys b <-> is_Some (b !! k).
Proof.
  rewrite keys_perm. split.
  - intros Hin. apply list_elem_of_In, in_map_iff in Hin as ([k' v] & <- & Hin).
    apply list_elem_of_In, elem_of_map_to_list in Hin. simpl. eauto.
  - intros [v Hv]. apply list_elem_of_In, in_map_iff. exists (k, v). split; [done|].
    by apply list_elem_of_In, elem_of_map_to_list.
Qed.

(** The first key of a sorted list is the least. *)
Lemma insert_sorted_head k ks h :
  (forall x, x ∈ ks -> forall h0, head ks = Some h0 -> String.leb h0 x = true) ->
  head (insert_sorted k ks) = Some h ->
  forall x, x ∈ k :: ks -> String.leb h x = true.
Proof.
  intros Hmin. destruct ks as [|k' ks]; simpl.
  - intros [= <-] x ->%list_elem_of_singleton. apply string_leb_refl.
  - destruct (String.leb k k') eqn:E; simpl; intros [= <-] x Hx.
    + apply elem_of_cons in Hx as [->|Hx]; [apply string_leb_refl|].
      eapply string_leb_trans; [exact E|]. by apply (Hmin x Hx).
    + apply elem_of_cons in Hx as [->|Hx]; [|by apply (Hmin x Hx)].
      destruct (String.leb_total k' k); [done|congruence].
Qed.

Lemma sorted_head ks h :
  head (fold_right insert_sorted [] ks) = Some h ->
  forall x, x ∈ ks -> String.leb h x = true.
Proof.
  revert h. induction ks as [|k ks IH]; intros h; simpl; [done|].
  intros Hh x Hx. eapply insert_sorted_head; [|exact Hh|].
  - intros y Hy h0 Hh0. apply IH; [done|]. by rewrite sorted_perm in Hy.
  - apply elem_of_cons in Hx as [->|Hx]; [by left|right]. by rewrite sorted_perm.
Qed.

Lemma keys_head b h :
  head (keys b) = Some h ->
  is_Some (b !! h) /\ forall k, is_Some (b !! k) -> String.leb h k = true.
Proof.
  intros Hh. split.
  - apply elem_of_keys. destruct (keys b); [done|]. injection Hh as ->. by left.
  - intros k Hk. unfold keys in Hh. eapply sorted_head; [exact Hh|].
    rewrite <- keys_perm. by apply elem_of_keys.
Qed.

Lemma keys_empty b : keys b = [] <-> b = ∅.
Proof.
  split.
  - intros H. apply map_empty. intros k. apply eq_None_not_Some.
    rewrite <- elem_of_keys, H. apply not_elem_of_nil.
  - intros ->. reflexivity.
Qed.

(* --------------------------------------------------------------------- *)
(** ** The download *)
(* --------------------------------------------------------------------- *)

Lemma list_pending_files {DB} settings (w : world DB) b :
  minio w !! minio_raw_bucket settings = Some b ->
  _list_pending_files settings w = (w, Done (take 1000 (keys b))).
Proof.
  intros Hb. unfold _list_pending_files, mbind, task_bind, bind, ask, list_objects_v2.
  rewrite Hb. by destruct (take 1000 (keys b)).
Qed.

Lemma download_from_minio_first {DB} settings tmp (w : world DB) b key body :
  minio w !! minio_raw_bucket settings = Some b ->
  head (keys b) = Some key -> b !! key = Some body ->
  download_from_minio settings tmp w
  = (mkWorld (minio w) (<[tmp := body]> (disk w)) (postgres w), Done (key, tmp)).
Proof.
  intros Hb Hh Hk. unfold download_from_minio, mbind, task_bind, bind.
  rewrite (list_pending_files settings w b Hb).
  destruct (keys b) as [|k ks]; [done|]. injection Hh as ->. cbn [take].
  unfold write_file, ask, download_fileobj. cbn. rewrite Hb. cbn. rewrite Hk.
  unfold mret, task_ret, ret. by rewrite insert_insert_eq.
Qed.

(** X17. With no object in the raw bucket [download_from_minio] raises
    "No files found" and changes nothing.  Otherwise it takes the object
    whose key comes first in code point order, writes its body to the
    temporary file, and pushes the key and the file's path; the object
    store and the database are as they were. *)
Theorem download_takes_the_first_key {DB} settings tmp_name (w : world DB) b :
  minio w !! minio_raw_bucket settings = Some b ->
  (b = ∅ -> download_from_minio settings tmp_name w = (w, Failed NoFilesFound)) /\
  (b <> ∅ ->
   exists object_key body,
     b !! object_key = Some body /\
     (forall k, is_Some (b !! k) -> String.leb object_key k = true) /\
     download_from_minio settings tmp_name w
     = (mkWorld (minio w) (<[tmp_name := body]> (disk w)) (postgres w),
        Done (object_key, tmp_name))).
Proof.
  intros Hb. split.
  - intros ->. unfold download_from_minio, mbind, task_bind, bind.
    by rewrite (list_pending_files settings w ∅ Hb).
  - intros Hne. destruct (keys b) as [|key ks] eqn:Ek; [by apply (proj1 (keys_empty b)) in Ek|].
    assert (Hh : head (keys b) = Some key) by (by rewrite Ek).
    destruct (keys_head b key Hh) as [[body Hbody] Hmin].
    exists key, body. split; [done|]. split; [done|].
    by apply (download_from_minio_first settings tmp_name w b).
Qed.

Lemma download_from_minio_inv {DB} settings tmp (w w' : world DB) r :
  download_from_minio settings tmp w = (w', r) ->
  minio w' = minio w /\ postgres w' = postgres w /\
  forall key path, r = Done (key, path) ->
    path = tmp /\
    exists b body,
      minio w !! minio_raw_bucket settings = Some b /\ b !! key = Some body /\
      (forall k, is_Some (b !! k) -> String.leb key k = true) /\
      disk w' = <[tmp := body]> (disk w).
Proof.
  destruct (minio w !! minio_raw_bucket settings) as [b|] eqn:Hb.
  - destruct (decide (b = ∅)) as [->|Hne].
    + unfold download_from_minio, mbind, task_bind, bind.
      rewrite (list_pending_files settings w ∅ Hb). cbn. intros [= <- <-]. done.
    + destruct (keys b) as [|key ks] eqn:Ek; [by apply (proj1 (keys_empty b)) in Ek|].
      assert (Hh : head (keys b) = Some key) by (by rewrite Ek).
      destruct (keys_head b key Hh) as [[body Hbody] Hmin].
      rewrite (download_from_minio_first settings tmp w b key body) by done.
      intros [= <- <-]. cbn. split; [done|]. split; [done|].
      intros ? ? [= <- <-]. split; [done|]. eauto 10.
  - unfold download_from_minio, _list_pending_files, mbind, task_bind, bind, ask,
      list_objects_v2. rewrite Hb. intros [= <- <-]. done.
Qed.

(* --------------------------------------------------------------------- *)
(** ** The archive *)
(* --------------------------------------------------------------------- *)

(** The archive task, request by request. *)
Lemma archive_file_steps {DB} settings R key local_path cleaned_path (w : world DB) :
  archive_file settings R key local_path cleaned_path w
  = match copy_object (copy_refused R) (minio_processed_bucket settings)
            (minio_raw_bucket settings) key (minio w) with
    | Failed e => (w, Failed e)
    | Done s1 =>
        match delete_object (delete_refused R) (minio_raw_bucket settings) key s1 with
        | Failed e => (mkWorld s1 (disk w) (postgres w), Failed e)
        | Done s2 =>
            (mkWorld s2 (delete cleaned_path (delete local_path (disk w))) (postgres w),
             Done tt)
        end
    end.
Proof.
  unfold archive_file, mbind, task_bind, bind, tell.
  destruct (copy_object _ _ _ _ _) as [s1|e]; [|done]. cbn [minio disk postgres].
  destruct (delete_object _ _ _ _) as [s2|e]; done.
Qed.

Lemma copy_object_served to from key (s : store) raw processed body :
  s !! from = Some raw -> s !! to = Some processed -> raw !! key = Some body ->
  copy_object None to from key s = Done (<[to := <[key := body]> processed]> s).
Proof. intros Hraw Hproc Hkey. unfold copy_object. by rewrite Hraw, Hkey, Hproc. Qed.

(** A copy that is served leaves the source bucket with the objects it
    had. *)
Lemma copy_object_source refused to from key (s s1 : store) :
  copy_object refused to from key s = Done s1 ->
  refused = None /\
  exists raw processed body,
    s !! from = Some raw /\ s !! to = Some processed /\ raw !! key = Some body /\
    s1 = <[to := <[key := body]> processed]> s /\
    s1 !! from = Some raw.
Proof.
  unfold copy_object. destruct refused; [done|].
  destruct (s !! from) as [raw|] eqn:Hraw; [|done].
  destruct (raw !! key) as [body|] eqn:Hkey; [|done].
  destruct (s !! to) as [processed|] eqn:Hproc; [|done].
  intros [= <-]. split; [done|]. exists raw, processed, body.
  split; [done|]. split; [done|]. split; [done|]. split; [done|].
  unfold store, bucket in *.
  destruct (decide (from = to)) as [->|Hne].
  - rewrite lookup_insert_eq. f_equal. rewrite Hraw in Hproc. injection Hproc as <-.
    by apply insert_id.
  - by rewrite lookup_insert_ne.
Qed.

Lemma copy_object_failed refused to from key (s : store) e :
  copy_object refused to from key s = Failed e ->
  refused = Some e \/
  (refused = None /\
   (s !! from ≫= (fun b => b !! key) = None \/ s !! to = None)).
Proof.
  unfold copy_object. destruct refused; [intros [= ->]; by left|]. right. split; [done|].
  destruct (s !! from) as [raw|] eqn:Hraw; [|by left]. cbn.
  destruct (raw !! key) as [body|] eqn:Hkey; [|by left].
  destruct (s !! to) as [processed|] eqn:Hproc; [done|by right].
Qed.

Lemma archive_file_moves {DB} settings R key local_path cleaned_path (w : world DB)
      raw processed body :
  copy_refused R = None -> delete_refused R = None ->
  minio w !! minio_raw_bucket settings = Some raw ->
  minio w !! minio_processed_bucket settings = Some processed ->
  raw !! key = Some body ->
  archive_file settings R key local_path cleaned_path w
  = (mkWorld
       (let s := <[minio_processed_bucket settings := <[key := body]> processed]> (minio w) in
        <[minio_raw_bucket settings :=
            delete key (default ∅ (s !! minio_raw_bucket settings))]> s)
       (delete cleaned_path (delete local_path (disk w)))
       (postgres w),
     Done tt).
Proof.
  intros Hc Hd Hraw Hproc Hkey.
  rewrite archive_file_steps, Hc, Hd.
  rewrite (copy_object_served _ _ _ _ raw processed body) by done.
  unfold delete_object.
  destruct (decide (minio_raw_bucket settings = minio_processed_bucket settings)) as [E|E].
  - rewrite <- E. unfold store, bucket in *. rewrite lookup_insert_eq. cbn. reflexivity.
  - unfold store, bucket in *. rewrite lookup_insert_ne by done. rewrite Hraw. cbn. reflexivity.
Qed.

Lemma archive_file_done {DB} settings R key local_path cleaned_path (w w' : world DB) :
  archive_file settings R key local_path cleaned_path w = (w', Done tt) ->
  copy_refused R = None /\ delete_refused R = None /\
  exists raw processed body,
    minio w !! minio_raw_bucket settings = Some raw /\
    minio w !! minio_processed_bucket settings = Some processed /\
    raw !! key = Some body.
Proof.
  rewrite archive_file_steps.
  destruct (copy_object _ _ _ _ _) as [s1|e] eqn:Ec; [|done].
  apply copy_object_source in Ec as (Hc & raw & processed & body & ? & ? & ? & _ & _).
  unfold delete_object. destruct (delete_refused R); [done|]. intros _.
  split; [done|]. split; [done|]. eauto 10.
Qed.

(** X18. When the service serves both requests, the two buckets differ
    and the object is in the raw bucket, [archive_file] returns;
    afterwards the processed bucket holds the object's body under the same
    key, the raw bucket no longer has the key, every other object and
    bucket is as it was, and both temporary files are gone. *)
Theorem archive_moves_the_object {DB} settings R object_key local_path cleaned_path
        (w : world DB) raw processed body :
  copy_refused R = None -> delete_refused R = None ->
  minio_raw_bucket settings <> minio_processed_bucket settings ->
  minio w !! minio_raw_bucket settings = Some raw ->
  minio w !! minio_processed_bucket settings = Some processed ->
  raw !! object_key = Some body ->
  exists w',
    archive_file settings R object_key local_path cleaned_path w = (w', Done tt) /\
    minio w' !! minio_processed_bucket settings = Some (<[object_key := body]> processed) /\
    minio w' !! minio_raw_bucket settings = Some (delete object_key raw) /\
    (forall name, name <> minio_raw_bucket settings ->
                  name <> minio_processed_bucket settings ->
                  minio w' !! name = minio w !! name) /\
    disk w' = delete cleaned_path (delete local_path (disk w)) /\
    postgres w' = postgres w.
Proof.
  intros Hc Hd Hne Hraw Hproc Hkey. eexists. split; [by eapply archive_file_moves|].
  cbn [minio disk postgres]. unfold store, bucket in *.
  rewrite (lookup_insert_ne _ (minio_processed_bucket settings)) by done.
  rewrite Hraw. cbn. split; [|split; [|split]].
  - rewrite lookup_insert_ne by done. by rewrite lookup_insert_eq.
  - by rewrite lookup_insert_eq.
  - intros name H1 H2. by rewrite !lookup_insert_ne by done.
  - done.
Qed.

(** What a failed archive leaves. *)
Lemma archive_file_failed {DB} settings R key local_path cleaned_path (w w' : world DB) e :
  archive_file settings R key local_path cleaned_path w = (w', Failed e) ->
  disk w' = disk w /\ postgres w' = postgres w /\
  minio w' !! minio_raw_bucket settings = minio w !! minio_raw_bucket settings /\
  ((w' = w /\
    (copy_refused R = Some e \/
     (copy_refused R = None /\
      (minio w !! minio_raw_bucket settings ≫= (fun b => b !! key) = None \/
       minio w !! minio_processed_bucket settings = None)))) \/
   (copy_refused R = None /\ delete_refused R = Some e /\
    exists raw processed body,
      minio w !! minio_raw_bucket settings = Some raw /\
      minio w !! minio_processed_bucket settings = Some processed /\
      raw !! key = Some body /\
      minio w' = <[minio_processed_bucket settings := <[key := body]> processed]> (minio w))).
Proof.
  rewrite archive_file_steps.
  destruct (copy_object _ _ _ _ _) as [s1|e1] eqn:Ec.
  - apply copy_object_source in Ec
      as (Hc & raw & processed & body & Hraw & Hproc & Hkey & -> & Hraw1).
    unfold delete_object. destruct (delete_refused R) as [e2|] eqn:Ed.
    + intros [= <- <-]. cbn [minio disk postgres]. split; [done|]. split; [done|].
      split; [by rewrite Hraw1, Hraw|]. right. split; [done|]. split; [done|]. eauto 10.
    + unfold store, bucket in *. by rewrite Hraw1.
  - intros [= <- <-]. split; [done|]. split; [done|]. split; [done|]. left.
    split; [done|]. by apply copy_object_failed in Ec.
Qed.

(** X19. [archive_file] never deletes an object it has not copied, but
    it is not all or nothing: the copy and the delete are two requests.
    When it fails, the temporary files, the database and the raw bucket
    are as they were, so the object is still pending; either the copy has
    failed, because it was refused or the object or a bucket is missing,
    and nothing has changed, or the copy was served and the delete was
    refused, and the object is now in both buckets.  When it returns, both
    requests were served, the raw bucket has lost the key, and the
    processed bucket holds the body if the two buckets differ. *)
Theorem archive_never_loses_the_object {DB} settings R object_key local_path cleaned_path
        (w w' : world DB) r :
  archive_file settings R object_key local_path cleaned_path w = (w', r) ->
  match r with
  | Failed e =>
      disk w' = disk w /\ postgres w' = postgres w /\
      minio w' !! minio_raw_bucket settings = minio w !! minio_raw_bucket settings /\
      ((w' = w /\
        (copy_refused R = Some e \/
         (copy_refused R = None /\
          (minio w !! minio_raw_bucket settings ≫= (fun b => b !! object_key) = None \/
           minio w !! minio_processed_bucket settings = None)))) \/
       (copy_refused R = None /\ delete_refused R = Some e /\
        exists raw processed body,
          minio w !! minio_raw_bucket settings = Some raw /\
          minio w !! minio_processed_bucket settings = Some processed /\
          raw !! object_key = Some body /\
          minio w'
          = <[minio_processed_bucket settings := <[object_key := body]> processed]>
              (minio w)))
  | Done _ =>
      copy_refused R = None /\ delete_refused R = None /\
      exists raw body,
        minio w !! minio_raw_bucket settings = Some raw /\ raw !! object_key = Some body /\
        (exists b, minio w' !! minio_raw_bucket settings = Some b /\ b !! object_key = None) /\
        (minio_raw_bucket settings <> minio_processed_bucket settings ->
         exists b, minio w' !! minio_processed_bucket settings = Some b /\
                   b !! object_key = Some body)
  end.
Proof.
  destruct r as [[]|e]; [|apply archive_file_failed].
  intros H.
  destruct (archive_file_done _ _ _ _ _ _ _ H)
    as (Hc & Hd & raw & processed & body & Hraw & Hproc & Hkey).
  rewrite (archive_file_moves settings R object_key local_path cleaned_path w
             raw processed body) in H by done.
  injection H as <-. split; [done|]. split; [done|].
  exists raw, body. split; [done|]. split; [done|]. cbn [minio].
  unfold store, bucket in *. split.
  - eexists. split; [apply lookup_insert_eq|]. apply lookup_delete_eq.
  - intros Hne. rewrite lookup_insert_ne by done. rewrite lookup_insert_eq.
    eexists. split; [done|]. apply lookup_insert_eq.
Qed.

(* --------------------------------------------------------------------- *)
(** ** One run of the DAG *)
(* --------------------------------------------------------------------- *)

Ltac stopped :=
  intros [= <- <-]; repeat (split; try done); try (intros; discriminate).

Lemma validate_csv_task_inv {DB} F path (w w' : world DB) r :
  validate_csv_task F path w = (w', r) ->
  w' = w /\
  (r = Done tt ->
   exists data df,
     disk w !! path = Some data /\ read_csv F data = Done df /\
     Dag.validate_csv df = Return tt).
Proof.
  unfold validate_csv_task, mbind, task_bind, bind, read_file, lift.
  destruct (disk w !! path) as [data|] eqn:Hdata; [|stopped].
  destruct (read_csv F data) as [df|e] eqn:Hcsv; [|stopped].
  intros [= <- <-]. split; [done|]. intros Hr. exists data, df. split; [done|]. split; [done|].
  destruct (Dag.validate_csv df) as [[]|e]; done.
Qed.

Lemma transform_data_inv {DB} F P path (w w' : world DB) r :
  transform_data F P path w = (w', r) ->
  minio w' = minio w /\ postgres w' = postgres w /\
  forall cleaned_path rows_skipped, r = Done (cleaned_path, rows_skipped) ->
    cleaned_path = replace ".csv" "_cleaned.parquet" path /\
    exists data df out parquet,
      disk w !! path = Some data /\ read_csv F data = Done df /\
      Transformations.clean_and_transform P df = Return (out, rows_skipped) /\
      to_parquet F out = Done parquet /\
      disk w' = <[cleaned_path := parquet]> (disk w).
Proof.
  unfold transform_data, mbind, task_bind, bind, read_file, lift.
  destruct (disk w !! path) as [data|] eqn:Hdata; [|stopped].
  destruct (read_csv F data) as [df|e] eqn:Hcsv; [|stopped].
  destruct (Transformations.clean_and_transform P df) as [[out k]|e] eqn:Ec;
    cbn; [|stopped].
  destruct (to_parquet F out) as [parquet|e] eqn:Hpar; [|stopped].
  unfold write_file, mret, task_ret, ret. cbn. intros [= <- <-]. cbn.
  split; [done|]. split; [done|]. intros ? ? [= <- <-]. split; [done|].
  exists data, df, out, parquet. done.
Qed.

Lemma load_to_postgres_raise {DB} (S : Server DB) df k key run db db' e :
  Dag.load_to_postgres S df k key run db = (db', Raise e) -> db' = db.
Proof.
  unfold Dag.load_to_postgres.
  destruct (Transformations.build_product_aggregations df) as [agg|e0];
    [|by intros [= <- _]].
  apply get_connection_raise, keeps_load_block.
Qed.

Lemma load_task_inv {DB} F (S : Server DB) path k key run (w w' : world DB) r :
  load_task F S path k key run w = (w', r) ->
  minio w' = minio w /\ disk w' = disk w /\
  match r with
  | Failed _ => postgres w' = postgres w
  | Done _ =>
      exists data df,
        disk w !! path = Some data /\ read_parquet F data = Done df /\
        Dag.load_to_postgres S df k key run (postgres w) = (postgres w', Return tt)
  end.
Proof.
  unfold load_task, mbind, task_bind, bind, read_file, lift.
  destruct (disk w !! path) as [data|] eqn:Hdata; [|stopped].
  destruct (read_parquet F data) as [df|e] eqn:Hrp; [|stopped].
  unfold on_database.
  destruct (Dag.load_to_postgres S df k key run (postgres w)) as [db [[]|e]] eqn:El;
    intros [= <- <-]; cbn.
  - split; [done|]. split; [done|]. exists data, df. done.
  - split; [done|]. split; [done|]. by apply load_to_postgres_raise in El.
Qed.

(** X20. A run of the DAG that fails leaves the raw bucket as it was:
    the file is still pending.  When the failure is in one of the first
    four tasks, the object store and the database are as they were and
    nothing of the file is loaded.  When it is in the archive task, the
    load has been committed before: the database holds the batch, the file
    is still pending, and the object is in the processed bucket as well if
    the copy was served. *)
Theorem failed_run_leaves_the_file_pending {DB} settings F P (S : Server DB) R
        tmp_name dag_run_id (w w' : world DB) e :
  dag_run settings F P S R tmp_name dag_run_id w = (w', Failed e) ->
  minio w' !! minio_raw_bucket settings = minio w !! minio_raw_bucket settings /\
  ((minio w' = minio w /\ postgres w' = postgres w) \/
   (exists raw object_key body df rows_skipped,
      minio w !! minio_raw_bucket settings = Some raw /\
      raw !! object_key = Some body /\
      Dag.load_to_postgres S df rows_skipped object_key dag_run_id (postgres w)
      = (postgres w', Return tt) /\
      ((minio w' = minio w /\
        (copy_refused R = Some e \/
         (copy_refused R = None /\ minio w !! minio_processed_bucket settings = None))) \/
       (copy_refused R = None /\ delete_refused R = Some e /\
        exists processed,
          minio w !! minio_processed_bucket settings = Some processed /\
          minio w'
          = <[minio_processed_bucket settings := <[object_key := body]> processed]>
              (minio w))))).
Proof.
  unfold dag_run. unfold mbind at 1. unfold task_bind, bind at 1.
  destruct (download_from_minio settings tmp_name w) as [w1 [[key lp]|e1]] eqn:E1.
  2:{ apply download_from_minio_inv in E1 as (? & ? & _). intros [= <- _].
      split; [congruence|by left]. }
  apply download_from_minio_inv in E1 as (Hm1 & Hp1 & H1).
  destruct (H1 key lp eq_refl) as (-> & raw & body & Hraw & Hkey & _ & Hd1).
  unfold mbind at 1. unfold task_bind, bind at 1.
  destruct (validate_csv_task F tmp_name w1) as [w2 [[]|e2]] eqn:E2.
  2:{ apply validate_csv_task_inv in E2 as [-> _]. intros [= <- _].
      split; [congruence|by left]. }
  apply validate_csv_task_inv in E2 as [-> _].
  unfold mbind at 1. unfold task_bind, bind at 1.
  destruct (transform_data F P tmp_name w1) as [w3 [[cp k]|e3]] eqn:E3.
  2:{ apply transform_data_inv in E3 as (? & ? & _). intros [= <- _].
      split; [congruence|left; split; congruence]. }
  apply transform_data_inv in E3 as (Hm3 & Hp3 & _).
  unfold mbind at 1. unfold task_bind, bind at 1.
  destruct (load_task F S cp k key dag_run_id w3) as [w4 [[]|e4]] eqn:E4.
  2:{ apply load_task_inv in E4 as (? & ? & ?). intros [= <- _].
      split; [congruence|left; split; congruence]. }
  apply load_task_inv in E4 as (Hm4 & _ & data & df & _ & _ & Hload).
  assert (Hm : minio w4 = minio w) by congruence.
  assert (Hp : postgres w3 = postgres w) by congruence.
  intros Harch. apply archive_file_failed in Harch as (_ & Hpw & Hraw' & Hcases).
  rewrite Hm in Hraw'. split; [exact Hraw'|]. right.
  exists raw, key, body, df, k. split; [done|]. split; [done|].
  split; [by rewrite Hpw, <- Hp|].
  destruct Hcases as [[-> Hcopy]|(Hc & Hd & raw' & processed & body' & Hr & Hpr & Hk & Hw')].
  - left. split; [done|]. destruct Hcopy as [Hcopy|[Hc [Hmiss|Hmiss]]].
    + by left.
    + rewrite Hm, Hraw in Hmiss. cbn in Hmiss. congruence.
    + right. split; [done|]. by rewrite <- Hm.
  - right. split; [done|]. split; [done|]. rewrite Hm in Hr, Hpr, Hw'.
    exists processed. split; [done|]. rewrite Hw'.
    assert (raw' = raw) as -> by congruence. congruence.
Qed.

(** X21. A run of the DAG that succeeds has taken the first pending
    object, validated and cleaned what [pd.read_csv] makes of it, loaded
    what [pd.read_parquet] reads back from the cleaned file with the
    rows_skipped of the cleaning and the object's key, moved the object to
    the processed bucket, and removed both temporary files. *)
Theorem successful_run_loads_and_archives {DB} settings F P (S : Server DB) R
        tmp_name dag_run_id (w w' : world DB) :
  minio_raw_bucket settings <> minio_processed_bucket settings ->
  dag_run settings F P S R tmp_name dag_run_id w = (w', Done tt) ->
  exists raw processed object_key body df out rows_skipped parquet df',
    minio w !! minio_raw_bucket settings = Some raw /\
    minio w !! minio_processed_bucket settings = Some processed /\
    raw !! object_key = Some body /\
    (forall k, is_Some (raw !! k) -> String.leb object_key k = true) /\
    read_csv F body = Done df /\
    Dag.validate_csv df = Return tt /\
    Transformations.clean_and_transform P df = Return (out, rows_skipped) /\
    to_parquet F out = Done parquet /\
    read_parquet F parquet = Done df' /\
    Dag.load_to_postgres S df' rows_skipped object_key dag_run_id (postgres w)
    = (postgres w', Return tt) /\
    minio w' !! minio_raw_bucket settings = Some (delete object_key raw) /\
    minio w' !! minio_processed_bucket settings = Some (<[object_key := body]> processed) /\
    disk w' = delete (replace ".csv" "_cleaned.parquet" tmp_name) (delete tmp_name (disk w)).
Proof.
  intros Hne. unfold dag_run. unfold mbind at 1. unfold task_bind, bind at 1.
  destruct (download_from_minio settings tmp_name w) as [w1 [[key lp]|e1]] eqn:E1; [|done].
  apply download_from_minio_inv in E1 as (Hm1 & Hp1 & H1).
  destruct (H1 key lp eq_refl) as (-> & raw & body & Hraw & Hkey & Hmin & Hd1).
  unfold mbind at 1. unfold task_bind, bind at 1.
  destruct (validate_csv_task F tmp_name w1) as [w2 [[]|e2]] eqn:E2; [|done].
  apply validate_csv_task_inv in E2 as [-> H2].
  destruct (H2 eq_refl) as (data & df & Hdata & Hcsv & Hval).
  rewrite Hd1, lookup_insert_eq in Hdata. injection Hdata as <-.
  unfold mbind at 1. unfold task_bind, bind at 1.
  destruct (transform_data F P tmp_name w1) as [w3 [[cp k]|e3]] eqn:E3; [|done].
  apply transform_data_inv in E3 as (Hm3 & Hp3 & H3).
  destruct (H3 cp k eq_refl) as (-> & data & df2 & out & parquet & Hdata & Hcsv2 & Hclean & Hpar & Hd3).
  rewrite Hd1, lookup_insert_eq in Hdata. injection Hdata as <-.
  rewrite Hcsv in Hcsv2. injection Hcsv2 as <-.
  set (cp := replace ".csv" "_cleaned.parquet" tmp_name) in *.
  unfold mbind at 1. unfold task_bind, bind at 1.
  destruct (load_task F S cp k key dag_run_id w3) as [w4 [[]|e4]] eqn:E4; [|done].
  apply load_task_inv in E4 as (Hm4 & Hd4 & data & df' & Hdata & Hrp & Hload).
  rewrite Hd3, lookup_insert_eq in Hdata. injection Hdata as <-.
  intros Harch.
  destruct (archive_file_done _ _ _ _ _ _ _ Harch)
    as (Hcr & Hdr & raw' & processed & body' & Hraw' & Hproc & _).
  assert (Hraw4 : minio w4 !! minio_raw_bucket settings = Some raw) by congruence.
  rewrite (archive_file_moves settings R key tmp_name cp w4 raw processed body) in Harch
    by done.
  injection Harch as <-. cbn [minio disk postgres]. unfold store, bucket in *.
  rewrite (lookup_insert_ne _ (minio_processed_bucket settings)) by done.
  rewrite Hraw4. cbn [default from_option].
  exists raw, processed, key, body, df, out, k, parquet, df'.
  split; [done|]. split; [congruence|]. split; [done|]. split; [done|].
  split; [done|]. split; [done|]. split; [done|]. split; [done|]. split; [done|].
  split; [rewrite <- Hp1, <- Hp3; exact Hload|].
  split; [by rewrite lookup_insert_eq|].
  split; [rewrite lookup_insert_ne by done; by rewrite lookup_insert_eq|].
  rewrite Hd4, Hd3, Hd1.
  apply map_eq. intros p.
  destruct (decide (p = cp)) as [->|Hp]; [by rewrite !lookup_delete_eq|].
  rewrite !(lookup_delete_ne _ cp) by done.
  destruct (decide (p = tmp_name)) as [->|Hp2]; [by rewrite !lookup_delete_eq|].
  rewrite !lookup_delete_ne by done. by rewrite !lookup_insert_ne by done.
Qed.

(* --------------------------------------------------------------------- *)
(** ** From the generator to the DAG *)
(* --------------------------------------------------------------------- *)

(** X22. [upload_to_minio] never returns the object key: after the
    upload it raises ValueError, because the transfer has closed the buffer
    it asks the size of.  With the raw bucket in place the object is
    written all the same, under the key "sales_<timestamp>.csv": the key
    depends on the timestamp alone, a second upload with the same timestamp
    replaces the first, and when no object of the bucket has a key before
    the new one, the next [download_from_minio] takes the upload and writes
    the CSV text to the temporary file.  Without the raw bucket nothing is
    written. *)
Theorem upload_raises_after_writing {DB} to_csv settings timestamp tmp_name df
        (w : world DB) b :
  minio w !! minio_raw_bucket settings = Some b ->
  let object_key := ("sales_" ++ timestamp ++ ".csv")%string in
  let uploaded body :=
    mkWorld (<[minio_raw_bucket settings := <[object_key := body]> b]> (minio w))
            (disk w) (postgres w) in
  Generator.upload_to_minio to_csv settings timestamp df w
  = (uploaded (to_csv df), Failed (Exn (ValueError ClosedFile))) /\
  (forall df2,
     Generator.upload_to_minio to_csv settings timestamp df2 (uploaded (to_csv df))
     = (uploaded (to_csv df2), Failed (Exn (ValueError ClosedFile)))) /\
  ((forall k, is_Some (b !! k) -> String.leb object_key k = true) ->
   download_from_minio settings tmp_name (uploaded (to_csv df))
   = (mkWorld (minio (uploaded (to_csv df))) (<[tmp_name := to_csv df]> (disk w)) (postgres w),
      Done (object_key, tmp_name))) /\
  (forall w0 : world DB,
     (exists w1 e, Generator.upload_to_minio to_csv settings timestamp df w0
                   = (w1, Failed e)) /\
     (minio w0 !! minio_raw_bucket settings = None ->
      Generator.upload_to_minio to_csv settings timestamp df w0
      = (w0, Failed (ClientError "NoSuchBucket")))).
Proof.
  intros Hb object_key uploaded.
  assert (Hup : forall body, minio (uploaded body) !! minio_raw_bucket settings
                             = Some (<[object_key := body]> b)).
  { intros body. unfold uploaded. simpl. unfold store, bucket in *.
    by rewrite lookup_insert_eq. }
  split; [|split; [|split]].
  - unfold Generator.upload_to_minio, mbind, task_bind, bind, tell, upload_fileobj.
    fold object_key. by rewrite Hb.
  - intros df2.
    unfold Generator.upload_to_minio, mbind, task_bind, bind, tell, upload_fileobj.
    fold object_key. rewrite (Hup (to_csv df)).
    unfold uploaded. simpl. unfold store, bucket in *.
    by rewrite !insert_insert_eq.
  - intros Hmin.
    assert (Hk : <[object_key := to_csv df]> b !! object_key = Some (to_csv df)).
    { unfold bucket in *. by rewrite lookup_insert_eq. }
    destruct (keys (<[object_key := to_csv df]> b)) as [|h ks] eqn:Ek.
    { apply (proj1 (keys_empty _)) in Ek.
      rewrite Ek in Hk. unfold bucket in *. by rewrite lookup_empty in Hk. }
    assert (Hh : head (keys (<[object_key := to_csv df]> b)) = Some h) by (by rewrite Ek).
    destruct (keys_head _ _ Hh) as [Hin Hle].
    assert (h = object_key) as ->.
    { apply String.leb_antisym.
      - apply Hle. by rewrite Hk.
      - destruct (decide (h = object_key)) as [->|Hne]; [apply string_leb_refl|].
        apply Hmin. unfold bucket in *. by rewrite lookup_insert_ne in Hin. }
    exact (download_from_minio_first settings tmp_name (uploaded (to_csv df)) _ _ _
             (Hup (to_csv df)) Hh Hk).
  - intros w0.
    unfold Generator.upload_to_minio, mbind, task_bind, bind, tell, upload_fileobj.
    fold object_key.
    destruct (minio w0 !! minio_raw_bucket settings) as [b0|]; [|eauto].
    split; [|done]. cbn. eauto.
Qed.

End DagRun.
(* --------------------------------------------------------------------- *)
(** ** The properties at concrete batches and runs *)
(* --------------------------------------------------------------------- *)

(** The unit-test batch is cleaned into two rows, one row skipped. *)
Lemma test_batch_cleaned_of :
  clean_and_transform Iso.coercions test_batch = Return (cleaned_of test_batch, 1).
Proof. vm_compute. reflexivity. Defined.

(** The cleaned unit-test batch: one row for ord-001, every row with an
    identifier and a date. *)
Lemma cleaned_batch_is_well_formed_witness :
  clean_and_transform Iso.coercions test_batch = Return (cleaned_of test_batch, 1) /\
  (List.length (with_id (Str "ord-001") (rows (cleaned_of test_batch))) <= 1)%nat /\
  forall r, In r (rows (cleaned_of test_batch)) ->
    notna (at_col "order_id" r) = true /\ exists d, at_col "order_date" r = Day d.
Proof.
  split; [exact test_batch_cleaned_of|].
  destruct (cleaned_batch_is_well_formed _ _ _ _ test_batch_cleaned_of) as [Hone Hrow].
  split; [apply Hone|]. intros r Hr. destruct (Hrow r Hr) as (r0 & _ & Hid & Hd & _).
  split; [exact Hid|exact Hd].
Defined.


(** One unit at 1.035 brings 1.03: the float64 nearest to 1.035 lies below
    it, so the revenue is rounded down. *)
Example half_cent_is_rounded_down :
  exists out,
    clean_and_transform Iso.coercions half_cent = Return (out, 0) /\
    map (at_col "total_revenue") (rows out) = [Float (103 # 100)].
Proof. eexists. split; vm_compute; reflexivity. Qed.

(** 10^10 units at 10^9 each: the columns are int64 and the product wraps
    around to a negative revenue. *)
Example whole_numbers_wrap_around :
  exists out,
    clean_and_transform Iso.coercions whole_numbers = Return (out, 0) /\
    dtypes out !! "total_revenue" = Some int64 /\
    map (at_col "total_revenue") (rows out) = [Num (- 8446744073709551616)].
Proof. eexists. split; [|split]; vm_compute; reflexivity. Qed.

(** Order dates with the offsets +02:00 and -05:00: the cleaning step
    raises at the [.dt] accessor. *)
Example two_zones_raise :
  validate_schema two_zones = Return tt /\
  clean_and_transform Iso.coercions two_zones = Raise (AttributeError "dt").
Proof. split; vm_compute; reflexivity. Qed.

(** The unit-test batch: two of the three rows stay, in their order. *)
Lemma cleaned_rows_keep_batch_order_witness :
  clean_and_transform Iso.coercions test_batch = Return (cleaned_of test_batch, 1) /\
  sublist (map (at_col "order_id") (rows (cleaned_of test_batch)))
          (map (at_col "order_id") (rows test_batch)) /\
  len (cleaned_of test_batch) + 1 = len test_batch.
Proof.
  split; [exact test_batch_cleaned_of|].
  destruct (cleaned_rows_keep_batch_order _ _ _ _ test_batch_cleaned_of) as (Hs & Hl & _).
  split; [exact Hs|exact Hl].
Defined.

(** The unit-test batch: the cleaned frame has one column more. *)
Lemma cleaning_leaves_other_columns_witness :
  clean_and_transform Iso.coercions test_batch = Return (cleaned_of test_batch, 1) /\
  columns (cleaned_of test_batch) = columns test_batch ∪ {["total_revenue"]}.
Proof.
  split; [exact test_batch_cleaned_of|].
  exact (proj1 (cleaning_leaves_other_columns _ _ _ _ test_batch_cleaned_of)).
Defined.


(** The two cleaned rows of the unit-test batch make one page. *)
Lemma upsert_orders_counts_the_last_page_witness :
  Pandas.empty (cleaned_of test_batch) = false /\
  exists conn',
    upsert_orders (server 1) (cleaned_of test_batch) (mkConn empty_db empty_db [])
    = (conn', Return (2, 0)) /\
    1 <= 2 <= 500.
Proof.
  assert (He : Pandas.empty (cleaned_of test_batch) = false) by (vm_compute; reflexivity).
  split; [exact He|].
  exists (fst (upsert_orders (server 1) (cleaned_of test_batch) (mkConn empty_db empty_db []))).
  match goal with |- ?A /\ _ => assert (H : A) by (vm_compute; reflexivity) end.
  split; [exact H|].
  exact (proj1 (proj2 (upsert_orders_counts_the_last_page _ _ _ _ _ _ He H))).
Defined.

(** The cleaned unit-test batch on an empty store: the other tables stay
    empty. *)
Lemma upsert_orders_stores_the_batch_witness :
  Pandas.empty (cleaned_of test_batch) = false /\
  exists conn',
    upsert_orders (server 1) (cleaned_of test_batch) (mkConn empty_db empty_db [])
    = (conn', Return (2, 0)) /\
    purchased_products (session conn') = ∅ /\ pipeline_runs (session conn') = [].
Proof.
  assert (He : Pandas.empty (cleaned_of test_batch) = false) by (vm_compute; reflexivity).
  split; [exact He|].
  exists (fst (upsert_orders (server 1) (cleaned_of test_batch) (mkConn empty_db empty_db []))).
  match goal with |- ?A /\ _ => assert (H : A) by (vm_compute; reflexivity) end.
  split; [exact H|].
  destruct (upsert_orders_stores_the_batch _ _ _ _ _ He H) as (Hp & Hr & _).
  split; [exact Hp|exact Hr].
Defined.

(** The cleaned unit-test batch, loaded twice: two audit rows. *)
Lemma replayed_load_counts_twice_witness :
  exists db1 db2,
    load_to_postgres (server 1) (cleaned_of test_batch) 1 "sales.csv" "run-1" empty_db
    = (db1, Return tt) /\
    load_to_postgres (server 2) (cleaned_of test_batch) 1 "sales.csv" "run-1" db1
    = (db2, Return tt) /\
    List.length (pipeline_runs db2) = S (List.length (pipeline_runs db1)).
Proof.
  exists (fst (load_to_postgres (server 1) (cleaned_of test_batch) 1 "sales.csv" "run-1"
                 empty_db)).
  match goal with |- exists db2, ?A /\ _ => assert (H : A) by (vm_compute; reflexivity) end.
  destruct (replayed_load_counts_twice 1 2 _ _ _ _ _ _ H)
    as (db2 & agg & _ & H2 & _ & _ & _ & _ & Hlen).
  exists db2. split; [exact H|]. split; [exact H2|exact Hlen].
Defined.

(** The cleaned unit-test batch, loaded into an empty store: the first
    audit row. *)
Lemma successful_load_logs_one_run_witness :
  exists db' rows_inserted,
    load_to_postgres (server 1) (cleaned_of test_batch) 1 "sales.csv" "run-1" empty_db
    = (db', Return tt) /\
    pipeline_runs db'
    = [] ++ [mkRun (next_run_id [])
               [ Str "run-1"; Str "sales.csv"; Num (inject_Z rows_inserted);
                 Num (inject_Z 1); Str "success" ] 1].
Proof.
  exists (fst (load_to_postgres (server 1) (cleaned_of test_batch) 1 "sales.csv" "run-1"
                 empty_db)).
  match goal with |- exists n, ?A /\ _ => assert (H : A) by (vm_compute; reflexivity) end.
  destruct (successful_load_logs_one_run _ _ _ _ _ _ _ H) as (ins & Hr & _).
  exists ins. split; [exact H|exact Hr].
Defined.

(** Laptops sold as electronics and as computers: the load is refused. *)
Lemma product_in_two_categories_is_refused_witness :
  clean_and_transform Iso.coercions two_categories = Return (cleaned_of two_categories, 0) /\
  load_to_postgres (server 1) (cleaned_of two_categories) 0 "sales.csv" "run-1" empty_db
  = (empty_db, Raise (DatabaseError "21000")).
Proof.
  assert (H : clean_and_transform Iso.coercions two_categories
              = Return (cleaned_of two_categories, 0)) by (vm_compute; reflexivity).
  split; [exact H|].
  apply (product_in_two_categories_is_refused
           Iso.coercions 1 two_categories (cleaned_of two_categories) 0 "sales.csv" "run-1"
           empty_db "Laptop" "Electronics" "Computers" H).
  - vm_compute. discriminate.
  - intros E. apply (f_equal (@List.length _)) in E. vm_compute in E. discriminate.
  - intros E. apply (f_equal (@List.length _)) in E. vm_compute in E. discriminate.
  - discriminate.
Defined.

(** The cleaned unit-test batch is accepted by an empty store. *)
Lemma cleaned_batch_is_accepted_witness :
  clean_and_transform Iso.coercions test_batch = Return (cleaned_of test_batch, 1) /\
  exists conn' rows_inserted rows_skipped,
    upsert_orders (server 1) (cleaned_of test_batch) (mkConn empty_db empty_db [])
    = (conn', Return (rows_inserted, rows_skipped)) /\
    (len (cleaned_of test_batch) <= 500 ->
     rows_inserted = len (cleaned_of test_batch) /\ rows_skipped = 0).
Proof.
  split; [exact test_batch_cleaned_of|].
  destruct (cleaned_batch_is_accepted Iso.coercions 1 _ _ _ (mkConn empty_db empty_db [])
              test_batch_cleaned_of) as (conn' & ins & sk & H & Hle & _).
  exists conn', ins, sk. split; [exact H|exact Hle].
Defined.


(** The unit-test batch without its status column: nothing is sent. *)
Lemma upsert_orders_needs_every_column_witness :
  Pandas.empty Runs.without_status = false /\
  exists missing,
    upsert_orders (server 1) Runs.without_status (mkConn empty_db empty_db [])
    = (mkConn empty_db empty_db [], Raise (KeyError missing)).
Proof.
  assert (He : Pandas.empty Runs.without_status = false) by (vm_compute; reflexivity).
  split; [exact He|].
  destruct (upsert_orders_needs_every_column (server 1) Runs.without_status
              (mkConn empty_db empty_db []) "status" He) as (m & _ & _ & H).
  - apply list_elem_of_In. unfold order_columns. simpl. auto 20.
  - apply (bool_decide_unpack _). vm_compute. exact I.
  - exists m. exact H.
Defined.

Section DagRunExamples.
Import Config Task S3 Tasks.

(** Two uploads are pending: one of them is downloaded. *)
Lemma download_takes_the_first_key_witness :
  minio Runs.pending !! minio_raw_bucket Runs.settings = Some Runs.uploads /\
  Runs.uploads <> ∅ /\
  exists object_key body,
    Runs.uploads !! object_key = Some body /\
    download_from_minio Runs.settings "/tmp/sales_raw_k3x9.csv" Runs.pending
    = (mkWorld (minio Runs.pending)
         (<["/tmp/sales_raw_k3x9.csv" := body]> (disk Runs.pending))
         (postgres Runs.pending),
       Done (object_key, "/tmp/sales_raw_k3x9.csv")).
Proof.
  assert (Hb : minio Runs.pending !! minio_raw_bucket Runs.settings = Some Runs.uploads)
    by (vm_compute; reflexivity).
  assert (Hne : Runs.uploads <> ∅).
  { intros H. apply (f_equal (fun b : bucket => b !! "sales_20240601_120000.csv")) in H.
    vm_compute in H. discriminate. }
  split; [exact Hb|]. split; [exact Hne|].
  destruct (proj2 (download_takes_the_first_key Runs.settings "/tmp/sales_raw_k3x9.csv"
                     Runs.pending Runs.uploads Hb) Hne) as (key & body & Hk & _ & Hd).
  exists key, body. split; [exact Hk|exact Hd].
Defined.

(** The first upload is moved to the processed bucket. *)
Lemma archive_moves_the_object_witness :
  exists w',
    archive_file Runs.settings served "sales_20240601_120000.csv" "/tmp/a.csv"
      "/tmp/a_cleaned.parquet" Runs.pending = (w', Done tt) /\
    minio w' !! minio_processed_bucket Runs.settings
    = Some (<["sales_20240601_120000.csv" := "csv-1"]> ∅) /\
    minio w' !! minio_raw_bucket Runs.settings
    = Some (delete "sales_20240601_120000.csv" Runs.uploads).
Proof.
  destruct (archive_moves_the_object Runs.settings served "sales_20240601_120000.csv"
              "/tmp/a.csv" "/tmp/a_cleaned.parquet" Runs.pending Runs.uploads ∅ "csv-1")
    as (w' & H & Hp & Hr & _).
  - reflexivity.
  - reflexivity.
  - discriminate.
  - vm_compute. reflexivity.
  - vm_compute. reflexivity.
  - vm_compute. reflexivity.
  - exists w'. split; [exact H|]. split; [exact Hp|exact Hr].
Defined.

(** The copy is served and the delete times out: the task fails, and the
    first upload is in both buckets. *)
Lemma archive_never_loses_the_object_witness :
  exists w',
    archive_file Runs.settings Runs.delete_times_out "sales_20240601_120000.csv"
      "/tmp/a.csv" "/tmp/a_cleaned.parquet" Runs.pending
    = (w', Failed (ClientError "RequestTimeout")) /\
    minio w' !! minio_raw_bucket Runs.settings = Some Runs.uploads /\
    minio w' !! minio_processed_bucket Runs.settings
    = Some {[ "sales_20240601_120000.csv" := "csv-1" ]}.
Proof.
  exists (fst (archive_file Runs.settings Runs.delete_times_out "sales_20240601_120000.csv"
                 "/tmp/a.csv" "/tmp/a_cleaned.parquet" Runs.pending)).
  match goal with |- ?A /\ _ => assert (H : A) by (vm_compute; reflexivity) end.
  split; [exact H|].
  destruct (archive_never_loses_the_object _ _ _ _ _ _ _ _ H) as (_ & _ & Hraw & _).
  split; [rewrite Hraw|]; vm_compute; reflexivity.
Defined.

(** An object that is not in the raw bucket: nothing changes. *)
Example archive_of_a_missing_object :
  archive_file Runs.settings served "sales_19990101_000000.csv" "/tmp/a.csv"
    "/tmp/a_cleaned.parquet" Runs.pending
  = (Runs.pending, Failed (ClientError "NoSuchKey")).
Proof. vm_compute. reflexivity. Qed.

(** A run on the pending uploads in which the delete times out: the run
    fails, the first upload is still pending, and its batch is loaded. *)
Lemma failed_run_leaves_the_file_pending_witness :
  exists w',
    dag_run Runs.settings Runs.formats Iso.coercions (server 1) Runs.delete_times_out
      "/tmp/sales_raw_k3x9.csv" "run-1" Runs.pending
    = (w', Failed (ClientError "RequestTimeout")) /\
    minio w' !! minio_raw_bucket Runs.settings = Some Runs.uploads /\
    size (orders (postgres w')) = 2%nat /\
    List.length (pipeline_runs (postgres w')) = 1%nat.
Proof.
  exists (fst (dag_run Runs.settings Runs.formats Iso.coercions (server 1)
                 Runs.delete_times_out "/tmp/sales_raw_k3x9.csv" "run-1" Runs.pending)).
  match goal with |- ?A /\ _ => assert (H : A) by (vm_compute; reflexivity) end.
  split; [exact H|].
  destruct (failed_run_leaves_the_file_pending _ _ _ _ _ _ _ _ _ _ H) as [Hraw _].
  split; [rewrite Hraw; vm_compute; reflexivity|].
  split; vm_compute; reflexivity.
Defined.

(** A run on an object that is no CSV file fails at the validation and
    leaves store and database as they were. *)
Example unreadable_file_is_left_pending :
  dag_run Runs.settings Runs.formats Iso.coercions (server 1) served
    "/tmp/sales_raw_k3x9.csv" "run-1" Runs.unreadable
  = (mkWorld (minio Runs.unreadable) {[ "/tmp/sales_raw_k3x9.csv" := "garbage" ]}
       (postgres Runs.unreadable),
     Failed FormatError).
Proof. vm_compute. reflexivity. Qed.

(** A run on the pending uploads goes through with the first of them. *)
Lemma successful_run_loads_and_archives_witness :
  exists w',
    dag_run Runs.settings Runs.formats Iso.coercions (server 1) served
      "/tmp/sales_raw_k3x9.csv" "run-1" Runs.pending
    = (w', Done tt) /\
    exists raw object_key body df' rows_skipped,
      minio Runs.pending !! minio_raw_bucket Runs.settings = Some raw /\
      raw !! object_key = Some body /\
      Dag.load_to_postgres (server 1) df' rows_skipped object_key "run-1"
        (postgres Runs.pending)
      = (postgres w', Return tt) /\
      minio w' !! minio_raw_bucket Runs.settings = Some (delete object_key raw).
Proof.
  exists (fst (dag_run Runs.settings Runs.formats Iso.coercions (server 1) served
                 "/tmp/sales_raw_k3x9.csv" "run-1" Runs.pending)).
  match goal with |- ?A /\ _ => assert (H : A) by (vm_compute; reflexivity) end.
  split; [exact H|].
  destruct (successful_run_loads_and_archives Runs.settings _ _ _ _ _ _ _ _
              ltac:(discriminate) H)
    as (raw & processed & key & body & df & out & k & parquet & df' &
        Hraw & _ & Hkey & _ & _ & _ & _ & _ & _ & Hload & Hr & _).
  exists raw, key, body, df', k.
  split; [exact Hraw|]. split; [exact Hkey|]. split; [exact Hload|exact Hr].
Defined.

(** An upload stamped before the two pending ones raises once the object
    is written, and is the next download. *)
Lemma upload_raises_after_writing_witness :
  minio Runs.pending !! minio_raw_bucket Runs.settings = Some Runs.uploads /\
  (forall k, is_Some (Runs.uploads !! k) ->
             String.leb "sales_20240531_235900.csv" k = true) /\
  exists w1,
    Generator.upload_to_minio (fun _ => "csv-0") Runs.settings "20240531_235900"
      test_batch Runs.pending = (w1, Failed (Exn (ValueError ClosedFile))) /\
    download_from_minio Runs.settings "/tmp/sales_raw_k3x9.csv" w1
    = (mkWorld (minio w1) (<["/tmp/sales_raw_k3x9.csv" := "csv-0"]> (disk Runs.pending))
         (postgres Runs.pending),
       Done ("sales_20240531_235900.csv", "/tmp/sales_raw_k3x9.csv")).
Proof.
  assert (Hb : minio Runs.pending !! minio_raw_bucket Runs.settings = Some Runs.uploads)
    by (vm_compute; reflexivity).
  assert (Hmin : forall k, is_Some (Runs.uploads !! k) ->
                           String.leb "sales_20240531_235900.csv" k = true).
  { intros k Hk. apply (proj2 (elem_of_keys _ _)) in Hk.
    assert (Ek : keys Runs.uploads
                 = ["sales_20240601_120000.csv"; "sales_20240601_121500.csv"])
      by (vm_compute; reflexivity).
    rewrite Ek in Hk.
    apply list_elem_of_In in Hk.
    destruct Hk as [<-|[<-|[]]]; vm_compute; reflexivity. }
  split; [exact Hb|]. split; [exact Hmin|].
  destruct (upload_raises_after_writing (fun _ => "csv-0") Runs.settings
              "20240531_235900" "/tmp/sales_raw_k3x9.csv" test_batch
              Runs.pending Runs.uploads Hb) as (Hup & _ & Hdown & _).
  eexists. split; [exact Hup|]. exact (Hdown Hmin).
Defined.

End DagRunExamples.
